(** * shadcn-vue: registry build and installer

    A shallow embedding of the registry crawler ([buildRegistry],
    [crawlUI], [crawlExample], [crawlBlock], [buildUIRegistry],
    [buildBlockRegistry], [getFileDependencies], [getBlockMetadata]) and
    of the installer of the CLI
    ([packages/cli/src/utils/updaters/update-files.ts]: [resolveTargetDir],
    [updateFiles]).

    Everything the TypeScript code imports from outside the repository
    (the [pathe] path functions, [node:fs], the oxc and Vue compilers, the
    [prompts] package) is an interface here, so that the theorems hold
    for every implementation of it; small concrete instances are given
    after the code, to run it on examples. *)

From stdpp Require Import base option list gmap strings.
From Stdlib Require Import Ascii String DecimalString PrimFloat.

Open Scope string_scope.
Set Warnings "-register-all".

(** ** JavaScript strings, sets and values *)

Module Js.

(** [s.startsWith(p)] *)
Fixpoint startsWith (s p : string) : bool :=
  match p, s with
  | EmptyString, _ => true
  | String _ _, EmptyString => false
  | String a p', String b s' => if Ascii.eqb a b then startsWith s' p' else false
  end.

(** [s.endsWith(suf)]: some tail of [s] is [suf]. *)
Fixpoint endsWith (s suf : string) : bool :=
  String.eqb s suf ||
  match s with
  | EmptyString => false
  | String _ s' => endsWith s' suf
  end.

(** [s.slice(n)] *)
Fixpoint slice (n : nat) (s : string) : string :=
  match n, s with
  | O, _ => s
  | S _, EmptyString => EmptyString
  | S n', String _ s' => slice n' s'
  end.

(** [s.replace(pat, repl)] with a string pattern: the first occurrence
    only. *)
Fixpoint replace (pat repl s : string) : string :=
  if startsWith s pat then repl ++ slice (String.length pat) s
  else match s with
       | EmptyString => EmptyString
       | String c s' => String c (replace pat repl s')
       end.

(** [s.split(c)] for a one-character separator. The result is never
    empty: [''.split('/')] is [['']]. *)
Fixpoint split (c : ascii) (s : string) : list string :=
  match s with
  | EmptyString => [EmptyString]
  | String a s' =>
      if Ascii.eqb a c then EmptyString :: split c s'
      else match split c s' with
           | [] => [String a EmptyString]
           | h :: t => String a h :: t
           end
  end.

(** [s.split(sep)[0]] for a string separator: the text before the first
    occurrence of [sep], all of [s] when there is none. *)
Fixpoint beforeFirst (sep s : string) : string :=
  if startsWith s sep then EmptyString
  else match s with
       | EmptyString => EmptyString
       | String c s' => String c (beforeFirst sep s')
       end.

(** [l.push(x)] *)
Definition push {A} (l : list A) (x : A) : list A := (l ++ [x])%list.

(** [l.at(-1)] *)
Definition at_last {A} (l : list A) : option A := last l.

(** A [Set<string>]: insertion ordered, no duplicates. [Array.from]
    of it is the list itself. *)
Abbreviation StrSet := (list string).

Definition set_empty : StrSet := [].

Definition set_add (x : string) (s : StrSet) : StrSet :=
  if decide (x ∈ s) then s else s ++ [x].

Definition set_has (x : string) (s : StrSet) : bool := bool_decide (x ∈ s).

(** [xs.forEach(x => s.add(x))] *)
Definition set_addAll (xs : list string) (s : StrSet) : StrSet :=
  foldl (fun acc x => set_add x acc) s xs.

(** The values a metadata field or a literal node can hold; a number
    is a double. *)
Inductive Value : Type :=
| VUndefined
| VNull
| VString (s : string)
| VNumber (n : float)
| VBoolean (b : bool).

(** An object made by an object literal, with fields of the values
    above: its own fields, and whether its prototype is still
    [Object.prototype]; when it is not, it is [null]. *)
Record PlainObject : Type := mkObject {
  ownFields : gmap string Value;
  hasPrototype : bool
}.

(** [o[key]] for an own field. *)
Global Instance PlainObject_lookup : Lookup string Value PlainObject :=
  fun key o => ownFields o !! key.

(** [o[key] = v]. Every key but [__proto__] becomes an own field. The
    key [__proto__] is the accessor of [Object.prototype]: its setter
    takes the prototype away when [v] is [null] and does nothing for
    another primitive, and adds no field. On an object that has lost
    the prototype, [__proto__] is a key like the others. *)
Definition setField (key : string) (v : Value) (o : PlainObject) : PlainObject :=
  if String.eqb key "__proto__" && hasPrototype o then
    match v with
    | VNull => mkObject (ownFields o) false
    | _ => o
    end
  else mkObject (<[key := v]> (ownFields o)) (hasPrototype o).

(** [String(n)] for a length. *)
Definition ofNat (n : nat) : string := NilEmpty.string_of_uint (Nat.to_uint n).

End Js.

(** ** The dependency tables *)

(** [[Dependency, [...PeerDependencies]]] *)
Definition DEPENDENCIES : gmap string (list string) :=
  list_to_map
    [ ("@vueuse/core", []);
      ("vue-sonner", []);
      ("vaul-vue", []);
      ("v-calendar", []);
      ("@tanstack/vue-table", []);
      ("@unovis/vue", ["@unovis/ts"]);
      ("embla-carousel-vue", []);
      ("vee-validate", ["@vee-validate/zod"; "zod"]) ].

(** Some dependencies latest tag were not compatible with Vue3. *)
Definition DEPENDENCIES_WITH_TAGS : gmap string string :=
  list_to_map [ ("v-calendar", "v-calendar@next") ].

Definition REGISTRY_DEPENDENCY : string := "@/".

(** ** The dependency classifier *)

(** The two sets [getFileDependencies] fills. *)
Record FileDeps : Type := mkFileDeps {
  registryDependencies : Js.StrSet;
  dependencies : Js.StrSet
}.

Definition noDeps : FileDeps :=
  {| registryDependencies := Js.set_empty; dependencies := Js.set_empty |}.

(** [populateDeps], with the two sets of its closure passed explicitly. *)
Definition populateDeps (source : string) (acc : FileDeps) : FileDeps :=
  let peerDeps := DEPENDENCIES !! source in
  let taggedDeps := DEPENDENCIES_WITH_TAGS !! source in
  let deps :=
    match peerDeps with
    | Some peers =>
        let d := match taggedDeps with
                 | Some tagged => Js.set_add tagged (dependencies acc)
                 | None => Js.set_add source (dependencies acc)
                 end in
        Js.set_addAll peers d
    | None => dependencies acc
    end in
  let regs :=
    if Js.startsWith source REGISTRY_DEPENDENCY then
      let component := default "" (Js.at_last (Js.split "/" source)) in
      Js.set_add component (registryDependencies acc)
    else registryDependencies acc in
  {| registryDependencies := regs; dependencies := deps |}.

(** [sources.forEach(source => populateDeps(source))] *)
Definition populateAll (sources : list string) (acc : FileDeps) : FileDeps :=
  foldl (fun a s => populateDeps s a) acc sources.

(** ** The registry data model *)

(** The item and file types of the registry schema. *)
Inductive RegistryType : Type :=
| registry_ui
| registry_example
| registry_block
| registry_page
| registry_component
| registry_hook.

Global Instance RegistryType_eq_dec : EqDecision RegistryType.
Proof. solve_decision. Defined.

(** [RegistryFiles]: [content] and [target] are optional in the schema,
    [None] is [undefined]. *)
Module File.
Record t : Type := mk {
  content : option string;
  path : string;
  type : RegistryType;
  target : option string
}.
End File.

(** [RegistryItem] *)
Module Item.
Record t : Type := mk {
  name : string;
  type : RegistryType;
  files : list File.t;
  registryDependencies : list string;
  dependencies : list string
}.
End Item.

Abbreviation Registry := (list Item.t).

(** Truthiness of an optional string: [undefined] and [''] are falsy. *)
Definition truthy (s : option string) : bool :=
  match s with
  | Some s => negb (String.eqb s "")
  | None => false
  end.

(** ** What the code imports from outside the repository *)

(** [pathe]. [join] and [resolve] take any number of segments. *)
Class Pathe : Type := {
  join : list string -> string;
  resolve : list string -> string;
  dirname : string -> string;
  basename : string -> string;
  relative : string -> string -> string
}.

(** [Dirent] of [node:fs]. *)
Module Dirent.
Inductive Kind : Type := file | directory | other.
Record t : Type := mk { name : string; kind : Kind }.
Definition isFile (d : t) : bool :=
  match kind d with file => true | _ => false end.
Definition isDirectory (d : t) : bool :=
  match kind d with directory => true | _ => false end.
End Dirent.

(** [node:fs/promises] as the crawler uses it: [readdir path recursive]
    with [withFileTypes: true], and [readFile] as utf8. [None] is a
    rejected promise. *)
Class ReadFs : Type := {
  readdir : string -> bool -> option (list Dirent.t);
  readFile : string -> option string
}.

(** The part of an oxc program the crawler looks at: the [type] of
    every top-level statement and the [value] of its [source]. *)
Module Oxc.
Record Statement : Type := mk { type : string; source_value : string }.
End Oxc.

(** The part of the Babel syntax tree [getBlockMetadata] looks at. *)
Module Ast.
(** An initializer. Of the expressions of Babel the literals of these
    four kinds have a [value] property: a string, a double, a boolean,
    and for a BigInt literal the string of its digits ([10n] has the
    value ['10']). Every other expression ([null], a regular
    expression, a template, a call, an object, ...) has none. *)
Inductive Expression : Type :=
| StringLiteral (value : string)
| NumericLiteral (value : float)
| BooleanLiteral (value : bool)
| BigIntLiteral (value : string)
| OtherExpression (type : string).

(** [init.value] *)
Definition value (e : Expression) : Js.Value :=
  match e with
  | StringLiteral s => Js.VString s
  | NumericLiteral n => Js.VNumber n
  | BooleanLiteral b => Js.VBoolean b
  | BigIntLiteral digits => Js.VString digits
  | OtherExpression _ => Js.VUndefined
  end.

(** The [id] of a declarator: an identifier, or a destructuring
    pattern, which has no [name]. *)
Inductive Pattern : Type :=
| Identifier (name : string)
| OtherPattern (type : string).

(** [id.name] as a property key: [undefined] becomes ['undefined']. *)
Definition name_key (p : Pattern) : string :=
  match p with
  | Identifier n => n
  | OtherPattern _ => "undefined"
  end.

Record VariableDeclarator : Type := mkDeclarator {
  id : Pattern;
  init : option Expression
}.

(** A node: its [type], its [declaration] property (export
    declarations have one), its [declarations] (variable declarations
    have them) and the other child nodes, in the order [walk] reaches
    them. *)
Inductive Node : Type :=
| mkNode (type : string) (declaration : option Node)
         (declarations : list VariableDeclarator) (children : list Node).

Definition type (n : Node) : string :=
  match n with mkNode t _ _ _ => t end.
Definition declaration (n : Node) : option Node :=
  match n with mkNode _ d _ _ => d end.
Definition declarations (n : Node) : list VariableDeclarator :=
  match n with mkNode _ _ ds _ => ds end.
Definition children (n : Node) : list Node :=
  match n with mkNode _ _ _ cs => cs end.

(** [walk(ast, { enter })] of estree-walker: [enter] on a node, then
    the walk of each of its child nodes. *)
Fixpoint walk {M : Type} (enter : Node -> M -> M) (n : Node) (m : M) : M :=
  match n with
  | mkNode _ d _ cs =>
      let m1 := enter n m in
      let m2 := match d with
                | Some dn => walk enter dn m1
                | None => m1
                end in
      (fix walkAll (l : list Node) (m : M) : M :=
         match l with
         | [] => m
         | c :: l' => walkAll l' (walk enter c m)
         end) cs m2
  end.

(** The walk of an array of nodes: the array itself has no
    [declaration], so [enter] does nothing on it. *)
Definition walkAll {M : Type} (enter : Node -> M -> M) (l : list Node) (m : M) : M :=
  foldl (fun acc c => walk enter c acc) m l.
End Ast.

(** [vue/compiler-sfc] *)
Module Sfc.
Record Block : Type := mkBlock { content : string }.
Record Descriptor : Type := mkDescriptor {
  script : option Block;
  scriptSetup : option Block
}.
Record ImportBinding : Type := mkImport { source : string }.
Record Compiled : Type := mkCompiled {
  imports : option (list (string * ImportBinding));
  scriptAst : option (list Ast.Node)
}.
(** [descriptor.script?.content] as a condition *)
Definition hasContent (b : option Block) : bool := truthy (content <$> b).
End Sfc.

(** The two parsers. [None] is a thrown parse failure. *)
Class Compilers : Type := {
  parseSync : string -> string -> option (list Oxc.Statement);
  parse : string -> string -> option Sfc.Descriptor;
  compileScript : Sfc.Descriptor -> option Sfc.Compiled
}.

(** [for (const x of l) body], where the body can throw. *)
Fixpoint forOf {A S : Type} (body : S -> A -> option S) (l : list A) (s : S) : option S :=
  match l with
  | [] => Some s
  | x :: l' => s' ← body s x; forOf body l' s'
  end.

(** ** The crawler *)

Section Crawler.
Context `{Pathe} `{ReadFs} `{Compilers}.

(** [getFileDependencies]: the imports of a script file or of a
    single-file component, classified by [populateDeps]. *)
Definition getFileDependencies (filename sourceCode : string) : option FileDeps :=
  if Js.endsWith filename ".ts" then
    body ← parseSync sourceCode filename;
    let sources :=
      Oxc.source_value <$> filter (fun i => Oxc.type i = "ImportDeclaration") body in
    Some (populateAll sources noDeps)
  else
    descriptor ← parse sourceCode filename;
    if Sfc.hasContent (Sfc.script descriptor)
       || Sfc.hasContent (Sfc.scriptSetup descriptor) then
      compiled ← compileScript descriptor;
      imports ← Sfc.imports compiled;
      Some (populateAll ((fun kv => Sfc.source (snd kv)) <$> imports) noDeps)
    else Some noDeps.

(** The object [getBlockMetadata] starts from. *)
Definition metadata0 : Js.PlainObject :=
  Js.mkObject (list_to_map [ ("description", Js.VNull);
                             ("iframeHeight", Js.VNull);
                             ("containerClass", Js.VNull) ])
              true.

(** [metadata[decl.id.name] = decl.init ? decl.init.value : null] *)
Definition assignDeclarator (metadata : Js.PlainObject)
    (decl : Ast.VariableDeclarator) : Js.PlainObject :=
  Js.setField (Ast.name_key (Ast.id decl))
         match Ast.init decl with
         | Some init => Ast.value init
         | None => Js.VNull
         end
         metadata.

(** The [enter] callback of [getBlockMetadata]. *)
Definition enterMetadata (node : Ast.Node) (metadata : Js.PlainObject)
    : Js.PlainObject :=
  match Ast.declaration node with
  | Some declaration =>
      if decide (Ast.type declaration = "VariableDeclaration") then
        foldl assignDeclarator metadata (Ast.declarations declaration)
      else metadata
  | None => metadata
  end.

Definition getBlockMetadata (filename sourceCode : string)
    : option Js.PlainObject :=
  if Js.endsWith filename ".vue" then
    descriptor ← parse sourceCode filename;
    if Sfc.hasContent (Sfc.script descriptor) then
      ast ← compileScript descriptor;
      Some (match Sfc.scriptAst ast with
            | Some body => Ast.walkAll enterMetadata body metadata0
            | None => metadata0
            end)
    else Some metadata0
  else Some metadata0.

(** The locals of [buildUIRegistry] and [buildBlockRegistry]. *)
Record Building : Type := mkBuilding {
  files : list File.t;
  found : FileDeps
}.

(** [deps.dependencies.forEach(dep => dependencies.add(dep))] and the
    same for the registry dependencies. *)
Definition addDeps (deps : FileDeps) (acc : FileDeps) : FileDeps :=
  {| registryDependencies :=
       Js.set_addAll (registryDependencies deps) (registryDependencies acc);
     dependencies := Js.set_addAll (dependencies deps) (dependencies acc) |}.

(** The body of the loop of [buildUIRegistry]. *)
Definition buildUIRegistry_body (componentPath componentName : string)
    (b : Building) (dirent : Dirent.t) : option Building :=
  let type := registry_ui in
  if negb (Dirent.isFile dirent) then Some b
  else
    let filepath := join [componentPath; Dirent.name dirent] in
    let relativePath := join ["ui"; componentName; Dirent.name dirent] in
    source ← readFile filepath;
    let target := componentName ++ "/" ++ Dirent.name dirent in
    let files' :=
      Js.push (files b) (File.mk (Some source) relativePath type (Some target)) in
    (* only grab deps from the vue files *)
    if decide (Dirent.name dirent = "index.ts")
    then Some (mkBuilding files' (found b))
    else
      deps ← getFileDependencies filepath source;
      Some (mkBuilding files' (addDeps deps (found b))).

Definition buildUIRegistry (componentPath componentName : string) : option Item.t :=
  dir ← readdir componentPath false;
  b ← forOf (buildUIRegistry_body componentPath componentName) dir
            (mkBuilding [] noDeps);
  Some {| Item.name := componentName;
          Item.type := registry_ui;
          Item.files := files b;
          Item.registryDependencies := registryDependencies (found b);
          Item.dependencies := dependencies (found b) |}.

(** The body of the loop of [buildBlockRegistry]. *)
Definition buildBlockRegistry_body (blockPath blockName : string)
    (b : Building) (dirent : Dirent.t) : option Building :=
  if negb (Dirent.isFile dirent) then Some b
  else
    let isPage := bool_decide (Dirent.name dirent = "page.vue") in
    let type := if isPage then registry_page else registry_component in
    let compPath :=
      if isPage then Dirent.name dirent
      else "components/" ++ Dirent.name dirent in
    let filepath := join [blockPath; compPath] in
    let relativePath := join ["block"; blockName; compPath] in
    source ← readFile filepath;
    let target := if isPage then "pages/dashboard/index.vue" else "" in
    let files' :=
      Js.push (files b) (File.mk (Some source) relativePath type (Some target)) in
    deps ← getFileDependencies filepath source;
    Some (mkBuilding files' (addDeps deps (found b))).

Definition buildBlockRegistry (blockPath blockName : string) : option Item.t :=
  dir ← readdir blockPath true;
  b ← forOf (buildBlockRegistry_body blockPath blockName) dir
            (mkBuilding [] noDeps);
  Some {| Item.name := blockName;
          Item.type := registry_block;
          Item.files := files b;
          Item.registryDependencies := registryDependencies (found b);
          Item.dependencies := dependencies (found b) |}.

(** The body of the loop of [crawlUI]. *)
Definition crawlUI_body (rootPath : string) (uiRegistry : Registry)
    (dirent : Dirent.t) : option Registry :=
  if negb (Dirent.isDirectory dirent) then Some uiRegistry
  else
    let componentPath := resolve [rootPath; Dirent.name dirent] in
    ui ← buildUIRegistry componentPath (Dirent.name dirent);
    Some (Js.push uiRegistry ui).

Definition crawlUI (rootPath : string) : option Registry :=
  dir ← readdir rootPath true;
  forOf (crawlUI_body rootPath) dir [].

(** The single-file item of [crawlExample] and [crawlBlock]. *)
Definition singleFileItem (type : RegistryType) (folder target rootPath : string)
    (dirent : Dirent.t) : option Item.t :=
  let name := Js.beforeFirst ".vue" (Dirent.name dirent) in
  let filepath := join [rootPath; Dirent.name dirent] in
  source ← readFile filepath;
  let relativePath := join [folder; Dirent.name dirent] in
  let file := File.mk (Some source) relativePath type (Some target) in
  deps ← getFileDependencies filepath source;
  Some {| Item.name := name;
          Item.type := type;
          Item.files := [file];
          Item.registryDependencies := registryDependencies deps;
          Item.dependencies := dependencies deps |}.

Definition crawlExample_body (rootPath : string) (registry : Registry)
    (dirent : Dirent.t) : option Registry :=
  if negb (Js.endsWith (Dirent.name dirent) ".vue") || negb (Dirent.isFile dirent)
  then Some registry
  else
    item ← singleFileItem registry_example "example" "" rootPath dirent;
    Some (Js.push registry item).

Definition crawlExample (rootPath : string) : option Registry :=
  dir ← readdir rootPath false;
  forOf (crawlExample_body rootPath) dir [].

(** The body of the loop of [crawlBlock]. *)
Definition crawlBlock_body (rootPath : string) (registry : Registry)
    (dirent : Dirent.t) : option Registry :=
  if negb (Dirent.isFile dirent) then
    result ← buildBlockRegistry (rootPath ++ "/" ++ Dirent.name dirent)
                                 (Dirent.name dirent);
    if negb (Nat.eqb (List.length (Item.files result)) 0)
    then Some (Js.push registry result)
    else Some registry
  else if negb (Js.endsWith (Dirent.name dirent) ".vue") || negb (Dirent.isFile dirent)
  then Some registry
  else
    item ← singleFileItem registry_block "block" "pages/dashboard/index.vue"
                          rootPath dirent;
    Some (Js.push registry item).

Definition crawlBlock (rootPath : string) : option Registry :=
  dir ← readdir rootPath false;
  forOf (crawlBlock_body rootPath) dir [].

(** [buildRegistry], over the style names of [registry-styles]. The
    three crawls of a style read disjoint trees and share no state. *)
Definition buildRegistry (styles : list string) : option Registry :=
  let registryRootPath := resolve ["src"; "registry"] in
  forOf (fun registry style =>
           let uiPath := resolve [registryRootPath; style; "ui"] in
           let examplePath := resolve [registryRootPath; style; "example"] in
           let blockPath := resolve [registryRootPath; style; "block"] in
           ui ← crawlUI uiPath;
           example ← crawlExample examplePath;
           block ← crawlBlock blockPath;
           Some (registry ++ ui ++ example ++ block)%list)
        styles [].

End Crawler.

(** ** The installer *)

(** The project the installer writes into: its configuration, and the
    CLI utilities [update-files.ts] imports. *)
Class Project : Type := {
  Config : Type;
  (** [config.resolvedPaths.cwd] *)
  resolvedPaths_cwd : Config -> string;
  (** [config.typescript] *)
  typescript : Config -> bool;
  (** [config.tailwind.baseColor] *)
  tailwind_baseColor : Config -> string;
  ProjectInfo : Type;
  BaseColor : Type;
  getProjectInfo : string -> option ProjectInfo;
  getRegistryBaseColor : string -> option BaseColor;
  getRegistryItemFileTargetPath : File.t -> Config -> string;
  (** [transform({ filename, raw, config, baseColor })] *)
  transform : string -> string -> Config -> BaseColor -> option string
}.

(** The disk, written by this process only: what exists stays. *)
Class Disk : Type := {
  disk : Type;
  existsSync : disk -> string -> bool;
  (** [fs.mkdir(dir, { recursive: true })] *)
  mkdir : disk -> string -> option disk;
  (** [fs.writeFile(path, content, 'utf-8')] *)
  writeFile : disk -> string -> string -> option disk;
  mkdir_keeps : forall d dir d' p,
    mkdir d dir = Some d' -> existsSync d p = true -> existsSync d' p = true;
  writeFile_keeps : forall d f c d' p,
    writeFile d f c = Some d' -> existsSync d p = true -> existsSync d' p = true
}.

(** The two questions of the installer:
    [The folder <folderName> already exists. Would you like to overwrite?]
    and [The file <fileName> already exists. Would you like to overwrite?] *)
Inductive Question : Type :=
| FolderExists (folderName : string)
| FileExists (fileName : string).

(** What the installer does to the outside, in order. *)
Inductive Event : Type :=
| Asked (q : Question) (overwrite : bool)
| Mkdir (dir : string)
| WriteFile (filePath content : string)
| SpinnerStart
| SpinnerStop
| SpinnerInfo (text : string)
| SpinnerSucceed (text : string)
| LoggerLog (text : string)
| LoggerBreak.

Definition isAsked (e : Event) : bool :=
  match e with Asked _ _ => true | _ => false end.

(** The folder questions about [folderName]. *)
Definition isAskedFolder (folderName : string) (e : Event) : bool :=
  match e with
  | Asked (FolderExists n) _ => String.eqb n folderName
  | _ => false
  end.

(** [prompts]: the answer of the user, who has seen what happened so far. *)
Class User : Type := {
  confirm : list Event -> Question -> bool
}.

(** The [options] argument; [None] is an absent key. *)
Record Options : Type := mkOptions {
  overwrite : option bool;
  force : option bool;
  silent : option bool
}.

(** [{ overwrite: false, force: false, silent: false, ...options }] *)
Definition withDefaults (o : Options) : Options :=
  {| overwrite := Some (default false (overwrite o));
     force := Some (default false (force o));
     silent := Some (default false (silent o)) |}.

Definition isTrue (b : option bool) : bool := default false b.

(** [filePath.replace(/\.ts?$/, match => '.js')]: the leftmost tail that
    is [.ts] or [.t] becomes [.js]. *)
Fixpoint replaceTsExtension (filePath : string) : string :=
  if String.eqb filePath ".ts" || String.eqb filePath ".t" then ".js"
  else match filePath with
       | EmptyString => EmptyString
       | String c rest => String c (replaceTsExtension rest)
       end.

Section Installer.
Context `{Pathe} `{Project} `{Disk} `{User}.

Definition resolveTargetDir (projectInfo : ProjectInfo) (config : Config)
    (target : string) : string :=
  if Js.startsWith target "~/" then
    join [resolvedPaths_cwd config; Js.replace "~/" "" target]
  else join [resolvedPaths_cwd config; target].

(** The state of [updateFiles]: the disk, what was done so far, and
    the locals of the function. *)
Record State : Type := mkState {
  onDisk : disk;
  log : list Event;
  folderSkipped : gmap string bool;
  filesCreated : list string;
  filesUpdated : list string;
  filesSkipped : list string
}.

Definition emit (e : Event) (st : State) : State :=
  mkState (onDisk st) (Js.push (log st) e) (folderSkipped st)
          (filesCreated st) (filesUpdated st) (filesSkipped st).

Definition setDisk (d : disk) (st : State) : State :=
  mkState d (log st) (folderSkipped st)
          (filesCreated st) (filesUpdated st) (filesSkipped st).

(** [folderSkipped.set(folderName, skipped)] *)
Definition setFolderSkipped (folderName : string) (skipped : bool) (st : State) : State :=
  mkState (onDisk st) (log st) (<[folderName := skipped]> (folderSkipped st))
          (filesCreated st) (filesUpdated st) (filesSkipped st).

Definition pushCreated (p : string) (st : State) : State :=
  mkState (onDisk st) (log st) (folderSkipped st)
          (Js.push (filesCreated st) p) (filesUpdated st) (filesSkipped st).

Definition pushUpdated (p : string) (st : State) : State :=
  mkState (onDisk st) (log st) (folderSkipped st)
          (filesCreated st) (Js.push (filesUpdated st) p) (filesSkipped st).

Definition pushSkipped (p : string) (st : State) : State :=
  mkState (onDisk st) (log st) (folderSkipped st)
          (filesCreated st) (filesUpdated st) (Js.push (filesSkipped st) p).

(** [await prompts({ type: 'confirm', ... })]: the answer, and the
    state with the question logged. *)
Definition ask (q : Question) (st : State) : bool * State :=
  let answer := confirm (log st) q in
  (answer, emit (Asked q answer) st).

(** Lines 68 to 79: the destination [filePath] of a file and its
    [targetDir]. *)
Definition destination (projectInfo : ProjectInfo) (config : Config)
    (file : File.t) : string * string :=
  let targetDir := getRegistryItemFileTargetPath file config in
  let fileName := basename (File.path file) in
  let filePath := join [targetDir; fileName] in
  let '(filePath, targetDir) :=
    if truthy (File.target file) then
      let filePath := resolveTargetDir projectInfo config (default "" (File.target file)) in
      (filePath, dirname filePath)
    else (filePath, targetDir) in
  let filePath :=
    if negb (typescript config) then replaceTsExtension filePath else filePath in
  (filePath, targetDir).

(** Lines 129 to 145: create the directory, transform, write, and
    record the file as updated or created. *)
Definition writeOut (config : Config) (baseColor : BaseColor) (file : File.t)
    (filePath targetDir : string) (existingFile : bool) (st : State) : option State :=
  st ← (if negb (existsSync (onDisk st) targetDir) then
          d ← mkdir (onDisk st) targetDir;
          Some (emit (Mkdir targetDir) (setDisk d st))
        else Some st);
  content ← transform (File.path file) (default "" (File.content file)) config baseColor;
  d ← writeFile (onDisk st) filePath content;
  let st := emit (WriteFile filePath content) (setDisk d st) in
  Some (if existingFile
        then pushUpdated (relative (resolvedPaths_cwd config) filePath) st
        else pushCreated (relative (resolvedPaths_cwd config) filePath) st).

(** The body of the loop over the files. *)
Definition updateFile (options : Options) (config : Config)
    (projectInfo : ProjectInfo) (baseColor : BaseColor)
    (st : State) (file : File.t) : option State :=
  if negb (truthy (File.content file)) then Some st
  else
    let '(filePath, targetDir) := destination projectInfo config file in
    let fileName := basename (File.path file) in
    let existingFile := existsSync (onDisk st) filePath in
    if decide (File.type file = registry_ui) then
      let folderName := basename (dirname filePath) in
      let existingFolder := existsSync (onDisk st) (dirname filePath) in
      let st := if negb existingFolder
                then setFolderSkipped folderName false st else st in
      let st :=
        match folderSkipped st !! folderName with
        | None =>
            let st := emit SpinnerStop st in
            let '(overwrite, st) := ask (FolderExists folderName) st in
            let st := setFolderSkipped folderName (negb overwrite) st in
            emit SpinnerStart st
        | Some _ => st
        end in
      if decide (folderSkipped st !! folderName = Some true) then
        Some (pushSkipped (relative (resolvedPaths_cwd config) filePath) st)
      else writeOut config baseColor file filePath targetDir existingFile st
    else
      if existingFile && negb (isTrue (overwrite options)) then
        let st := emit SpinnerStop st in
        let '(overwrite, st) := ask (FileExists fileName) st in
        if negb overwrite then
          Some (pushSkipped (relative (resolvedPaths_cwd config) filePath) st)
        else
          writeOut config baseColor file filePath targetDir existingFile
                   (emit SpinnerStart st)
      else writeOut config baseColor file filePath targetDir existingFile st.

Definition emitAll (es : list Event) (st : State) : State :=
  foldl (fun st e => emit e st) st es.

Definition fileOrFiles (n : nat) : string :=
  if Nat.eqb n 1 then "file" else "files".

(** [for (const file of files) logger.log(`  - ${file}`)] unless silent *)
Definition logPaths (options : Options) (paths : list string) (st : State) : State :=
  if negb (isTrue (silent options))
  then emitAll ((fun file => LoggerLog ("  - " ++ file)) <$> paths) st
  else st.

(** Lines 148 to 151. *)
Definition reportNothing (st : State) : State :=
  let hasUpdatedFiles :=
    negb (Nat.eqb (List.length (filesCreated st)) 0)
    || negb (Nat.eqb (List.length (filesUpdated st)) 0) in
  if negb hasUpdatedFiles && Nat.eqb (List.length (filesSkipped st)) 0
  then emit (SpinnerInfo "No files updated.") st else st.

(** Lines 153 to 167. *)
Definition reportCreated (options : Options) (st : State) : State :=
  if negb (Nat.eqb (List.length (filesCreated st)) 0) then
    let st := emit (SpinnerSucceed
                      ("Created " ++ Js.ofNat (List.length (filesCreated st)) ++ " "
                       ++ fileOrFiles (List.length (filesCreated st)) ++ ":")) st in
    logPaths options (filesCreated st) st
  else emit SpinnerStop st.

(** Lines 169 to 183. *)
Definition reportUpdated (options : Options) (st : State) : State :=
  if negb (Nat.eqb (List.length (filesUpdated st)) 0) then
    let st := emit (SpinnerInfo
                      ("Updated " ++ Js.ofNat (List.length (filesUpdated st)) ++ " "
                       ++ fileOrFiles (List.length (filesUpdated st)) ++ ":")) st in
    logPaths options (filesUpdated st) st
  else st.

(** Lines 185 to 199; the noun follows the number of updated files. *)
Definition reportSkipped (options : Options) (st : State) : State :=
  if negb (Nat.eqb (List.length (filesSkipped st)) 0) then
    let st := emit (SpinnerInfo
                      ("Skipped " ++ Js.ofNat (List.length (filesSkipped st)) ++ " "
                       ++ fileOrFiles (List.length (filesUpdated st)) ++ ":")) st in
    logPaths options (filesSkipped st) st
  else st.

(** Lines 201 to 203. *)
Definition reportBreak (options : Options) (st : State) : State :=
  if negb (isTrue (silent options)) then emit LoggerBreak st else st.

(** Lines 148 to 203: the report. *)
Definition report (options : Options) (st : State) : State :=
  reportBreak options
    (reportSkipped options
       (reportUpdated options
          (reportCreated options (reportNothing st)))).

(** The state [updateFiles] starts from. *)
Definition start (d : disk) : State := mkState d [] ∅ [] [] [].

(** The loop over the files, from any state. *)
Definition updateEach (options : Options) (config : Config)
    (projectInfo : ProjectInfo) (baseColor : BaseColor)
    (files : list File.t) (st : State) : option State :=
  forOf (updateFile options config projectInfo baseColor) files st.

(** [updateFiles(files, config, options)] on the disk [d]. The state
    returned shows the disk, the log and the three lists at the end. *)
Definition updateFiles (files : option (list File.t)) (config : Config)
    (options : Options) (d : disk) : option State :=
  match files with
  | None | Some [] => Some (start d)
  | Some files =>
      let options := withDefaults options in
      let st := emit SpinnerStart (start d) in
      projectInfo ← getProjectInfo (resolvedPaths_cwd config);
      baseColor ← getRegistryBaseColor (tailwind_baseColor config);
      st ← updateEach options config projectInfo baseColor files st;
      Some (report options st)
  end.

End Installer.

(** ** Instances to run the code on *)

(** POSIX paths the way [pathe] treats them ([/] separators only). *)
Module Posix.

Definition isAbsolute (p : string) : bool := Js.startsWith p "/".

Definition segments (p : string) : list string :=
  filter (fun s => s <> "") (Js.split "/" p).

(** Resolve [.] and [..]; [acc] is the path so far, last segment
    first. *)
Fixpoint normalizeSegments (abs : bool) (segs acc : list string) : list string :=
  match segs with
  | [] => rev acc
  | s :: rest =>
      if String.eqb s "." then normalizeSegments abs rest acc
      else if String.eqb s ".." then
        match acc with
        | [] => normalizeSegments abs rest (if abs then [] else [".."])
        | top :: acc' =>
            if String.eqb top ".." then normalizeSegments abs rest (s :: acc)
            else normalizeSegments abs rest acc'
        end
      else normalizeSegments abs rest (s :: acc)
  end.

Definition unsegments (abs : bool) (segs : list string) : string :=
  let body := String.concat "/" segs in
  if abs then "/" ++ body
  else if String.eqb body "" then "." else body.

Definition normalize (p : string) : string :=
  unsegments (isAbsolute p) (normalizeSegments (isAbsolute p) (segments p) []).

Definition join (parts : list string) : string :=
  normalize (String.concat "/" (filter (fun s => s <> "") parts)).

Definition resolve (processCwd : string) (parts : list string) : string :=
  foldl (fun acc part =>
           if String.eqb part "" then acc
           else if isAbsolute part then normalize part
           else normalize (acc ++ "/" ++ part))
        (normalize processCwd) parts.

Definition dirname (p : string) : string :=
  let segs := segments p in
  unsegments (isAbsolute p) (take (List.length segs - 1) segs).

Definition basename (p : string) : string :=
  default "" (last (segments p)).

Fixpoint dropCommon (a b : list string) : list string * list string :=
  match a, b with
  | x :: a', y :: b' => if String.eqb x y then dropCommon a' b' else (a, b)
  | _, _ => (a, b)
  end.

Definition relative (from to : string) : string :=
  let '(up, down) := dropCommon (segments (normalize from)) (segments (normalize to)) in
  String.concat "/" (((fun _ => "..") <$> up) ++ down).

Definition pathe (processCwd : string) : Pathe :=
  Build_Pathe join (resolve processCwd) dirname basename relative.

End Posix.

(** A directory tree read through [readdir] and [readFile]. *)
Module Tree.

Inductive t : Type :=
| File (name content : string)
| Dir (name : string) (entries : list t).

Definition name (e : t) : string :=
  match e with File n _ => n | Dir n _ => n end.

Definition dirent (e : t) : Dirent.t :=
  match e with
  | File n _ => Dirent.mk n Dirent.file
  | Dir n _ => Dirent.mk n Dirent.directory
  end.

Definition entries (e : t) : option (list t) :=
  match e with File _ _ => None | Dir _ es => Some es end.

(** The entry at a path, given as segments below the root. *)
Fixpoint find (segs : list string) (root : list t) : option t :=
  match segs with
  | [] => None
  | s :: rest =>
      e ← List.find (fun e => String.eqb (name e) s) root;
      match rest with
      | [] => Some e
      | _ => es ← entries e; find rest es
      end
  end.

Definition listing (path : string) (root : list t) : option (list t) :=
  match Posix.segments path with
  | [] => Some root
  | segs => e ← find segs root; entries e
  end.

Fixpoint size (e : t) : nat :=
  match e with
  | File _ _ => 1
  | Dir _ es => S (foldr (fun e n => size e + n) 0 es)
  end.

(** The recursive listing in the order of Node: the entries of a
    directory, then the directories found, the last one first. *)
Fixpoint recursive (fuel : nat) (stack : list (list t)) (result : list Dirent.t)
    : list Dirent.t :=
  match fuel, stack with
  | S fuel', es :: stack' =>
      let found := omap entries es in
      recursive fuel' (rev found ++ stack') (result ++ (dirent <$> es))
  | _, _ => result
  end.

Definition readdir (root : list t) (path : string) (deep : bool)
    : option (list Dirent.t) :=
  es ← listing path root;
  if deep then Some (recursive (size (Dir "" es)) [es] [])
  else Some (dirent <$> es).

Definition readFile (root : list t) (path : string) : option string :=
  e ← find (Posix.segments path) root;
  match e with File _ c => Some c | Dir _ _ => None end.

Definition fs (root : list t) : ReadFs :=
  Build_ReadFs (readdir root) (readFile root).

End Tree.

(** Parsers given as tables from the source text to the parse. *)
Module Table.

Fixpoint assoc {A : Type} (l : list (string * A)) (k : string) : option A :=
  match l with
  | [] => None
  | (k', v) :: l' => if String.eqb k k' then Some v else assoc l' k
  end.

Global Instance Block_eq_dec : EqDecision Sfc.Block.
Proof. solve_decision. Defined.

Global Instance Descriptor_eq_dec : EqDecision Sfc.Descriptor.
Proof. solve_decision. Defined.

(** [scripts]: the statements of a script file; [components]: the
    descriptor of a component file and what it compiles to, [None]
    where the compiler throws. The tables hold every text that the
    samples give to a parser. *)
Definition compilers (scripts : list (string * list Oxc.Statement))
    (components : list (string * (Sfc.Descriptor * option Sfc.Compiled))) : Compilers :=
  Build_Compilers
    (fun code _ => assoc scripts code)
    (fun code _ => fst <$> assoc components code)
    (fun descriptor =>
       dc ← List.find (fun dc => bool_decide (fst dc = descriptor))
                      (snd <$> components);
       snd dc).

End Table.

(** A disk as the list of its paths, a file with its content. *)
Module Paths.

Definition t : Type := list (string * option string).

Definition existsSync (d : t) (p : string) : bool := bool_decide (p ∈ d.*1).

(** A directory and the directories above it. *)
Fixpoint upwards (fuel : nat) (dir : string) : list string :=
  match fuel with
  | O => []
  | S fuel' =>
      if String.eqb dir "/" || String.eqb dir "." then []
      else dir :: upwards fuel' (Posix.dirname dir)
  end.

Definition mkdir (d : t) (dir : string) : option t :=
  let missing :=
    filter (fun p => existsSync d p = false) (upwards (String.length dir) dir) in
  Some (((fun p => (p, None)) <$> missing) ++ d)%list.

(** Writing needs the directory; the new entry shadows an older one. *)
Definition writeFile (d : t) (f content : string) : option t :=
  if existsSync d (Posix.dirname f) then Some ((f, Some content) :: d) else None.

(** What exists stays, under [mkdir] and under [writeFile]. *)
Definition disk : Disk.
Proof.
  refine (Build_Disk t existsSync mkdir writeFile _ _).
  - abstract (intros d dir d' p; unfold mkdir, existsSync; intros [= <-] Hp;
              apply bool_decide_eq_true in Hp; apply bool_decide_eq_true;
              rewrite fmap_app; apply elem_of_app; by right).
  - abstract (intros d f c d' p; unfold writeFile;
              destruct (existsSync d (Posix.dirname f)); [|done];
              unfold existsSync; intros [= <-] Hp;
              apply bool_decide_eq_true in Hp; apply bool_decide_eq_true;
              rewrite fmap_cons; apply elem_of_cons; by right).
Defined.

End Paths.

(** A project: its root, the language flag, and the directory each file
    type is installed to. The transformers leave the text as it is. *)
Module Plain.

Record Config : Type := mkConfig {
  cwd : string;
  typescript : bool;
  baseColor : string
}.

Definition targetPath (file : File.t) (config : Config) : string :=
  match File.type file with
  | registry_ui => Posix.join [cwd config; "components/ui"]
  | registry_hook => Posix.join [cwd config; "composables"]
  | _ => Posix.join [cwd config; "components"]
  end.

(** [ProjectInfo] is the [isSrcDir] flag. *)
Definition project (isSrcDir : bool) : Project :=
  Build_Project Config cwd typescript baseColor bool unit
    (fun _ => Some isSrcDir) (fun _ => Some tt) targetPath
    (fun _ raw _ _ => Some raw).

(** A user who gives the listed answers in turn, then declines. *)
Definition user (answers : list bool) : User :=
  Build_User (fun log _ =>
    let asked := List.length (List.filter isAsked log) in
    default false (answers !! asked)).

End Plain.

(** ** The vocabulary of the statements *)

(** A string without the separator. *)
Definition noSlash (s : string) : Prop :=
  forall front back : string, s <> front ++ String "/" back.

(** [x] is none of the listed strings. *)
Ltac not_listed :=
  let Hin := fresh "Hin" in
  intros Hin;
  repeat (apply elem_of_cons in Hin as [Hin|Hin]; [discriminate Hin|]);
  by apply elem_of_nil in Hin.

Section ImportVocabulary.
Context `{Compilers}.

(** [source] is the specifier of an import of the file: of a
    top-level import declaration of a script file, or of an import
    binding of a compiled component file that has a script. *)
Definition importedBy (filename sourceCode source : string) : Prop :=
  if Js.endsWith filename ".ts" then
    exists body stmt,
      parseSync sourceCode filename = Some body
      /\ stmt ∈ body
      /\ Oxc.type stmt = "ImportDeclaration"
      /\ Oxc.source_value stmt = source
  else
    exists descriptor compiled imports binding,
      parse sourceCode filename = Some descriptor
      /\ (Sfc.hasContent (Sfc.script descriptor)
          || Sfc.hasContent (Sfc.scriptSetup descriptor)) = true
      /\ compileScript descriptor = Some compiled
      /\ Sfc.imports compiled = Some imports
      /\ binding ∈ imports
      /\ Sfc.source (snd binding) = source.

End ImportVocabulary.

Module AstFacts.
Import Ast.

Section Induction.
Variable P : Node -> Prop.
Hypothesis step : forall t d ds cs,
  match d with Some dn => P dn | None => True end ->
  Forall P cs -> P (mkNode t d ds cs).

Fixpoint Node_induction (n : Node) : P n :=
  match n with
  | mkNode t d ds cs =>
      step t d ds cs
        (match d as d0 return match d0 with Some dn => P dn | None => True end with
         | Some dn => Node_induction dn
         | None => I
         end)
        ((fix all (l : list Node) : Forall P l :=
            match l with
            | [] => @List.Forall_nil _ P
            | c :: l' => @List.Forall_cons _ P c l' (Node_induction c) (all l')
            end) cs)
  end.
End Induction.

(** The declarators [enter] assigns at a node: those of its
    [declaration], when that is a variable declaration. *)
Definition declared (n : Node) : list VariableDeclarator :=
  match declaration n with
  | Some dn =>
      if decide (type dn = "VariableDeclaration") then declarations dn else []
  | None => []
  end.

(** The declarators of the exported variable declarations of a tree,
    in the order of the walk. *)
Fixpoint exported (n : Node) : list VariableDeclarator :=
  match n with
  | mkNode _ d _ cs =>
      (declared n
       ++ match d with Some dn => exported dn | None => [] end
       ++ (fix all (l : list Node) : list VariableDeclarator :=
             match l with
             | [] => []
             | c :: l' => exported c ++ all l'
             end) cs)%list
  end.

Definition exportedAll (body : list Node) : list VariableDeclarator :=
  List.concat (exported <$> body).

End AstFacts.

(** The last declarator of a list that assigns the key [name]. *)
Definition lastDeclared (name : string) (ds : list Ast.VariableDeclarator)
    : option Ast.VariableDeclarator :=
  last (filter (fun d => Ast.name_key (Ast.id d) = name) ds).

(** What a declarator assigns: the value of a literal initializer (for
    a BigInt literal the string of its digits), [undefined] for an
    initializer that has no [value], [null] when there is no
    initializer. *)
Definition declaredValue (d : Ast.VariableDeclarator) : Js.Value :=
  match Ast.init d with
  | Some (Ast.StringLiteral s) => Js.VString s
  | Some (Ast.NumericLiteral n) => Js.VNumber n
  | Some (Ast.BooleanLiteral b) => Js.VBoolean b
  | Some (Ast.BigIntLiteral digits) => Js.VString digits
  | Some (Ast.OtherExpression _) => Js.VUndefined
  | None => Js.VNull
  end.

(** The declarators of a list that are named [__proto__]. *)
Definition protoDeclared (ds : list Ast.VariableDeclarator)
    : list Ast.VariableDeclarator :=
  filter (fun d => Ast.name_key (Ast.id d) = "__proto__") ds.

(** A declarator without initializer: it assigns [null]. *)
Definition bare (d : Ast.VariableDeclarator) : bool :=
  match Ast.init d with None => true | Some _ => false end.

(** The declarators after the first one without initializer; none when
    all have one. *)
Fixpoint afterBare (ds : list Ast.VariableDeclarator) : list Ast.VariableDeclarator :=
  match ds with
  | [] => []
  | d :: ds' => if bare d then ds' else afterBare ds'
  end.

Definition knownFields : list string :=
  ["description"; "iframeHeight"; "containerClass"].

Section UiVocabulary.
Context `{Pathe} `{ReadFs}.

(** What [buildUIRegistry] makes of a file of the component. *)
Definition uiFileOf (componentPath componentName : string) (d : Dirent.t)
    (f : File.t) : Prop :=
  File.path f = join ["ui"; componentName; Dirent.name d]
  /\ File.target f = Some (componentName ++ "/" ++ Dirent.name d)
  /\ File.type f = registry_ui
  /\ File.content f = readFile (join [componentPath; Dirent.name d])
  /\ is_Some (File.content f).

End UiVocabulary.

Section InstallVocabulary.
Context `{Pathe} `{Project} `{Disk} `{User}.

(** The file was written: from [st] the directory was created if it
    was missing, the content transformed and written to [filePath],
    and the path recorded as updated when [existing], as created
    otherwise. Nothing was asked. *)
Definition Written (config : Config) (baseColor : BaseColor) (file : File.t)
    (filePath targetDir : string) (existing : bool) (st st' : State) : Prop :=
  exists (d1 : disk) (content : string),
    (if existsSync (onDisk st) targetDir then d1 = onDisk st
     else mkdir (onDisk st) targetDir = Some d1)
    /\ transform (File.path file) (default "" (File.content file)) config baseColor
       = Some content
    /\ writeFile d1 filePath content = Some (onDisk st')
    /\ log st' = (log st
                  ++ (if existsSync (onDisk st) targetDir then [] else [Mkdir targetDir])
                  ++ [WriteFile filePath content])%list
    /\ folderSkipped st' = folderSkipped st
    /\ filesCreated st'
       = (if existing then filesCreated st
          else Js.push (filesCreated st) (relative (resolvedPaths_cwd config) filePath))
    /\ filesUpdated st'
       = (if existing
          then Js.push (filesUpdated st) (relative (resolvedPaths_cwd config) filePath)
          else filesUpdated st)
    /\ filesSkipped st' = filesSkipped st.

(** The file was skipped: from [st] the events [es] were logged and
    [rel] was recorded at the end of the list of the skipped. The disk
    is as it was, and so are the lists of the created and of the
    updated. *)
Definition Skipped (rel : string) (es : list Event) (st st' : State) : Prop :=
  onDisk st' = onDisk st
  /\ log st' = (log st ++ es)%list
  /\ filesCreated st' = filesCreated st
  /\ filesUpdated st' = filesUpdated st
  /\ filesSkipped st' = (filesSkipped st ++ [rel])%list.

(** Lines 85 to 102: the state once the folder of a ui file has its
    entry in [folderSkipped]. *)
Definition folderDecided (folderName : string) (existingFolder : bool)
    (st : State) : State :=
  let st := if negb existingFolder
            then setFolderSkipped folderName false st else st in
  match folderSkipped st !! folderName with
  | None =>
      let overwrite := confirm (log (emit SpinnerStop st)) (FolderExists folderName) in
      emit SpinnerStart
        (setFolderSkipped folderName (negb overwrite)
           (emit (Asked (FolderExists folderName) overwrite) (emit SpinnerStop st)))
  | Some _ => st
  end.

(** The events of the loop over the files: no report among them. *)
Definition loopEvent (e : Event) : bool :=
  match e with
  | Asked _ _ | Mkdir _ | WriteFile _ _ | SpinnerStart | SpinnerStop => true
  | SpinnerInfo _ | SpinnerSucceed _ | LoggerLog _ | LoggerBreak => false
  end.

(** The events between two states. *)
Definition logged (st st' : State) (es : list Event) : Prop :=
  log st' = (log st ++ es)%list.

(** The events of [folderDecided]: the question about the folder, when
    the folder exists and has no entry yet. *)
Definition folderEvents (folderName : string) (existingFolder : bool)
    (st : State) : list Event :=
  if existingFolder && bool_decide (folderSkipped st !! folderName = None) then
    [ SpinnerStop;
      Asked (FolderExists folderName)
            (confirm (log (emit SpinnerStop st)) (FolderExists folderName));
      SpinnerStart ]
  else [].

Definition askedFolders (folderName : string) (l : list Event) : nat :=
  List.length (List.filter (isAskedFolder folderName) l).

(** A folder that was asked about has its entry, and was asked about
    once. *)
Definition AskedOnce (st : State) : Prop :=
  forall folderName,
    askedFolders folderName (log st)
    <= match folderSkipped st !! folderName with Some _ => 1 | None => 0 end.

(** [st] with further events in its log. *)
Definition extend (st : State) (es : list Event) : State :=
  mkState (onDisk st) (log st ++ es) (folderSkipped st)
          (filesCreated st) (filesUpdated st) (filesSkipped st).

Definition pathLines (options : Options) (paths : list string) : list Event :=
  if negb (isTrue (silent options))
  then (fun file => LoggerLog ("  - " ++ file)) <$> paths
  else [].

(** The condition of the line [No files updated.]. *)
Definition nothingDone (st : State) : bool :=
  Nat.eqb (List.length (filesCreated st) + List.length (filesUpdated st)) 0
  && Nat.eqb (List.length (filesSkipped st)) 0.

(** What the report logs after the line [No files updated.]: none of
    it is that line. *)
Definition otherLine (e : Event) : Prop :=
  match e with
  | SpinnerInfo text =>
      exists rest, text = "Updated " ++ rest \/ text = "Skipped " ++ rest
  | SpinnerSucceed _ | SpinnerStop | LoggerLog _ | LoggerBreak => True
  | Asked _ _ | Mkdir _ | WriteFile _ _ | SpinnerStart => False
  end.

(** The loop logs no report. *)
Definition NoReport (st : State) : Prop :=
  Forall (fun e => loopEvent e = true) (log st).

(** The state after the question about the folder was answered. *)
Definition answered (folderName : string) (st : State) : State :=
  let overwrite := confirm (log (emit SpinnerStop st)) (FolderExists folderName) in
  emit SpinnerStart
    (setFolderSkipped folderName (negb overwrite)
       (emit (Asked (FolderExists folderName) overwrite) (emit SpinnerStop st))).

Section Destination.
Variables (config : Config) (projectInfo : ProjectInfo).

(** The destination of a file, its directory and the folder name
    the decision is cached under. *)
Definition filePathOf (file : File.t) : string :=
  fst (destination projectInfo config file).
Definition targetDirOf (file : File.t) : string :=
  snd (destination projectInfo config file).
Definition folderOf (file : File.t) : string :=
  basename (dirname (filePathOf file)).
Definition relOf (file : File.t) : string :=
  relative (resolvedPaths_cwd config) (filePathOf file).

(** A ui file with content whose folder name is [folderName]. *)
Definition uiFileIn (folderName : string) (file : File.t) : Prop :=
  truthy (File.content file) = true
  /\ File.type file = registry_ui
  /\ folderOf file = folderName.

End Destination.

End InstallVocabulary.

(** ** Samples *)

(** A script file with two imports, as the table parser reads it. *)
Definition formScript : string :=
  "import { Calendar } from 'v-calendar'; import { useForm } from 'vee-validate'".

Definition formCompilers : Compilers :=
  Table.compilers
    [ (formScript, [ Oxc.mk "ImportDeclaration" "v-calendar";
                     Oxc.mk "ImportDeclaration" "vee-validate" ]) ]
    [].

(** A page whose plain script exports [foo], [description] with a call
    as initializer, and [iframeHeight], and whose setup script has an
    import. *)
Definition pageScript : string :=
  "export const foo = 'bar'; export const description = t('page'); export const iframeHeight = '800px'".

Definition pageSetup : string := "import { ref } from 'vue'".

Definition pageSource : string :=
  "<script lang='ts'>" ++ pageScript ++ "</script><script setup lang='ts'>"
  ++ pageSetup ++ "</script><template><div /></template>".

Definition exportConst (name : string) (init : Ast.Expression) : Ast.Node :=
  Ast.mkNode "ExportNamedDeclaration"
    (Some (Ast.mkNode "VariableDeclaration" None
             [Ast.mkDeclarator (Ast.Identifier name) (Some init)] []))
    [] [].

Definition pageBody : list Ast.Node :=
  [ exportConst "foo" (Ast.StringLiteral "bar");
    exportConst "description" (Ast.OtherExpression "CallExpression");
    exportConst "iframeHeight" (Ast.StringLiteral "800px") ].

Definition pageDescriptor : Sfc.Descriptor :=
  Sfc.mkDescriptor (Some (Sfc.mkBlock pageScript)) (Some (Sfc.mkBlock pageSetup)).

Definition pageCompiled : Sfc.Compiled :=
  Sfc.mkCompiled (Some [ ("ref", Sfc.mkImport "vue") ]) (Some pageBody).

(** The same exports in a setup script only, where the compiler does
    not allow them: it throws. *)
Definition setupSource : string :=
  "<script setup lang='ts'>" ++ pageScript ++ "</script><template><div /></template>".

Definition setupDescriptor : Sfc.Descriptor :=
  Sfc.mkDescriptor None (Some (Sfc.mkBlock pageScript)).

(** A page that exports a BigInt, a fraction, and the name
    [__proto__] with a string; and one that exports the name
    [__proto__] without initializer, and again, with one, in a
    namespace. Both have a plain script only, which [compileScript]
    returns with its syntax tree and without [imports]. *)
Definition oddScript : string :=
  "export const big = 10n; export const ratio = 1.5; export const __proto__ = 'p'".

Definition nestedScript : string :=
  "export let __proto__: any; export namespace N { export const __proto__ = 'q' }".

Definition oddSource : string :=
  "<script lang='ts'>" ++ oddScript ++ "</script><template><div /></template>".

Definition nestedSource : string :=
  "<script lang='ts'>" ++ nestedScript ++ "</script><template><div /></template>".

Definition oddBody : list Ast.Node :=
  [ exportConst "big" (Ast.BigIntLiteral "10");
    exportConst "ratio" (Ast.NumericLiteral 1.5%float);
    exportConst "__proto__" (Ast.StringLiteral "p") ].

Definition exportLet (name : string) : Ast.Node :=
  Ast.mkNode "ExportNamedDeclaration"
    (Some (Ast.mkNode "VariableDeclaration" None
             [Ast.mkDeclarator (Ast.Identifier name) None] []))
    [] [].

Definition namespace (body : list Ast.Node) : Ast.Node :=
  Ast.mkNode "TSModuleDeclaration" None []
    [ Ast.mkNode "Identifier" None [] [];
      Ast.mkNode "TSModuleBlock" None [] body ].

Definition exportNamespace (body : list Ast.Node) : Ast.Node :=
  Ast.mkNode "ExportNamedDeclaration" (Some (namespace body)) [] [].

Definition nestedBody : list Ast.Node :=
  [ exportLet "__proto__";
    exportNamespace [ exportConst "__proto__" (Ast.StringLiteral "q") ] ].

Definition oddDescriptor : Sfc.Descriptor :=
  Sfc.mkDescriptor (Some (Sfc.mkBlock oddScript)) None.

Definition nestedDescriptor : Sfc.Descriptor :=
  Sfc.mkDescriptor (Some (Sfc.mkBlock nestedScript)) None.

Definition pageCompilers : Compilers :=
  Table.compilers []
    [ (pageSource, (pageDescriptor, Some pageCompiled));
      (setupSource, (setupDescriptor, None));
      (oddSource, (oddDescriptor, Some (Sfc.mkCompiled None (Some oddBody))));
      (nestedSource, (nestedDescriptor, Some (Sfc.mkCompiled None (Some nestedBody)))) ].

(** A block root with a placeholder directory, which holds an empty
    [components/] folder only, and a block with a page. *)
Definition blockRoot : string := "/repo/src/registry/default/block".

Definition blockTree : list Tree.t :=
  [ Tree.Dir "repo" [ Tree.Dir "src" [ Tree.Dir "registry" [ Tree.Dir "default" [
      Tree.Dir "block" [
        Tree.Dir "Placeholder" [ Tree.Dir "components" [] ];
        Tree.Dir "Dashboard" [ Tree.File "page.vue" pageSource ] ] ] ] ] ] ].

(** The same block root with a page of its own and a note beside the
    two directories. *)
Definition mixedBlockTree : list Tree.t :=
  [ Tree.Dir "repo" [ Tree.Dir "src" [ Tree.Dir "registry" [ Tree.Dir "default" [
      Tree.Dir "block" [
        Tree.Dir "Placeholder" [ Tree.Dir "components" [] ];
        Tree.Dir "Dashboard" [ Tree.File "page.vue" pageSource ];
        Tree.File "Login.vue" pageSource;
        Tree.File "README.md" "Blocks." ] ] ] ] ] ].

(** A ui root where the component [a] has a directory [b] of its own,
    next to the component [b]. *)
Definition nestedTree : list Tree.t :=
  [ Tree.Dir "ui" [
      Tree.Dir "a" [ Tree.Dir "b" [] ];
      Tree.Dir "b" [ Tree.File "index.ts" "export {}" ] ] ].

(** A ui root where the only component has a directory of its own. *)
Definition iconsTree : list Tree.t :=
  [ Tree.Dir "ui" [
      Tree.Dir "button" [ Tree.File "index.ts" "export {}"; Tree.Dir "icons" [] ] ] ].

(** A project at [/proj] that has a source directory [/proj/src]. *)
Definition projConfig : Plain.Config := Plain.mkConfig "/proj" true "zinc".

Definition dashboardPage : File.t :=
  File.mk (Some "<template><div /></template>") "block/Dashboard/page.vue"
          registry_page (Some "pages/dashboard/index.vue").

Definition aliasedPage : File.t :=
  File.mk (Some "<template><div /></template>") "block/Dashboard/page.vue"
          registry_page (Some "~/pages/dashboard/index.vue").

Definition accordionFile : File.t :=
  File.mk (Some "<template><div /></template>") "ui/accordion/Accordion.vue"
          registry_ui None.

(** A project at [/proj] where the folder [a/button] exists. *)
Definition buttonDisk : Paths.t :=
  [ ("/proj", None); ("/proj/a", None); ("/proj/a/button", None);
    ("/proj/a/button/x.vue", Some "old x");
    ("/proj/components", None);
    ("/proj/components/Chart.vue", Some "old chart") ].

Definition buttonX : File.t :=
  File.mk (Some "new x") "ui/button/x.vue" registry_ui (Some "a/button/x.vue").
Definition buttonY : File.t :=
  File.mk (Some "new y") "ui/button/y.vue" registry_ui (Some "b/button/y.vue").
Definition buttonZ : File.t :=
  File.mk (Some "new z") "ui/button/z.vue" registry_ui (Some "a/button/z.vue").

Definition chartFile : File.t :=
  File.mk (Some "new chart") "block/Chart.vue" registry_component None.

Definition emptyFile : File.t :=
  File.mk (Some "") "ui/button/empty.vue" registry_ui None.

(** The state an install on this disk starts from. *)
Definition buttonStart : @State Paths.disk := @start Paths.disk buttonDisk.

Definition noOptions : Options := mkOptions None None None.
Definition overwriteAll : Options := mkOptions (Some true) None None.

(** The install of the three button files by a user who declines. *)
Definition declinedInstall : option (@State Paths.disk) :=
  @updateFiles (Posix.pathe "/") (Plain.project true) Paths.disk (Plain.user [])
    (Some [buttonX; buttonY; buttonZ]) projConfig noOptions buttonDisk.

(** The state after that user has declined the folder [button] at
    [x], and the state after [y], whose folder [/proj/b/button] is not
    there, has come next. *)
Definition declinedAtX : @State Paths.disk :=
  default buttonStart
    (@updateFile (Posix.pathe "/") (Plain.project true) Paths.disk (Plain.user [])
       noOptions projConfig true tt buttonStart buttonX).

Definition resetByY : @State Paths.disk :=
  default declinedAtX
    (@updateFile (Posix.pathe "/") (Plain.project true) Paths.disk (Plain.user [])
       noOptions projConfig true tt declinedAtX buttonY).

(** The same user installing [x] and [z], which go to the same folder. *)
Definition sameFolderInstall : option (@State Paths.disk) :=
  @updateEach (Posix.pathe "/") (Plain.project true) Paths.disk (Plain.user [])
    noOptions projConfig true tt [buttonX; buttonZ] buttonStart.

(** ** Further vocabulary and samples *)

(** Both sets are without duplicates. *)
Definition NoDupDeps (deps : FileDeps) : Prop :=
  NoDup (registryDependencies deps) /\ NoDup (dependencies deps).

(** A component file with a template only; the compiler refuses it. *)
Definition templateOnly : string := "<template><div /></template>".

Definition templateCompilers : Compilers :=
  Build_Compilers
    (fun _ _ => None)
    (fun code _ => if String.eqb code templateOnly
                   then Some (Sfc.mkDescriptor None None) else None)
    (fun _ => None).

Section CrawlVocabulary.
Context `{Pathe} `{ReadFs} `{Compilers}.

(** A file of a component directory that [buildUIRegistry] scans for
    imports, and what the scan gives: every file but [index.ts]. *)
Definition scannedFile (componentPath : string) (d : Dirent.t) (deps : FileDeps) : Prop :=
  Dirent.isFile d = true
  /\ Dirent.name d <> "index.ts"
  /\ exists source,
       readFile (join [componentPath; Dirent.name d]) = Some source
       /\ getFileDependencies (join [componentPath; Dirent.name d]) source = Some deps.

(** Where [buildBlockRegistry] looks for a file of the listing. *)
Definition blockCompPath (d : Dirent.t) : string :=
  if bool_decide (Dirent.name d = "page.vue") then Dirent.name d
  else "components/" ++ Dirent.name d.

(** What [buildBlockRegistry] makes of a file of the listing. *)
Definition blockFileOf (blockPath blockName : string) (d : Dirent.t) (f : File.t) : Prop :=
  File.path f = join ["block"; blockName; blockCompPath d]
  /\ File.content f = readFile (join [blockPath; blockCompPath d])
  /\ is_Some (File.content f)
  /\ (if bool_decide (Dirent.name d = "page.vue")
      then File.type f = registry_page /\ File.target f = Some "pages/dashboard/index.vue"
      else File.type f = registry_component /\ File.target f = Some "").

(** The entries of the example root that become items. *)
Definition exampleEntry (d : Dirent.t) : Prop :=
  Js.endsWith (Dirent.name d) ".vue" = true /\ Dirent.isFile d = true.

Global Instance exampleEntry_dec (d : Dirent.t) : Decision (exampleEntry d).
Proof. unfold exampleEntry. apply _. Defined.

(** The item of [crawlExample] for an entry. *)
Definition exampleItemOf (rootPath : string) (d : Dirent.t) (item : Item.t) : Prop :=
  exists source deps,
    readFile (join [rootPath; Dirent.name d]) = Some source
    /\ getFileDependencies (join [rootPath; Dirent.name d]) source = Some deps
    /\ item = {| Item.name := Js.beforeFirst ".vue" (Dirent.name d);
                 Item.type := registry_example;
                 Item.files := [File.mk (Some source)
                                        (join ["example"; Dirent.name d])
                                        registry_example (Some "")];
                 Item.registryDependencies := registryDependencies deps;
                 Item.dependencies := dependencies deps |}.

(** What [crawlBlock] makes of an entry of the block root: a block of
    one page for a file named [*.vue], nothing for another file, and
    for anything else the block built from it as a directory, unless
    that block has no files. *)
Definition blockEntryOf (rootPath : string) (d : Dirent.t) (items : list Item.t) : Prop :=
  if Dirent.isFile d then
    if Js.endsWith (Dirent.name d) ".vue" then
      exists source deps,
        readFile (join [rootPath; Dirent.name d]) = Some source
        /\ getFileDependencies (join [rootPath; Dirent.name d]) source = Some deps
        /\ items = [ {| Item.name := Js.beforeFirst ".vue" (Dirent.name d);
                        Item.type := registry_block;
                        Item.files := [File.mk (Some source)
                                               (join ["block"; Dirent.name d])
                                               registry_block
                                               (Some "pages/dashboard/index.vue")];
                        Item.registryDependencies := registryDependencies deps;
                        Item.dependencies := dependencies deps |} ]
    else items = []
  else
    exists result,
      buildBlockRegistry (rootPath ++ "/" ++ Dirent.name d) (Dirent.name d) = Some result
      /\ items = if decide (Item.files result = []) then [] else [result].

(** The crawls of one style, in the order of the registry. *)
Definition crawlStyle (style : string) : option Registry :=
  let registryRootPath := resolve ["src"; "registry"] in
  ui ← crawlUI (resolve [registryRootPath; style; "ui"]);
  example ← crawlExample (resolve [registryRootPath; style; "example"]);
  block ← crawlBlock (resolve [registryRootPath; style; "block"]);
  Some (ui ++ example ++ block)%list.

End CrawlVocabulary.

(** A component with two imports in its setup script, and the parsers
    that know it. *)
Definition buttonScript : string :=
  "import { useVModel } from '@vueuse/core'; import { cn } from '@/lib/utils'".

Definition buttonSource : string :=
  "<script setup lang='ts'>" ++ buttonScript ++ "</script><template><button /></template>".

Definition buttonDescriptor : Sfc.Descriptor :=
  Sfc.mkDescriptor None (Some (Sfc.mkBlock buttonScript)).

(** A component of the older kind, with a plain script only: for such
    a file [compileScript] returns the script as it is, without
    [imports]. *)
Definition legacyScript : string := "export default { name: 'Legacy' }".

Definition legacySource : string :=
  "<script lang='ts'>" ++ legacyScript ++ "</script><template><div /></template>".

Definition legacyDescriptor : Sfc.Descriptor :=
  Sfc.mkDescriptor (Some (Sfc.mkBlock legacyScript)) None.

Definition legacyBody : list Ast.Node :=
  [ Ast.mkNode "ExportDefaultDeclaration"
      (Some (Ast.mkNode "ObjectExpression" None []
               [ Ast.mkNode "ObjectProperty" None []
                   [ Ast.mkNode "Identifier" None [] [];
                     Ast.mkNode "StringLiteral" None [] [] ] ]))
      [] [] ].

Definition styleCompilers : Compilers :=
  Table.compilers []
    [ (buttonSource,
       (buttonDescriptor,
        Some (Sfc.mkCompiled (Some [ ("useVModel", Sfc.mkImport "@vueuse/core");
                                     ("cn", Sfc.mkImport "@/lib/utils") ])
                             None)));
      (legacySource,
       (legacyDescriptor, Some (Sfc.mkCompiled None (Some legacyBody)))) ].

(** The tree of one style: a component, the examples, and a block. *)
Definition styleRoot : string := "/repo/src/registry/default".

Definition styleTree (examples : list Tree.t) : list Tree.t :=
  [ Tree.Dir "repo" [ Tree.Dir "src" [ Tree.Dir "registry" [ Tree.Dir "default" [
      Tree.Dir "ui" [
        Tree.Dir "button" [ Tree.File "Button.vue" buttonSource;
                            Tree.File "index.ts" "export { default as Button } from './Button.vue'" ] ];
      Tree.Dir "example" examples;
      Tree.Dir "block" [
        Tree.Dir "Dashboard" [
          Tree.File "page.vue" buttonSource;
          Tree.Dir "components" [ Tree.File "Chart.vue" buttonSource ] ] ] ] ] ] ] ].

Definition goodExamples : list Tree.t :=
  [ Tree.File "ButtonDemo.vue" buttonSource;
    Tree.File "notes.md" "to do";
    Tree.Dir "Old.vue" [] ].

(** Examples of which one is a component with a plain script only. *)
Definition brokenExamples : list Tree.t :=
  [ Tree.File "ButtonDemo.vue" buttonSource;
    Tree.File "Legacy.vue" legacySource ].

Definition noItem : Item.t := Item.mk "" registry_ui [] [] [].

(** ** The vocabulary of the installer's accounts *)

Definition hasContent (file : File.t) : bool := truthy (File.content file).

(** The paths written, in the order of the writes. *)
Definition writtenPaths (l : list Event) : list string :=
  omap (fun e => match e with WriteFile filePath _ => Some filePath | _ => None end) l.

(** What goes to the logger rather than to the spinner. *)
Definition isLogger (e : Event) : bool :=
  match e with LoggerLog _ | LoggerBreak => true | _ => false end.

(** A user who accepts every overwrite. *)
Definition agreeing : User := Build_User (fun _ _ => true).

(** A project whose transformers reject the text [broken]. *)
Definition strictProject : Project :=
  Build_Project Plain.Config Plain.cwd Plain.typescript Plain.baseColor bool unit
    (fun _ => Some true) (fun _ => Some tt) Plain.targetPath
    (fun _ raw _ _ => if String.eqb raw "broken" then None else Some raw).

Definition brokenFile : File.t :=
  File.mk (Some "broken") "ui/button/x.vue" registry_ui (Some "a/button/x.vue").

Definition silentOptions : Options := mkOptions None None (Some true).

(** A project without TypeScript. *)
Definition jsConfig : Plain.Config := Plain.mkConfig "/proj" false "zinc".

Definition toastFile : File.t :=
  File.mk (Some "export {}") "hook/use-toast.ts" registry_hook None.

Section AccountsVocabulary.
Context `{Pathe} `{Project} `{Disk} `{User}.

(** The accounts balance after the files [done]: each of them that has
    content is in one of the three lists, the files written are the
    created and the updated ones, and there was at most one question
    for each. *)
Definition Balanced (config : Config) (projectInfo : ProjectInfo)
    (done : list File.t) (st : State) : Prop :=
  (filesCreated st ++ filesUpdated st ++ filesSkipped st)%list
    ≡ₚ (relOf config projectInfo <$> filter (fun f => hasContent f = true) done)
  /\ (relative (resolvedPaths_cwd config) <$> writtenPaths (log st))
      ≡ₚ (filesCreated st ++ filesUpdated st)%list
  /\ List.length (List.filter isAsked (log st))
      <= List.length (filter (fun f => hasContent f = true) done).

(** The user declined the question [q]: it is in the log with the
    answer no, which is the answer of the user at that point. *)
Definition Declined (l : list Event) (q : Question) : Prop :=
  exists l1 l2, l = (l1 ++ Asked q false :: l2)%list /\ confirm l1 q = false.

(** The question that decides about a file: about its folder for a ui
    file, about the file itself otherwise. *)
Definition questionOf (config : Config) (projectInfo : ProjectInfo)
    (file : File.t) : Question :=
  if decide (File.type file = registry_ui)
  then FolderExists (folderOf config projectInfo file)
  else FileExists (basename (File.path file)).

(** Every folder marked as skipped was declined, and every skipped
    path is the destination of a file of [files] whose question was
    declined. *)
Definition SkipsDeclined (config : Config) (projectInfo : ProjectInfo)
    (files : list File.t) (st : State) : Prop :=
  (forall folderName, folderSkipped st !! folderName = Some true ->
     Declined (log st) (FolderExists folderName))
  /\ (forall p, p ∈ filesSkipped st ->
       exists file, file ∈ files /\ hasContent file = true
         /\ p = relOf config projectInfo file
         /\ Declined (log st) (questionOf config projectInfo file)).

End AccountsVocabulary.

(** An install of five files, one of them without content, by a user
    who accepts the first question and declines the second. *)
Definition mixedFiles : list File.t :=
  [buttonX; buttonY; emptyFile; chartFile; buttonZ].

Definition mixedInstall : option (@State Paths.disk) :=
  @updateFiles (Posix.pathe "/") (Plain.project true) Paths.disk (Plain.user [true])
    (Some mixedFiles) projConfig noOptions buttonDisk.

Definition mixedFinal : @State Paths.disk := default buttonStart mixedInstall.

(** * Properties *)

(** ** JavaScript sets *)

Lemma elem_of_set_add (x y : string) (s : list string) :
  x ∈ Js.set_add y s <-> x = y \/ x ∈ s.
Proof.
  unfold Js.set_add. destruct (decide (y ∈ s)) as [Hy|Hy].
  - split; [auto | intros [->|]; auto].
  - rewrite elem_of_app, list_elem_of_singleton. tauto.
Qed.

Lemma elem_of_set_addAll (x : string) (ys s : list string) :
  x ∈ Js.set_addAll ys s <-> x ∈ ys \/ x ∈ s.
Proof.
  unfold Js.set_addAll. revert s.
  induction ys as [|y ys IH]; intros s; simpl.
  - rewrite elem_of_nil. tauto.
  - rewrite IH, elem_of_set_add, elem_of_cons. tauto.
Qed.

Lemma set_add_NoDup (y : string) (s : list string) :
  NoDup s -> NoDup (Js.set_add y s).
Proof.
  intros Hs. unfold Js.set_add. destruct (decide (y ∈ s)); [done|].
  apply NoDup_app. split; [done|]. split.
  - intros x Hx Hx'. apply list_elem_of_singleton in Hx'. by subst.
  - apply NoDup_singleton.
Qed.

(** ** Path segments *)

Lemma split_nonempty (c : ascii) (s : string) : Js.split c s <> [].
Proof.
  induction s as [|a s IH]; simpl; [done|].
  destruct (Ascii.eqb a c); [done|]. by destruct (Js.split c s).
Qed.

Lemma noSlash_empty : noSlash "".
Proof. intros [|a f] b; simpl; discriminate. Qed.

Lemma noSlash_cons (a : ascii) (s : string) :
  a <> "/"%char -> noSlash s -> noSlash (String a s).
Proof.
  intros Ha Hs [|b f] back; simpl; intros Heq.
  - injection Heq as -> _. done.
  - injection Heq as _ ->. by apply (Hs f back).
Qed.

Lemma noSlash_tail (a : ascii) (s : string) : noSlash (String a s) -> noSlash s.
Proof. intros Hno f b ->. by apply (Hno (String a f) b). Qed.

Lemma split_noSlash (s : string) : noSlash s -> Js.split "/" s = [s].
Proof.
  induction s as [|a s IH]; intros Hno; simpl; [done|].
  destruct (Ascii.eqb_spec a "/") as [->|Ha].
  - by destruct (Hno "" s).
  - by rewrite IH by (by eapply noSlash_tail).
Qed.

Lemma split_slash_length (front back : string) :
  2 <= List.length (Js.split "/" (front ++ String "/" back)).
Proof.
  induction front as [|a f IH]; simpl.
  - pose proof (split_nonempty "/" back).
    destruct (Js.split "/" back); simpl; [done | lia].
  - destruct (Ascii.eqb a "/"); simpl.
    + lia.
    + destruct (Js.split "/" (f ++ String "/" back)); simpl in *; lia.
Qed.

(** The last element of [s.split('/')] is the text after the last
    separator of [s]. *)
Lemma split_last (s : string) :
  exists component : string,
    Js.at_last (Js.split "/" s) = Some component
    /\ noSlash component
    /\ (s = component \/ exists front : string, s = front ++ String "/" component).
Proof.
  unfold Js.at_last. induction s as [|a s (c & Hlast & Hno & Hs)]; simpl.
  - exists "". split; [done|]. split; [apply noSlash_empty | by left].
  - destruct (Ascii.eqb_spec a "/") as [->|Hne].
    + exists c. split.
      * pose proof (split_nonempty "/" s) as Hn.
        destruct (Js.split "/" s); [done | exact Hlast].
      * split; [done|]. right. destruct Hs as [->|[front ->]].
        -- by exists "".
        -- by exists (String "/" front).
    + destruct Hs as [->|[front ->]].
      * rewrite split_noSlash in * by done. simpl in *.
        exists (String a c). split; [done|].
        split; [by apply noSlash_cons | by left].
      * pose proof (split_slash_length front c) as Hlen.
        destruct (Js.split "/" (front ++ String "/" c)) as [|h [|h' t]];
          simpl in Hlen; try lia.
        exists c. split; [exact Hlast|]. split; [done|].
        right. by exists (String a front).
Qed.

(** ** The dependency classifier *)

Lemma DEPENDENCIES_keys (source : string) (peers : list string) :
  DEPENDENCIES !! source = Some peers ->
  (source, peers) ∈
    [ ("@vueuse/core", []); ("vue-sonner", []); ("vaul-vue", []);
      ("v-calendar", []); ("@tanstack/vue-table", []);
      ("@unovis/vue", ["@unovis/ts"]); ("embla-carousel-vue", []);
      ("vee-validate", ["@vee-validate/zod"; "zod"]) ].
Proof. apply elem_of_list_to_map_2. Qed.

Lemma TAGS_keys (source tagged : string) :
  DEPENDENCIES_WITH_TAGS !! source = Some tagged ->
  source = "v-calendar" /\ tagged = "v-calendar@next".
Proof.
  intros Hin. apply elem_of_list_to_map_2 in Hin.
  apply list_elem_of_singleton in Hin. by injection Hin.
Qed.

(** No key of the table starts with the alias prefix. *)
Lemma DEPENDENCIES_not_alias (source : string) (peers : list string) :
  DEPENDENCIES !! source = Some peers ->
  Js.startsWith source REGISTRY_DEPENDENCY = false.
Proof.
  intros Hin. apply DEPENDENCIES_keys in Hin.
  repeat (apply elem_of_cons in Hin as [Hin|Hin];
          [injection Hin as -> ->; reflexivity|]).
  by apply elem_of_nil in Hin.
Qed.

Lemma populateDeps_dependencies (source : string) (acc : FileDeps) (x : string) :
  x ∈ dependencies (populateDeps source acc) <->
  x ∈ dependencies acc
  \/ exists peers, DEPENDENCIES !! source = Some peers
       /\ (x = default source (DEPENDENCIES_WITH_TAGS !! source) \/ x ∈ peers).
Proof.
  unfold populateDeps; simpl.
  destruct (DEPENDENCIES !! source) as [peers|]; simpl.
  - rewrite elem_of_set_addAll.
    destruct (DEPENDENCIES_WITH_TAGS !! source) as [tagged|]; simpl;
      rewrite elem_of_set_add; split.
    + intros [Hx|[->|Hx]]; eauto 6.
    + intros [Hx|(? & [= <-] & [->|Hx])]; eauto.
    + intros [Hx|[->|Hx]]; eauto 6.
    + intros [Hx|(? & [= <-] & [->|Hx])]; eauto.
  - split; [auto | intros [Hx|(? & [=] & _)]; done].
Qed.

Lemma populateAll_dependencies (sources : list string) (acc : FileDeps) (x : string) :
  x ∈ dependencies (populateAll sources acc) <->
  x ∈ dependencies acc
  \/ exists source peers, source ∈ sources /\ DEPENDENCIES !! source = Some peers
       /\ (x = default source (DEPENDENCIES_WITH_TAGS !! source) \/ x ∈ peers).
Proof.
  unfold populateAll. revert acc.
  induction sources as [|s sources IH]; intros acc; simpl.
  - split; [auto | intros [Hx|(? & ? & Hin & _)]; [done | by apply elem_of_nil in Hin]].
  - rewrite IH, populateDeps_dependencies. split.
    + intros [[Hx|(peers & Hp & Hx)]|(s' & peers & Hin & Hp & Hx)]; [by left | |].
      * right. exists s, peers. split; [apply elem_of_cons; by left | done].
      * right. exists s', peers. split; [apply elem_of_cons; by right | done].
    + intros [Hx|(s' & peers & Hin & Hp & Hx)]; [by left; left|].
      apply elem_of_cons in Hin as [->|Hin].
      * left; right. by exists peers.
      * right. by exists s', peers.
Qed.

(** A name that has an override is never added under its bare name. *)
Lemma overridden_not_added (source : string) (peers : list string) (x tagged : string) :
  DEPENDENCIES !! source = Some peers ->
  DEPENDENCIES_WITH_TAGS !! x = Some tagged ->
  x <> default source (DEPENDENCIES_WITH_TAGS !! source) /\ x ∉ peers.
Proof.
  intros Hs Hx. apply TAGS_keys in Hx as [-> ->].
  apply DEPENDENCIES_keys in Hs.
  repeat (apply elem_of_cons in Hs as [Hs|Hs];
          [injection Hs as -> ->; split; [by vm_compute | not_listed]|]).
  by apply elem_of_nil in Hs.
Qed.

Section FileImports.
Context `{Compilers}.

(** What a file contributes is [populateDeps] over its imports. *)
Lemma getFileDependencies_imports (filename sourceCode : string) (deps : FileDeps) :
  getFileDependencies filename sourceCode = Some deps ->
  exists sources : list string,
    deps = populateAll sources noDeps
    /\ forall source, source ∈ sources <-> importedBy filename sourceCode source.
Proof.
  unfold getFileDependencies, importedBy.
  destruct (Js.endsWith filename ".ts").
  - destruct (parseSync sourceCode filename) as [body|]; simpl; [|done].
    intros [= <-]. eexists. split; [reflexivity|].
    intros source. rewrite list_elem_of_fmap. split.
    + intros (stmt & -> & Hin). apply list_elem_of_filter in Hin as [Hty Hin].
      by exists body, stmt.
    + intros (? & stmt & [= <-] & Hin & Hty & <-).
      exists stmt. split; [done|]. by apply list_elem_of_filter.
  - destruct (parse sourceCode filename) as [descriptor|]; simpl; [|done].
    destruct (Sfc.hasContent (Sfc.script descriptor)
              || Sfc.hasContent (Sfc.scriptSetup descriptor)) eqn:Hc.
    + destruct (compileScript descriptor) as [compiled|] eqn:Hcomp; simpl; [|done].
      destruct (Sfc.imports compiled) as [imports|] eqn:Himp; simpl; [|done].
      intros [= <-]. eexists. split; [reflexivity|].
      intros source. rewrite list_elem_of_fmap. split.
      * intros (binding & -> & Hin). by exists descriptor, compiled, imports, binding.
      * intros (? & ? & ? & binding & [= <-] & _ & Hcomp' & Himp' & Hin & <-).
        rewrite Hcomp in Hcomp'. injection Hcomp' as <-.
        rewrite Himp in Himp'. injection Himp' as <-. by exists binding.
    + intros [= <-]. exists []. split; [done|].
      intros source. split; [intros Hin; by apply elem_of_nil in Hin|].
      intros (? & ? & ? & ? & [= <-] & Hc' & _). congruence.
Qed.

(** C2. For every import specifier of a file that is a key of the
    external-dependency table, the dependency set of the file holds
    the override specifier when there is one, and then not the bare
    name, the bare name otherwise, and every peer package of the
    entry. *)
Theorem getFileDependencies_external
    (filename sourceCode : string) (deps : FileDeps) (source : string)
    (peers : list string) :
  getFileDependencies filename sourceCode = Some deps ->
  importedBy filename sourceCode source ->
  DEPENDENCIES !! source = Some peers ->
  match DEPENDENCIES_WITH_TAGS !! source with
  | Some tagged => tagged ∈ dependencies deps /\ source ∉ dependencies deps
  | None => source ∈ dependencies deps
  end
  /\ forall peer, peer ∈ peers -> peer ∈ dependencies deps.
Proof.
  intros Hdeps Himp Hkey.
  apply getFileDependencies_imports in Hdeps as (sources & -> & Hsrc).
  apply Hsrc in Himp. split.
  - destruct (DEPENDENCIES_WITH_TAGS !! source) as [tagged|] eqn:Htag.
    + split.
      * apply populateAll_dependencies. right. exists source, peers.
        rewrite Htag. auto.
      * intros Hin. apply populateAll_dependencies in Hin
          as [Hin|(s' & peers' & _ & Hkey' & Hx)]; [by apply elem_of_nil in Hin|].
        destruct (overridden_not_added _ _ _ _ Hkey' Htag) as [Hne Hnp].
        by destruct Hx.
    + apply populateAll_dependencies. right. exists source, peers.
      rewrite Htag. auto.
  - intros peer Hpeer. apply populateAll_dependencies. right.
    exists source, peers. auto.
Qed.

End FileImports.

Lemma startsWith_spec (s p : string) :
  Js.startsWith s p = true <-> exists rest : string, s = p ++ rest.
Proof.
  revert s. induction p as [|a p IH]; intros [|b s]; cbn [Js.startsWith].
  - split; [by exists "" | done].
  - split; [by exists (String b s) | done].
  - split; [done | intros [rest Hr]; discriminate Hr].
  - destruct (Ascii.eqb_spec a b) as [->|Hab].
    + rewrite IH. split; intros [rest Hr]; exists rest.
      * by rewrite Hr.
      * by injection Hr.
    + split; [done | intros [rest Hr]; by injection Hr].
Qed.

(** C7. An import specifier that begins with the alias prefix [@/] adds
    its final path segment, the text after its last separator, to the
    registry dependencies, whatever comes before that separator, and
    nothing to the dependencies; a specifier that is neither a key of
    the table nor begins with the prefix changes neither set. *)
Theorem populateDeps_alias (source : string) (acc : FileDeps) :
  (Js.startsWith source REGISTRY_DEPENDENCY = true ->
   exists front component : string,
     source = front ++ String "/" component
     /\ noSlash component
     /\ registryDependencies (populateDeps source acc)
        = Js.set_add component (registryDependencies acc)
     /\ (forall x, x ∈ registryDependencies (populateDeps source acc)
                   <-> x = component \/ x ∈ registryDependencies acc)
     /\ dependencies (populateDeps source acc) = dependencies acc)
  /\ (DEPENDENCIES !! source = None ->
      Js.startsWith source REGISTRY_DEPENDENCY = false ->
      populateDeps source acc = acc).
Proof.
  split.
  - intros Hpre.
    destruct (split_last source) as (component & Hlast & Hno & Hsrc).
    assert (Hreg : registryDependencies (populateDeps source acc)
                   = Js.set_add component (registryDependencies acc)).
    { unfold populateDeps; simpl. by rewrite Hpre, Hlast. }
    destruct Hsrc as [->|[front ->]].
    + exfalso. apply startsWith_spec in Hpre as [rest ->].
      by apply (Hno "@" rest).
    + exists front, component. repeat split; try done.
      * rewrite Hreg. by intros ?%elem_of_set_add.
      * rewrite Hreg. by intros ?%elem_of_set_add.
      * unfold populateDeps; simpl.
        destruct (DEPENDENCIES !! (front ++ String "/" component)) as [peers|] eqn:Hkey; [|done].
        apply DEPENDENCIES_not_alias in Hkey. congruence.
  - intros Hkey Hpre. unfold populateDeps. rewrite Hkey, Hpre. by destruct acc.
Qed.

Lemma populateDeps_alias_witness :
  (exists front component : string,
     "@/components/ui/bar" = front ++ String "/" component
     /\ noSlash component
     /\ registryDependencies (populateDeps "@/components/ui/bar" noDeps)
        = Js.set_add component (registryDependencies noDeps)
     /\ (forall x, x ∈ registryDependencies (populateDeps "@/components/ui/bar" noDeps)
                   <-> x = component \/ x ∈ registryDependencies noDeps)
     /\ dependencies (populateDeps "@/components/ui/bar" noDeps) = dependencies noDeps)
  /\ populateDeps "vue" noDeps = noDeps.
Proof.
  split.
  - apply (proj1 (populateDeps_alias "@/components/ui/bar" noDeps)). reflexivity.
  - apply (proj2 (populateDeps_alias "vue" noDeps)); reflexivity.
Defined.

Lemma getFileDependencies_external_witness :
  let deps := {| registryDependencies := [];
                 dependencies := ["v-calendar@next"; "vee-validate";
                                  "@vee-validate/zod"; "zod"] |} in
  (match DEPENDENCIES_WITH_TAGS !! "v-calendar" with
   | Some tagged => tagged ∈ dependencies deps /\ "v-calendar" ∉ dependencies deps
   | None => "v-calendar" ∈ dependencies deps
   end
   /\ forall peer, peer ∈ [] -> peer ∈ dependencies deps)
  /\ (match DEPENDENCIES_WITH_TAGS !! "vee-validate" with
      | Some tagged => tagged ∈ dependencies deps /\ "vee-validate" ∉ dependencies deps
      | None => "vee-validate" ∈ dependencies deps
      end
      /\ forall peer, peer ∈ ["@vee-validate/zod"; "zod"] -> peer ∈ dependencies deps).
Proof.
  intros deps. split.
  - apply (@getFileDependencies_external formCompilers "form.ts" formScript).
    + reflexivity.
    + exists [Oxc.mk "ImportDeclaration" "v-calendar";
              Oxc.mk "ImportDeclaration" "vee-validate"],
             (Oxc.mk "ImportDeclaration" "v-calendar").
      repeat split. apply elem_of_cons. by left.
    + reflexivity.
  - apply (@getFileDependencies_external formCompilers "form.ts" formScript).
    + reflexivity.
    + exists [Oxc.mk "ImportDeclaration" "v-calendar";
              Oxc.mk "ImportDeclaration" "vee-validate"],
             (Oxc.mk "ImportDeclaration" "vee-validate").
      repeat split. apply elem_of_cons. right. apply elem_of_cons. by left.
    + reflexivity.
Defined.

(** ** Block metadata *)

Lemma walk_children {M : Type} (enter : Ast.Node -> M -> M) (cs : list Ast.Node) (m : M) :
  (fix walkAll (l : list Ast.Node) (m : M) : M :=
     match l with
     | [] => m
     | c :: l' => walkAll l' (Ast.walk enter c m)
     end) cs m = Ast.walkAll enter cs m.
Proof. revert m. induction cs as [|c cs IH]; intros m; simpl; [done | apply IH]. Qed.

Lemma exported_children (cs : list Ast.Node) :
  (fix all (l : list Ast.Node) : list Ast.VariableDeclarator :=
     match l with
     | [] => []
     | c :: l' => (AstFacts.exported c ++ all l')%list
     end) cs = AstFacts.exportedAll cs.
Proof.
  unfold AstFacts.exportedAll. induction cs as [|c cs IH]; simpl; [done | by rewrite IH].
Qed.

Lemma enterMetadata_declared (n : Ast.Node) (m : Js.PlainObject) :
  enterMetadata n m = foldl assignDeclarator m (AstFacts.declared n).
Proof.
  unfold enterMetadata, AstFacts.declared.
  destruct (Ast.declaration n) as [dn|]; [|done].
  by destruct (decide (Ast.type dn = "VariableDeclaration")).
Qed.

(** The walk assigns the exported declarators one after the other. *)
Lemma walk_exported (n : Ast.Node) :
  forall m, Ast.walk enterMetadata n m = foldl assignDeclarator m (AstFacts.exported n).
Proof.
  induction n as [t d ds cs IHd IHcs] using AstFacts.Node_induction. intros m.
  cbn [Ast.walk AstFacts.exported].
  rewrite walk_children, exported_children.
  rewrite !foldl_app, <- enterMetadata_declared.
  set (m1 := enterMetadata _ m). clearbody m1.
  assert (Hd : match d with
               | Some dn => Ast.walk enterMetadata dn m1
               | None => m1
               end
               = foldl assignDeclarator m1
                   match d with Some dn => AstFacts.exported dn | None => [] end).
  { destruct d as [dn|]; [by rewrite IHd | done]. }
  rewrite Hd. set (m2 := foldl _ m1 _). clearbody m2. clear Hd IHd.
  revert m2. induction IHcs as [|c cs Hc _ IH]; intros m2; [done|].
  unfold Ast.walkAll, AstFacts.exportedAll in *. simpl.
  by rewrite foldl_app, Hc, IH.
Qed.

Lemma walkAll_exported (body : list Ast.Node) (m : Js.PlainObject) :
  Ast.walkAll enterMetadata body m
  = foldl assignDeclarator m (AstFacts.exportedAll body).
Proof.
  unfold Ast.walkAll, AstFacts.exportedAll. revert m.
  induction body as [|c body IH]; intros m; simpl; [done|].
  by rewrite foldl_app, walk_exported, IH.
Qed.

Lemma assignDeclarator_value (m : Js.PlainObject) (d : Ast.VariableDeclarator) :
  assignDeclarator m d = Js.setField (Ast.name_key (Ast.id d)) (declaredValue d) m.
Proof.
  unfold assignDeclarator, declaredValue.
  destruct (Ast.init d) as [[]|]; reflexivity.
Qed.

Lemma declaredValue_bare (d : Ast.VariableDeclarator) :
  declaredValue d = Js.VNull <-> bare d = true.
Proof.
  unfold declaredValue, bare. by destruct (Ast.init d) as [[]|].
Qed.

(** A key that is not [__proto__] is set like a key of a map. *)
Lemma setField_lookup (key name : string) (v : Js.Value) (o : Js.PlainObject) :
  name <> "__proto__" ->
  Js.setField key v o !! name = if decide (key = name) then Some v else o !! name.
Proof.
  intros Hname. unfold Js.setField, lookup, Js.PlainObject_lookup.
  destruct (String.eqb_spec key "__proto__") as [->|Hkey]; cbn [andb].
  - rewrite decide_False by done. destruct (Js.hasPrototype o); simpl.
    + by destruct v.
    + by rewrite lookup_insert_ne.
  - simpl. destruct (decide (key = name)) as [->|Hne].
    + by rewrite lookup_insert_eq.
    + by rewrite lookup_insert_ne.
Qed.

Lemma assigned_lookup (ds : list Ast.VariableDeclarator) (m : Js.PlainObject)
    (name : string) :
  name <> "__proto__" ->
  foldl assignDeclarator m ds !! name
  = match lastDeclared name ds with
    | Some d => Some (declaredValue d)
    | None => m !! name
    end.
Proof.
  intros Hname. unfold lastDeclared.
  induction ds as [|d ds IH] using rev_ind; [done|].
  rewrite foldl_app, filter_app. simpl.
  rewrite assignDeclarator_value, setField_lookup, filter_cons, filter_nil by done.
  destruct (decide (Ast.name_key (Ast.id d) = name)) as [<-|Hne].
  - by rewrite last_snoc.
  - by rewrite app_nil_r.
Qed.

(** On an object without prototype every key is set like a key of a
    map, and the object stays without prototype. *)
Lemma assigned_orphan (ds : list Ast.VariableDeclarator) (m : Js.PlainObject)
    (name : string) :
  Js.hasPrototype m = false ->
  Js.hasPrototype (foldl assignDeclarator m ds) = false
  /\ foldl assignDeclarator m ds !! name
     = match lastDeclared name ds with
       | Some d => Some (declaredValue d)
       | None => m !! name
       end.
Proof.
  intros Hm. unfold lastDeclared.
  induction ds as [|d ds [IHp IH]] using rev_ind; [done|].
  rewrite foldl_app, filter_app. simpl.
  rewrite assignDeclarator_value, filter_cons, filter_nil.
  unfold Js.setField. rewrite IHp, andb_false_r. split; [done|].
  unfold lookup at 1, Js.PlainObject_lookup at 1. simpl.
  destruct (decide (Ast.name_key (Ast.id d) = name)) as [<-|Hne].
  - by rewrite last_snoc, lookup_insert_eq.
  - rewrite app_nil_r, lookup_insert_ne by done. exact IH.
Qed.

(** The key [__proto__] on an object that has the prototype and no
    such field: the first declarator of that name without initializer
    takes the prototype away, and the later ones of that name set the
    field. *)
Lemma assigned_proto (ds : list Ast.VariableDeclarator) (m : Js.PlainObject) :
  Js.hasPrototype m = true ->
  m !! "__proto__" = None ->
  Js.hasPrototype (foldl assignDeclarator m ds)
  = forallb (fun d => negb (bare d)) (protoDeclared ds)
  /\ foldl assignDeclarator m ds !! "__proto__"
     = declaredValue <$> last (afterBare (protoDeclared ds)).
Proof.
  revert m. unfold protoDeclared.
  induction ds as [|d ds IH]; intros m Hp Hnone; [done|].
  cbn [foldl]. rewrite filter_cons, assignDeclarator_value.
  destruct (decide (Ast.name_key (Ast.id d) = "__proto__")) as [Hkey|Hkey].
  - rewrite Hkey. unfold Js.setField. rewrite Hp, String.eqb_refl. cbn [andb].
    cbn [forallb afterBare].
    destruct (bare d) eqn:Hbare.
    + apply declaredValue_bare in Hbare. rewrite Hbare. cbn [negb andb].
      destruct (assigned_orphan ds (Js.mkObject (Js.ownFields m) false) "__proto__")
        as [Horphan Hlookup]; [done|].
      split; [exact Horphan|]. rewrite Hlookup. unfold lastDeclared.
      destruct (last (filter _ ds)); [done | exact Hnone].
    + assert (Hsame : match declaredValue d with
                      | Js.VNull => Js.mkObject (Js.ownFields m) false
                      | _ => m
                      end = m).
      { destruct (declaredValue d) eqn:Hv; try done.
        apply declaredValue_bare in Hv. congruence. }
      rewrite Hsame. cbn [negb andb]. by apply IH.
  - apply IH.
    + unfold Js.setField.
      destruct (String.eqb_spec (Ast.name_key (Ast.id d)) "__proto__"); [done|].
      done.
    + unfold Js.setField.
      destruct (String.eqb_spec (Ast.name_key (Ast.id d)) "__proto__"); [done|].
      unfold lookup, Js.PlainObject_lookup. simpl. by rewrite lookup_insert_ne.
Qed.

Lemma metadata0_lookup (name : string) :
  metadata0 !! name = if decide (name ∈ knownFields) then Some Js.VNull else None.
Proof.
  unfold metadata0, knownFields, lookup, Js.PlainObject_lookup. simpl.
  destruct (decide (name ∈ _)) as [Hin|Hnot].
  - repeat (apply elem_of_cons in Hin as [->|Hin]; [reflexivity|]).
    by apply elem_of_nil in Hin.
  - rewrite !lookup_insert_ne; [apply lookup_empty | | |];
      intros <-; apply Hnot; set_solver.
Qed.

Section Metadata.
Context `{Compilers}.

(** C5, as the code has it. For a component file whose plain script
    section has content, the result holds the three fields
    description, iframeHeight and containerClass, and the key of every
    declarator of an exported variable declaration, whatever its name,
    the name [__proto__] apart: a key is mapped to the value of the
    last exported declarator of that name (the value of its
    initializer when that is a string, number, boolean or BigInt
    literal, which for a number is a double and for a BigInt the
    string of its digits; [undefined] for another initializer; [null]
    without an initializer), and to its initial value, [null] for the
    three fields, when no exported variable has that name. The name
    [__proto__] reaches the accessor of the object: such a declarator
    adds no field; the first of them without an initializer takes the
    prototype of the result away, and only the ones after that one set
    a field of that name. *)
Theorem getBlockMetadata_script (filename sourceCode : string)
    (descriptor : Sfc.Descriptor) (compiled : Sfc.Compiled) (body : list Ast.Node) :
  Js.endsWith filename ".vue" = true ->
  parse sourceCode filename = Some descriptor ->
  Sfc.hasContent (Sfc.script descriptor) = true ->
  compileScript descriptor = Some compiled ->
  Sfc.scriptAst compiled = Some body ->
  exists m : Js.PlainObject,
    getBlockMetadata filename sourceCode = Some m
    /\ (forall field, field ∈ knownFields -> is_Some (m !! field))
    /\ (forall d, d ∈ AstFacts.exportedAll body ->
                  Ast.name_key (Ast.id d) <> "__proto__" ->
                  is_Some (m !! Ast.name_key (Ast.id d)))
    /\ (forall name,
          name <> "__proto__" ->
          m !! name = match lastDeclared name (AstFacts.exportedAll body) with
                      | Some d => Some (declaredValue d)
                      | None => if decide (name ∈ knownFields)
                                then Some Js.VNull else None
                      end)
    /\ Js.hasPrototype m
       = forallb (fun d => negb (bare d)) (protoDeclared (AstFacts.exportedAll body))
    /\ m !! "__proto__"
       = declaredValue <$> last (afterBare (protoDeclared (AstFacts.exportedAll body))).
Proof.
  intros Hvue Hparse Hscript Hcomp Hast.
  exists (foldl assignDeclarator metadata0 (AstFacts.exportedAll body)).
  assert (Hlookup : forall name,
    name <> "__proto__" ->
    foldl assignDeclarator metadata0 (AstFacts.exportedAll body) !! name
    = match lastDeclared name (AstFacts.exportedAll body) with
      | Some d => Some (declaredValue d)
      | None => if decide (name ∈ knownFields) then Some Js.VNull else None
      end).
  { intros name Hname. by rewrite assigned_lookup, metadata0_lookup. }
  split; [|split; [|split; [|split]]].
  - unfold getBlockMetadata. rewrite Hvue, Hparse. simpl.
    rewrite Hscript, Hcomp. simpl. rewrite Hast. by rewrite walkAll_exported.
  - intros field Hfield. rewrite Hlookup.
    + destruct (lastDeclared _ _); [done|]. by rewrite decide_True.
    + intros ->. revert Hfield. unfold knownFields. not_listed.
  - intros d Hd Hname. rewrite Hlookup by done.
    destruct (lastDeclared _ _) eqn:Hlast; [done|]. exfalso.
    unfold lastDeclared in Hlast. apply last_None in Hlast.
    assert (Hin : d ∈ filter (fun d0 => Ast.name_key (Ast.id d0) = Ast.name_key (Ast.id d))
                      (AstFacts.exportedAll body)) by by apply list_elem_of_filter.
    rewrite Hlast in Hin. by apply elem_of_nil in Hin.
  - exact Hlookup.
  - apply assigned_proto; [done|]. rewrite metadata0_lookup.
    rewrite decide_False; [done|]. unfold knownFields. not_listed.
Qed.

(** C10. A component file without a plain script section yields the
    three fields, all [null], and nothing else, whatever its setup
    script exports and whatever the compiler would make of it. *)
Theorem getBlockMetadata_setup_only (filename sourceCode : string)
    (descriptor : Sfc.Descriptor) :
  parse sourceCode filename = Some descriptor ->
  Sfc.script descriptor = None ->
  exists m : Js.PlainObject,
    getBlockMetadata filename sourceCode = Some m
    /\ m !! "description" = Some Js.VNull
    /\ m !! "iframeHeight" = Some Js.VNull
    /\ m !! "containerClass" = Some Js.VNull
    /\ forall name, is_Some (m !! name) -> name ∈ knownFields.
Proof.
  intros Hparse Hnone. exists metadata0. split; [|repeat split].
  - unfold getBlockMetadata.
    destruct (Js.endsWith filename ".vue"); [|done].
    rewrite Hparse. simpl. by rewrite Hnone.
  - intros name. rewrite metadata0_lookup.
    destruct (decide (name ∈ knownFields)); [done | by intros [? [=]]].
Qed.

End Metadata.

Lemma getBlockMetadata_script_witness :
  (exists m : Js.PlainObject,
     @getBlockMetadata pageCompilers "page.vue" pageSource = Some m
     /\ (forall field, field ∈ knownFields -> is_Some (m !! field))
     /\ (forall d, d ∈ AstFacts.exportedAll pageBody ->
                   Ast.name_key (Ast.id d) <> "__proto__" ->
                   is_Some (m !! Ast.name_key (Ast.id d)))
     /\ (forall name,
           name <> "__proto__" ->
           m !! name = match lastDeclared name (AstFacts.exportedAll pageBody) with
                       | Some d => Some (declaredValue d)
                       | None => if decide (name ∈ knownFields)
                                 then Some Js.VNull else None
                       end)
     /\ Js.hasPrototype m = true
     /\ m !! "__proto__" = None)
  /\ (exists m : Js.PlainObject,
        @getBlockMetadata pageCompilers "page.vue" oddSource = Some m
        /\ m !! "big" = Some (Js.VString "10")
        /\ m !! "ratio" = Some (Js.VNumber 1.5%float)
        /\ Js.hasPrototype m = true
        /\ m !! "__proto__" = None)
  /\ (exists m : Js.PlainObject,
        @getBlockMetadata pageCompilers "page.vue" nestedSource = Some m
        /\ Js.hasPrototype m = false
        /\ m !! "__proto__" = Some (Js.VString "q")).
Proof.
  split; [|split].
  - apply (@getBlockMetadata_script pageCompilers "page.vue" pageSource pageDescriptor
             pageCompiled pageBody); reflexivity.
  - destruct (@getBlockMetadata_script pageCompilers "page.vue" oddSource oddDescriptor
                (Sfc.mkCompiled None (Some oddBody)) oddBody)
      as (m & Hrun & _ & _ & Hnames & Hproto & Hfield); try reflexivity.
    exists m. split; [exact Hrun|]. split; [|split; [|split]].
    + by rewrite Hnames.
    + by rewrite Hnames.
    + exact Hproto.
    + exact Hfield.
  - destruct (@getBlockMetadata_script pageCompilers "page.vue" nestedSource
                nestedDescriptor (Sfc.mkCompiled None (Some nestedBody)) nestedBody)
      as (m & Hrun & _ & _ & _ & Hproto & Hfield); try reflexivity.
    exists m. split; [exact Hrun|]. split; [exact Hproto | exact Hfield].
Defined.

(** The claim C5 as stated fails: the result of the page above has a
    fourth field, [foo], and its [description], whose initializer is
    not a literal, is [undefined], not [null]. *)
Lemma getBlockMetadata_keeps_other_names :
  exists m : Js.PlainObject,
    @getBlockMetadata pageCompilers "page.vue" pageSource = Some m
    /\ m !! "foo" = Some (Js.VString "bar")
    /\ ~ (forall name, is_Some (m !! name) -> name ∈ knownFields)
    /\ m !! "description" = Some Js.VUndefined.
Proof.
  eexists. split; [reflexivity|]. split; [reflexivity|]. split; [|reflexivity].
  intros Hall. specialize (Hall "foo" (ex_intro _ _ eq_refl)).
  revert Hall. unfold knownFields. not_listed.
Qed.

Lemma getBlockMetadata_setup_only_witness :
  exists m : Js.PlainObject,
    @getBlockMetadata pageCompilers "page.vue" setupSource = Some m
    /\ m !! "description" = Some Js.VNull
    /\ m !! "iframeHeight" = Some Js.VNull
    /\ m !! "containerClass" = Some Js.VNull
    /\ forall name, is_Some (m !! name) -> name ∈ knownFields.
Proof.
  apply (@getBlockMetadata_setup_only pageCompilers "page.vue" setupSource setupDescriptor);
    reflexivity.
Defined.

(** ** Loops *)

Lemma forOf_app {A S : Type} (body : S -> A -> option S) (l1 l2 : list A) (s : S) :
  forOf body (l1 ++ l2)%list s = forOf body l1 s ≫= forOf body l2.
Proof.
  revert s. induction l1 as [|x l1 IH]; intros s; simpl; [done|].
  destruct (body s x) as [s'|]; simpl; [apply IH | done].
Qed.

Lemma forOf_invariant {A S : Type} (P : S -> Prop) (body : S -> A -> option S)
    (l : list A) (s s' : S) :
  (forall s x s', P s -> body s x = Some s' -> P s') ->
  P s -> forOf body l s = Some s' -> P s'.
Proof.
  intros Hbody. revert s. induction l as [|x l IH]; intros s Hs; simpl.
  - by intros [= <-].
  - destruct (body s x) as [s1|] eqn:Hx; simpl; [|done].
    apply IH. by eapply Hbody.
Qed.

(** A body that leaves the state as it is can be left out. *)
Lemma forOf_skip {A S : Type} (body : S -> A -> option S) (l1 l2 : list A) (x : A) (s : S) :
  (forall s, body s x = Some s) ->
  forOf body (l1 ++ x :: l2)%list s = forOf body (l1 ++ l2)%list s.
Proof.
  intros Hx. rewrite !forOf_app. destruct (forOf body l1 s) as [s1|]; simpl; [|done].
  by rewrite Hx.
Qed.

(** ** The block crawl *)

Section Blocks.
Context `{Pathe} `{ReadFs} `{Compilers}.

(** A block directory whose recursive listing has no file gives an
    item without files. *)
Lemma buildBlockRegistry_no_files (blockPath blockName : string)
    (listing : list Dirent.t) :
  readdir blockPath true = Some listing ->
  Forall (fun d => Dirent.isFile d = false) listing ->
  buildBlockRegistry blockPath blockName
  = Some (Item.mk blockName registry_block [] [] []).
Proof.
  intros Hdir Hall. unfold buildBlockRegistry. rewrite Hdir. simpl.
  assert (Hloop : forall b,
    forOf (buildBlockRegistry_body blockPath blockName) listing b = Some b).
  { clear Hdir. induction Hall as [|d l Hd _ IH]; intros b; cbn [forOf]; [done|].
    assert (Hskip : buildBlockRegistry_body blockPath blockName b d = Some b)
      by (unfold buildBlockRegistry_body; by rewrite Hd).
    rewrite Hskip. apply IH. }
  by rewrite Hloop.
Qed.

Lemma crawlBlock_body_files (rootPath : string) (registry registry' : Registry)
    (dirent : Dirent.t) :
  Forall (fun item => Item.files item <> []) registry ->
  crawlBlock_body rootPath registry dirent = Some registry' ->
  Forall (fun item => Item.files item <> []) registry'.
Proof.
  intros Hreg. unfold crawlBlock_body.
  destruct (Dirent.isFile dirent); simpl.
  - destruct (negb (Js.endsWith (Dirent.name dirent) ".vue")); simpl.
    + by intros [= <-].
    + unfold singleFileItem.
      destruct (readFile _) as [source|]; simpl; [|done].
      destruct (getFileDependencies _ _) as [deps|]; simpl; [|done].
      intros [= <-]. apply Forall_app. split; [done|].
      by apply Forall_singleton.
  - destruct (buildBlockRegistry _ _) as [result|]; simpl; [|done].
    destruct (List.length (Item.files result)) eqn:Hlen; simpl.
    + by intros [= <-].
    + intros [= <-]. apply Forall_app. split; [done|].
      apply Forall_singleton. intros Hnil. by rewrite Hnil in Hlen.
Qed.

(** C6. A subdirectory of the block root whose item has no files is
    not appended: the crawl goes on as if the directory was not
    there, without an error. This is so for a block directory that
    holds nothing but an empty [components/] folder, whose recursive
    listing has no file; and no item of the registry the block crawl
    returns is without files. *)
Theorem crawlBlock_discards_empty (rootPath : string)
    (before after : list Dirent.t) (dirent : Dirent.t) :
  Dirent.isFile dirent = false ->
  (forall result registry,
     buildBlockRegistry (rootPath ++ "/" ++ Dirent.name dirent) (Dirent.name dirent)
       = Some result ->
     Item.files result = [] ->
     crawlBlock_body rootPath registry dirent = Some registry
     /\ forOf (crawlBlock_body rootPath) (before ++ dirent :: after)%list []
        = forOf (crawlBlock_body rootPath) (before ++ after)%list [])
  /\ (forall listing,
        readdir (rootPath ++ "/" ++ Dirent.name dirent) true = Some listing ->
        Forall (fun d => Dirent.isFile d = false) listing ->
        forOf (crawlBlock_body rootPath) (before ++ dirent :: after)%list []
        = forOf (crawlBlock_body rootPath) (before ++ after)%list [])
  /\ (forall registry,
        crawlBlock rootPath = Some registry ->
        Forall (fun item => Item.files item <> []) registry).
Proof.
  intros Hdir.
  assert (Hbody : forall result,
    buildBlockRegistry (rootPath ++ "/" ++ Dirent.name dirent) (Dirent.name dirent)
      = Some result ->
    Item.files result = [] ->
    forall registry, crawlBlock_body rootPath registry dirent = Some registry).
  { intros result Hres Hnil registry. unfold crawlBlock_body.
    rewrite Hdir. simpl. rewrite Hres. simpl. by rewrite Hnil. }
  split; [|split].
  - intros result registry Hres Hnil. split; [by eapply Hbody|].
    apply forOf_skip. by eapply Hbody.
  - intros listing Hlist Hall. apply forOf_skip.
    eapply Hbody; [by eapply buildBlockRegistry_no_files | done].
  - intros registry. unfold crawlBlock.
    destruct (readdir rootPath false) as [dir|]; simpl; [|done].
    apply (forOf_invariant (fun r => Forall (fun item => Item.files item <> []) r)).
    + intros s x s'. apply crawlBlock_body_files.
    + apply Forall_nil_2.
Qed.

End Blocks.

Lemma crawlBlock_discards_empty_witness :
  @forOf _ _ (@crawlBlock_body (Posix.pathe "/repo") (Tree.fs blockTree) pageCompilers blockRoot)
        ([] ++ Dirent.mk "Placeholder" Dirent.directory
            :: [Dirent.mk "Dashboard" Dirent.directory])%list []
  = forOf (@crawlBlock_body (Posix.pathe "/repo") (Tree.fs blockTree) pageCompilers blockRoot)
          ([] ++ [Dirent.mk "Dashboard" Dirent.directory])%list [].
Proof.
  apply (proj1 (proj2
    (@crawlBlock_discards_empty (Posix.pathe "/repo") (Tree.fs blockTree) pageCompilers
       blockRoot [] [Dirent.mk "Dashboard" Dirent.directory]
       (Dirent.mk "Placeholder" Dirent.directory) eq_refl))
    [Dirent.mk "components" Dirent.directory]).
  - reflexivity.
  - repeat constructor.
Defined.

(** The registry of the sample block root: the placeholder is not in
    it, and the crawl succeeds. *)
Example crawlBlock_sample :
  fmap (M := list) Item.name <$> @crawlBlock (Posix.pathe "/repo") (Tree.fs blockTree) pageCompilers blockRoot
  = Some ["Dashboard"].
Proof. reflexivity. Qed.

(** ** The ui crawl *)

Section Ui.
Context `{Pathe} `{ReadFs} `{Compilers}.

Lemma buildUIRegistry_loop (componentPath componentName : string)
    (listing : list Dirent.t) (b b' : Building) :
  forOf (buildUIRegistry_body componentPath componentName) listing b = Some b' ->
  exists fs : list File.t,
    files b' = (files b ++ fs)%list
    /\ Forall2 (uiFileOf componentPath componentName)
               (filter (fun d => Dirent.isFile d = true) listing) fs.
Proof.
  revert b. induction listing as [|d l IH]; intros b; cbn [forOf].
  - intros [= <-]. exists []. by rewrite app_nil_r.
  - destruct (buildUIRegistry_body componentPath componentName b d) as [b1|] eqn:Hd;
      simpl; [|done].
    intros Hrest. apply IH in Hrest as (fs & Hfiles & Hall).
    unfold buildUIRegistry_body in Hd. rewrite filter_cons.
    destruct (Dirent.isFile d); simpl in Hd.
    + destruct (readFile _) as [source|] eqn:Hread; simpl in Hd; [|done].
      assert (Hb1 : files b1 = Js.push (files b)
                (File.mk (Some source) (join ["ui"; componentName; Dirent.name d])
                         registry_ui (Some (componentName ++ "/" ++ Dirent.name d)))).
      { destruct (decide (Dirent.name d = "index.ts")); simpl in Hd.
        - by injection Hd as <-.
        - destruct (getFileDependencies _ _); simpl in Hd; [|done].
          by injection Hd as <-. }
      rewrite decide_True by done. eexists (_ :: fs). split.
      * rewrite Hfiles, Hb1. unfold Js.push. by rewrite <- app_assoc.
      * constructor; [|done]. unfold uiFileOf; simpl. by rewrite Hread.
    + injection Hd as <-. rewrite decide_False by done. by exists fs.
Qed.

(** X5. The item of a component directory: named after it, of type
    ui, with one file for each file directly inside, in the order of
    the listing, the target being [componentName/fileName]; the
    directories inside give no file. *)
Lemma buildUIRegistry_item (componentPath componentName : string)
    (listing : list Dirent.t) (item : Item.t) :
  readdir componentPath false = Some listing ->
  buildUIRegistry componentPath componentName = Some item ->
  Item.name item = componentName
  /\ Item.type item = registry_ui
  /\ Forall2 (uiFileOf componentPath componentName)
             (filter (fun d => Dirent.isFile d = true) listing) (Item.files item).
Proof.
  intros Hdir. unfold buildUIRegistry. rewrite Hdir. simpl.
  destruct (forOf _ listing _) as [b|] eqn:Hloop; simpl; [|done].
  intros [= <-]. simpl. repeat split.
  by apply buildUIRegistry_loop in Hloop as (fs & -> & Hall).
Qed.

(** X10. The ui crawl makes one item for each directory of the
    recursive listing of the root, in the order of the listing, and
    looks for each of them directly below the root, under its bare
    name. *)
Lemma crawlUI_items (rootPath : string) (listing : list Dirent.t) (registry : Registry) :
  readdir rootPath true = Some listing ->
  crawlUI rootPath = Some registry ->
  Forall2 (fun d item =>
             buildUIRegistry (resolve [rootPath; Dirent.name d]) (Dirent.name d)
             = Some item)
          (filter (fun d => Dirent.isDirectory d = true) listing) registry.
Proof.
  intros Hdir. unfold crawlUI. rewrite Hdir. simpl.
  assert (Hloop : forall acc r,
    forOf (crawlUI_body rootPath) listing acc = Some r ->
    exists items, r = (acc ++ items)%list
      /\ Forall2 (fun d item =>
             buildUIRegistry (resolve [rootPath; Dirent.name d]) (Dirent.name d)
             = Some item)
          (filter (fun d => Dirent.isDirectory d = true) listing) items).
  { clear Hdir. induction listing as [|d l IH]; intros acc r; cbn [forOf].
    - intros [= <-]. exists []. by rewrite app_nil_r.
    - destruct (crawlUI_body rootPath acc d) as [acc1|] eqn:Hd; simpl; [|done].
      intros Hrest. apply IH in Hrest as (items & -> & Hall).
      unfold crawlUI_body in Hd. rewrite filter_cons.
      destruct (Dirent.isDirectory d); simpl in Hd.
      + destruct (buildUIRegistry _ _) as [ui|] eqn:Hui; simpl in Hd; [|done].
        injection Hd as <-. rewrite decide_True by done.
        exists (ui :: items). split.
        * unfold Js.push. by rewrite <- app_assoc.
        * by constructor.
      + injection Hd as <-. rewrite decide_False by done. by exists items. }
  intros Hr. by apply Hloop in Hr as (items & -> & Hall).
Qed.

End Ui.

(** C3, where the code departs from it. The listing of the ui root is
    recursive, so a directory nested in a component is crawled too, as
    if it was directly below the root: with the components [a], which
    has a directory [b], and [b], the registry has [b] twice; and
    where the nested directory has no namesake below the root, the
    crawl fails. *)
Theorem crawlUI_nested_directory (compilers : Compilers) :
  fmap (M := list) Item.name <$> @crawlUI (Posix.pathe "/repo") (Tree.fs nestedTree) compilers "/ui"
  = Some ["a"; "b"; "b"]
  /\ @readdir (Tree.fs nestedTree) "/ui" false
     = Some [Dirent.mk "a" Dirent.directory; Dirent.mk "b" Dirent.directory]
  /\ @crawlUI (Posix.pathe "/repo") (Tree.fs iconsTree) compilers "/ui" = None.
Proof. repeat split. Qed.

(** ** The installer *)

Section Install.
Context `{Pathe} `{Project} `{Disk} `{User}.

Lemma State_eq (a b : State) :
  onDisk a = onDisk b -> log a = log b -> folderSkipped a = folderSkipped b ->
  filesCreated a = filesCreated b -> filesUpdated a = filesUpdated b ->
  filesSkipped a = filesSkipped b -> a = b.
Proof. destruct a, b; simpl; by intros -> -> -> -> -> ->. Qed.

Lemma writeOut_Written (config : Config) (baseColor : BaseColor) (file : File.t)
    (filePath targetDir : string) (existing : bool) (st st' : State) :
  writeOut config baseColor file filePath targetDir existing st = Some st'
  <-> Written config baseColor file filePath targetDir existing st st'.
Proof.
  unfold writeOut, Written. split.
  - destruct (existsSync (onDisk st) targetDir) eqn:Hdir; simpl.
    + destruct (transform _ _ _ _) as [content|]; simpl; [|done].
      destruct (writeFile (onDisk st) filePath content) as [d2|] eqn:Hw; simpl; [|done].
      intros [= <-]. exists (onDisk st), content.
      destruct existing; simpl; by rewrite Hw.
    + destruct (mkdir (onDisk st) targetDir) as [d1|]; simpl; [|done].
      destruct (transform _ _ _ _) as [content|]; simpl; [|done].
      destruct (writeFile d1 filePath content) as [d2|] eqn:Hw; simpl; [|done].
      intros [= <-]. exists d1, content.
      destruct existing; simpl; rewrite Hw; unfold Js.push; simpl;
        by rewrite <- ?app_assoc.
  - intros (d1 & content & Hd1 & Htr & Hw & Hlog & Hmap & Hc & Hu & Hs).
    destruct (existsSync (onDisk st) targetDir) eqn:Hdir; simpl.
    + subst d1. rewrite Htr. simpl. rewrite Hw. simpl. f_equal.
      apply State_eq; destruct existing; simpl; by rewrite ?Hlog, ?Hmap, ?Hc, ?Hu, ?Hs.
    + rewrite Hd1. simpl. rewrite Htr. simpl. rewrite Hw. simpl. f_equal.
      apply State_eq; destruct existing; simpl;
        rewrite ?Hlog, ?Hmap, ?Hc, ?Hu, ?Hs; unfold Js.push; simpl;
        by rewrite <- ?app_assoc.
Qed.

Lemma replace_prefix (pat s : string) :
  Js.startsWith s pat = true ->
  Js.replace pat "" s = Js.slice (String.length pat) s.
Proof. intros Hpre. destruct s; cbn [Js.replace]; by rewrite Hpre. Qed.

(** C4, as the code has it. An explicit, non-empty target is joined
    to the project root [config.resolvedPaths.cwd]: without its
    leading [~/] when it has one, as it is otherwise, whatever the
    project information says about a source directory. A file
    without target goes to the directory of its type, under its own
    base name. In a project without TypeScript a final [.ts] (or
    [.t]) of the path becomes [.js]. *)
Theorem destination_resolved (projectInfo : ProjectInfo) (config : Config)
    (file : File.t) :
  let cwd := resolvedPaths_cwd config in
  let ext := fun p : string =>
    if typescript config then p else replaceTsExtension p in
  (forall target : string,
     File.target file = Some target -> target <> "" ->
     (Js.startsWith target "~/" = true ->
      resolveTargetDir projectInfo config target = join [cwd; Js.slice 2 target]
      /\ destination projectInfo config file
         = (ext (join [cwd; Js.slice 2 target]),
            dirname (join [cwd; Js.slice 2 target])))
     /\ (Js.startsWith target "~/" = false ->
         resolveTargetDir projectInfo config target = join [cwd; target]
         /\ destination projectInfo config file
            = (ext (join [cwd; target]), dirname (join [cwd; target]))))
  /\ (truthy (File.target file) = false ->
      destination projectInfo config file
      = (ext (join [getRegistryItemFileTargetPath file config;
                    basename (File.path file)]),
         getRegistryItemFileTargetPath file config)).
Proof.
  intros cwd ext. split.
  - intros target Htarget Hne.
    assert (Htruthy : truthy (File.target file) = true).
    { rewrite Htarget. simpl. by destruct (String.eqb_spec target ""). }
    split; intros Hpre.
    + assert (Hres : resolveTargetDir projectInfo config target
                     = join [cwd; Js.slice 2 target]).
      { unfold resolveTargetDir. rewrite Hpre. by rewrite replace_prefix. }
      split; [done|]. unfold destination. rewrite Htruthy, Htarget. simpl.
      rewrite Hres. unfold ext. by destruct (typescript config).
    + assert (Hres : resolveTargetDir projectInfo config target = join [cwd; target]).
      { unfold resolveTargetDir. by rewrite Hpre. }
      split; [done|]. unfold destination. rewrite Htruthy, Htarget. simpl.
      rewrite Hres. unfold ext. by destruct (typescript config).
  - intros Hfalsy. unfold destination. rewrite Hfalsy. unfold ext.
    by destruct (typescript config).
Qed.

End Install.

Lemma destination_resolved_witness :
  (@resolveTargetDir (Posix.pathe "/") (Plain.project true) true projConfig
     "~/pages/dashboard/index.vue" = "/proj/pages/dashboard/index.vue"
   /\ @destination (Posix.pathe "/") (Plain.project true) true projConfig aliasedPage
      = ("/proj/pages/dashboard/index.vue", "/proj/pages/dashboard"))
  /\ (@resolveTargetDir (Posix.pathe "/") (Plain.project true) true projConfig
        "pages/dashboard/index.vue" = "/proj/pages/dashboard/index.vue"
      /\ @destination (Posix.pathe "/") (Plain.project true) true projConfig dashboardPage
         = ("/proj/pages/dashboard/index.vue", "/proj/pages/dashboard"))
  /\ @destination (Posix.pathe "/") (Plain.project true) true projConfig accordionFile
     = ("/proj/components/ui/Accordion.vue", "/proj/components/ui").
Proof.
  split; [|split].
  - apply (proj1 (proj1 (@destination_resolved (Posix.pathe "/") (Plain.project true)
                           true projConfig aliasedPage)
                        "~/pages/dashboard/index.vue" eq_refl ltac:(discriminate))).
    reflexivity.
  - apply (proj2 (proj1 (@destination_resolved (Posix.pathe "/") (Plain.project true)
                           true projConfig dashboardPage)
                        "pages/dashboard/index.vue" eq_refl ltac:(discriminate))).
    reflexivity.
  - apply (proj2 (@destination_resolved (Posix.pathe "/") (Plain.project true)
                    true projConfig accordionFile)).
    reflexivity.
Defined.

(** The claim C4 as stated fails: in a project with a source directory,
    a bare relative target is resolved against the project root, not
    against [/proj/src]. *)
Lemma bare_target_not_under_src :
  fst (@destination (Posix.pathe "/") (Plain.project true) true projConfig dashboardPage)
  = "/proj/pages/dashboard/index.vue"
  /\ fst (@destination (Posix.pathe "/") (Plain.project true) true projConfig dashboardPage)
     <> Posix.join ["/proj"; "src"; "pages/dashboard/index.vue"]
  /\ Js.startsWith
       (fst (@destination (Posix.pathe "/") (Plain.project true) true projConfig dashboardPage))
       "/proj/src/" = false.
Proof. repeat split. discriminate. Qed.

Section Conflicts.
Context `{Pathe} `{Project} `{Disk} `{User}.

(** The loop body, by cases. *)
Lemma updateFile_unfold (options : Options) (config : Config)
    (projectInfo : ProjectInfo) (baseColor : BaseColor) (st : State) (file : File.t) :
  updateFile options config projectInfo baseColor st file
  = if negb (truthy (File.content file)) then Some st
    else
      let filePath := fst (destination projectInfo config file) in
      let targetDir := snd (destination projectInfo config file) in
      let rel := relative (resolvedPaths_cwd config) filePath in
      let existingFile := existsSync (onDisk st) filePath in
      if decide (File.type file = registry_ui) then
        let folderName := basename (dirname filePath) in
        let st2 := folderDecided folderName
                     (existsSync (onDisk st) (dirname filePath)) st in
        if decide (folderSkipped st2 !! folderName = Some true)
        then Some (pushSkipped rel st2)
        else writeOut config baseColor file filePath targetDir existingFile st2
      else if existingFile && negb (isTrue (overwrite options)) then
        let question := FileExists (basename (File.path file)) in
        let answer := confirm (log (emit SpinnerStop st)) question in
        let asked := emit (Asked question answer) (emit SpinnerStop st) in
        if answer
        then writeOut config baseColor file filePath targetDir existingFile
                      (emit SpinnerStart asked)
        else Some (pushSkipped rel asked)
      else writeOut config baseColor file filePath targetDir existingFile st.
Proof.
  unfold updateFile, folderDecided, ask.
  destruct (destination projectInfo config file) as [filePath targetDir]. simpl.
  destruct (negb (truthy (File.content file))); [done|].
  destruct (decide (File.type file = registry_ui)).
  - destruct (existsSync (onDisk st) (dirname filePath)); simpl.
    + by destruct (folderSkipped st !! basename (dirname filePath)).
    + by destruct (<[basename (dirname filePath):=false]> (folderSkipped st)
                   !! basename (dirname filePath)).
  - destruct (existsSync (onDisk st) filePath && negb (isTrue (overwrite options))); [|done].
    by destruct (confirm _ _).
Qed.


(** *** What the loop logs *)

Lemma logged_refl (st : State) : logged st st [].
Proof. unfold logged. by rewrite app_nil_r. Qed.

Lemma logged_trans (a b c : State) (es1 es2 : list Event) :
  logged a b es1 -> logged b c es2 -> logged a c (es1 ++ es2).
Proof. unfold logged. intros H1' H2'. by rewrite H2', H1', app_assoc. Qed.

Lemma logged_emit (e : Event) (st : State) : logged st (emit e st) [e].
Proof. done. Qed.

Lemma Written_logged (config : Config) (baseColor : BaseColor) (file : File.t)
    (filePath targetDir : string) (existing : bool) (st st' : State) :
  Written config baseColor file filePath targetDir existing st st' ->
  exists es, logged st st' es
    /\ Forall (fun e => loopEvent e = true /\ isAsked e = false) es.
Proof.
  intros (d1 & content & _ & _ & _ & Hlog & _). eexists. split; [exact Hlog|].
  destruct (existsSync (onDisk st) targetDir); repeat constructor.
Qed.

Lemma folderDecided_logged (folderName : string) (existingFolder : bool) (st : State) :
  logged st (folderDecided folderName existingFolder st)
         (folderEvents folderName existingFolder st).
Proof.
  unfold folderDecided, folderEvents, logged.
  destruct existingFolder; simpl.
  - destruct (folderSkipped st !! folderName) eqn:Hm; simpl.
    + by rewrite app_nil_r.
    + unfold Js.push. simpl. by rewrite <- !app_assoc.
  - rewrite lookup_insert_eq. by rewrite app_nil_r.
Qed.

Lemma folderDecided_rest (folderName : string) (existingFolder : bool) (st : State) :
  onDisk (folderDecided folderName existingFolder st) = onDisk st
  /\ filesCreated (folderDecided folderName existingFolder st) = filesCreated st
  /\ filesUpdated (folderDecided folderName existingFolder st) = filesUpdated st
  /\ filesSkipped (folderDecided folderName existingFolder st) = filesSkipped st.
Proof.
  unfold folderDecided. destruct existingFolder; simpl.
  - by destruct (folderSkipped st !! folderName).
  - by rewrite lookup_insert_eq.
Qed.

(** The entry of the folder afterwards: [false] for a folder that
    does not exist, the entry it had, or the negated answer. *)
Lemma folderDecided_entry (folderName : string) (existingFolder : bool) (st : State) :
  folderSkipped (folderDecided folderName existingFolder st) !! folderName
  = Some (if existingFolder then
            match folderSkipped st !! folderName with
            | Some skipped => skipped
            | None => negb (confirm (log (emit SpinnerStop st))
                                    (FolderExists folderName))
            end
          else false).
Proof.
  unfold folderDecided. destruct existingFolder; simpl.
  - destruct (folderSkipped st !! folderName) eqn:Hm; simpl; [done|].
    by rewrite lookup_insert_eq.
  - rewrite lookup_insert_eq. simpl. by rewrite lookup_insert_eq.
Qed.

Lemma folderDecided_others (folderName other : string) (existingFolder : bool)
    (st : State) :
  other <> folderName ->
  folderSkipped (folderDecided folderName existingFolder st) !! other
  = folderSkipped st !! other.
Proof.
  intros Hne. unfold folderDecided. destruct existingFolder; simpl.
  - destruct (folderSkipped st !! folderName); simpl; [done|].
    by rewrite lookup_insert_ne.
  - rewrite lookup_insert_eq. simpl. by rewrite lookup_insert_ne.
Qed.

(** *** The ways through the loop body *)

Section Step.
Variables (options : Options) (config : Config) (projectInfo : ProjectInfo)
          (baseColor : BaseColor) (st : State) (file : File.t).

Let filePath := fst (destination projectInfo config file).
Let targetDir := snd (destination projectInfo config file).
Let rel := relative (resolvedPaths_cwd config) filePath.
Let existingFile := existsSync (onDisk st) filePath.
Let folderName := basename (dirname filePath).
Let decided :=
  folderDecided folderName (existsSync (onDisk st) (dirname filePath)) st.
Let question := FileExists (basename (File.path file)).
Let answer := confirm (log (emit SpinnerStop st)) question.
Let asked := emit (Asked question answer) (emit SpinnerStop st).

(** The five ways: no content; a ui file skipped with its folder; a
    ui file written; another file declined; another file written,
    after a question or without one. *)
Lemma updateFile_cases (st' : State) :
  updateFile options config projectInfo baseColor st file = Some st' ->
  (truthy (File.content file) = false /\ st' = st)
  \/ (truthy (File.content file) = true /\ File.type file = registry_ui
      /\ folderSkipped decided !! folderName = Some true
      /\ st' = pushSkipped rel decided)
  \/ (truthy (File.content file) = true /\ File.type file = registry_ui
      /\ folderSkipped decided !! folderName = Some false
      /\ Written config baseColor file filePath targetDir existingFile decided st')
  \/ (truthy (File.content file) = true /\ File.type file <> registry_ui
      /\ answer = false /\ st' = pushSkipped rel asked)
  \/ (truthy (File.content file) = true /\ File.type file <> registry_ui
      /\ (Written config baseColor file filePath targetDir existingFile st st'
          \/ Written config baseColor file filePath targetDir existingFile
                     (emit SpinnerStart asked) st')).
Proof.
  intros Hrun. rewrite updateFile_unfold in Hrun. cbv zeta in Hrun.
  pose proof (folderDecided_entry folderName
                (existsSync (onDisk st) (dirname filePath)) st) as Hentry.
  fold decided in Hentry.
  unfold decided, asked, answer, question, folderName, existingFile, rel,
    targetDir, filePath in *.
  destruct (truthy (File.content file)) eqn:Hc; cbn [negb] in Hrun;
    [|injection Hrun as <-; by left].
  right. destruct (decide (File.type file = registry_ui)) as [Hui|Hui].
  - destruct (decide (_ = Some true)) as [Hs|Hs] in Hrun.
    + injection Hrun as <-. by left.
    + apply writeOut_Written in Hrun. right; left. repeat split; try done.
      rewrite Hentry in *. f_equal.
      match goal with |- ?b = false => by destruct b end.
  - right; right.
    destruct (existsSync _ _ && negb (isTrue (overwrite options))) in Hrun.
    + destruct (confirm _ _) eqn:Ha in Hrun.
      * apply writeOut_Written in Hrun. right. rewrite Ha. auto.
      * injection Hrun as <-. left. by rewrite Ha.
    + apply writeOut_Written in Hrun. right. auto.
Qed.

End Step.

(** *** The disk only grows *)

Lemma Written_keeps (config : Config) (baseColor : BaseColor) (file : File.t)
    (filePath targetDir : string) (existing : bool) (st st' : State) (p : string) :
  Written config baseColor file filePath targetDir existing st st' ->
  existsSync (onDisk st) p = true -> existsSync (onDisk st') p = true.
Proof.
  intros (d1 & content & Hd1 & _ & Hw & _) Hp.
  eapply writeFile_keeps; [exact Hw|].
  destruct (existsSync (onDisk st) targetDir); [by subst d1|].
  by eapply mkdir_keeps.
Qed.

Lemma updateFile_keeps (options : Options) (config : Config)
    (projectInfo : ProjectInfo) (baseColor : BaseColor) (st st' : State)
    (file : File.t) (p : string) :
  updateFile options config projectInfo baseColor st file = Some st' ->
  existsSync (onDisk st) p = true -> existsSync (onDisk st') p = true.
Proof.
  intros Hrun Hp. apply updateFile_cases in Hrun. cbv zeta in Hrun.
  pose proof (folderDecided_rest
    (basename (dirname (fst (destination projectInfo config file))))
    (existsSync (onDisk st) (dirname (fst (destination projectInfo config file)))) st)
    as (Hdisk & _).
  destruct Hrun as [(_ & ->)|[(_ & _ & _ & ->)|[(_ & _ & _ & Hw)|[(_ & _ & _ & ->)
                   |(_ & _ & [Hw|Hw])]]]]; simpl; try done.
  - by rewrite Hdisk.
  - eapply Written_keeps; [exact Hw|]. by rewrite Hdisk.
  - by eapply Written_keeps.
  - by eapply Written_keeps.
Qed.

Lemma updateEach_keeps (options : Options) (config : Config)
    (projectInfo : ProjectInfo) (baseColor : BaseColor) (files : list File.t)
    (st st' : State) (p : string) :
  updateEach options config projectInfo baseColor files st = Some st' ->
  existsSync (onDisk st) p = true -> existsSync (onDisk st') p = true.
Proof.
  unfold updateEach. revert st. induction files as [|f files IH]; intros st; simpl.
  - by intros [= <-].
  - destruct (updateFile _ _ _ _ st f) as [st1|] eqn:Hf; simpl; [|done].
    intros Hrest Hp. eapply IH; [exact Hrest|]. by eapply updateFile_keeps.
Qed.

(** *** Each folder is asked about once *)

Lemma askedFolders_app (folderName : string) (l1 l2 : list Event) :
  askedFolders folderName (l1 ++ l2)
  = askedFolders folderName l1 + askedFolders folderName l2.
Proof. unfold askedFolders. by rewrite List.filter_app, length_app. Qed.

Lemma AskedOnce_grow (st st' : State) (es : list Event) :
  AskedOnce st -> logged st st' es ->
  Forall (fun e => forall n, isAskedFolder n e = false) es ->
  folderSkipped st' = folderSkipped st ->
  AskedOnce st'.
Proof.
  intros Hinv Hlog Hes Hmap n. rewrite Hlog, Hmap, askedFolders_app.
  assert (Hzero : askedFolders n es = 0).
  { clear -Hes. unfold askedFolders.
    induction Hes as [|e es He _ IH]; cbn [List.filter]; [done|].
    by rewrite He. }
  specialize (Hinv n). lia.
Qed.

Lemma emit_AskedOnce (e : Event) (st : State) :
  (forall n, isAskedFolder n e = false) -> AskedOnce st -> AskedOnce (emit e st).
Proof.
  intros He Hinv. eapply AskedOnce_grow; [exact Hinv | apply logged_emit | | done].
  by constructor.
Qed.

Lemma Written_AskedOnce (config : Config) (baseColor : BaseColor) (file : File.t)
    (filePath targetDir : string) (existing : bool) (st st' : State) :
  Written config baseColor file filePath targetDir existing st st' ->
  AskedOnce st -> AskedOnce st'.
Proof.
  intros (d1 & content & _ & _ & _ & Hlog & Hmap & _) Hinv.
  eapply AskedOnce_grow; [exact Hinv | exact Hlog | | exact Hmap].
  destruct (existsSync (onDisk st) targetDir); repeat constructor.
Qed.

Lemma folderDecided_AskedOnce (folderName : string) (existingFolder : bool)
    (st : State) :
  AskedOnce st -> AskedOnce (folderDecided folderName existingFolder st).
Proof.
  intros Hinv n.
  rewrite (folderDecided_logged folderName existingFolder st), askedFolders_app.
  specialize (Hinv n). unfold folderEvents.
  destruct (decide (n = folderName)) as [->|Hne].
  - rewrite folderDecided_entry.
    destruct existingFolder; simpl.
    + destruct (folderSkipped st !! folderName); simpl.
      * unfold askedFolders in *; simpl; lia.
      * unfold askedFolders in *; simpl. rewrite String.eqb_refl. simpl. lia.
    + destruct (folderSkipped st !! folderName);
        unfold askedFolders in *; simpl; lia.
  - rewrite folderDecided_others by done.
    destruct (existingFolder && _); [|unfold askedFolders in *; simpl; lia].
    unfold askedFolders in *; simpl.
    destruct (String.eqb_spec folderName n) as [Heq|_]; [by subst|].
    simpl. destruct (folderSkipped st !! n); lia.
Qed.

Lemma updateFile_AskedOnce (options : Options) (config : Config)
    (projectInfo : ProjectInfo) (baseColor : BaseColor) (st st' : State)
    (file : File.t) :
  AskedOnce st ->
  updateFile options config projectInfo baseColor st file = Some st' ->
  AskedOnce st'.
Proof.
  intros Hinv Hrun. apply updateFile_cases in Hrun. cbv zeta in Hrun.
  destruct Hrun as [(_ & ->)|[(_ & _ & _ & ->)|[(_ & _ & _ & Hw)|[(_ & _ & _ & ->)
                   |(_ & _ & [Hw|Hw])]]]]; try done.
  - by apply folderDecided_AskedOnce.
  - eapply Written_AskedOnce; [exact Hw|]. by apply folderDecided_AskedOnce.
  - change (AskedOnce (emit (Asked (FileExists (basename (File.path file)))
              (confirm (log (emit SpinnerStop st))
                       (FileExists (basename (File.path file)))))
            (emit SpinnerStop st))).
    by repeat apply emit_AskedOnce.
  - by eapply Written_AskedOnce.
  - eapply Written_AskedOnce; [exact Hw|]. by repeat apply emit_AskedOnce.
Qed.

Lemma updateEach_AskedOnce (options : Options) (config : Config)
    (projectInfo : ProjectInfo) (baseColor : BaseColor) (files : list File.t)
    (st st' : State) :
  AskedOnce st ->
  updateEach options config projectInfo baseColor files st = Some st' ->
  AskedOnce st'.
Proof.
  intros Hinv Hrun.
  eapply (forOf_invariant AskedOnce); [|exact Hinv|exact Hrun].
  intros s x s' Hs Hx. by eapply updateFile_AskedOnce.
Qed.

(** *** The report *)

Lemma extend_nil (st : State) : extend st [] = st.
Proof. unfold extend. rewrite app_nil_r. by destruct st. Qed.

Lemma extend_extend (st : State) (es1 es2 : list Event) :
  extend (extend st es1) es2 = extend st (es1 ++ es2).
Proof. unfold extend. simpl. by rewrite app_assoc. Qed.

Lemma emit_extend (e : Event) (st : State) : emit e st = extend st [e].
Proof. done. Qed.

Lemma emitAll_extend (es : list Event) (st : State) : emitAll es st = extend st es.
Proof.
  unfold emitAll. revert st. induction es as [|e es IH]; intros st; cbn [foldl].
  - by rewrite extend_nil.
  - by rewrite IH, emit_extend, extend_extend.
Qed.

Lemma logPaths_extend (options : Options) (paths : list string) (st : State) :
  logPaths options paths st = extend st (pathLines options paths).
Proof.
  unfold logPaths, pathLines. destruct (negb (isTrue (silent options))).
  - apply emitAll_extend.
  - by rewrite extend_nil.
Qed.

Lemma otherLine_not_nothing (e : Event) :
  otherLine e -> e <> SpinnerInfo "No files updated.".
Proof.
  intros Ho ->. destruct Ho as [rest [Hr|Hr]]; discriminate Hr.
Qed.

Lemma pathLines_other (options : Options) (paths : list string) :
  Forall otherLine (pathLines options paths).
Proof.
  unfold pathLines. destruct (negb (isTrue (silent options))); [|constructor].
  induction paths; constructor; done.
Qed.

Lemma reportNothing_extend (st : State) :
  reportNothing st
  = extend st (if nothingDone st then [SpinnerInfo "No files updated."] else []).
Proof.
  unfold reportNothing, nothingDone.
  destruct (List.length (filesCreated st)), (List.length (filesUpdated st)),
    (List.length (filesSkipped st)); cbn [Nat.eqb negb orb andb Nat.add];
    by rewrite ?extend_nil.
Qed.

Lemma reportCreated_extend (options : Options) (st : State) :
  exists es, reportCreated options st = extend st es /\ Forall otherLine es.
Proof.
  unfold reportCreated.
  destruct (negb (Nat.eqb (List.length (filesCreated st)) 0)).
  - cbv zeta. rewrite logPaths_extend, emit_extend, extend_extend.
    eexists. split; [reflexivity|].
    apply Forall_app. split; [by repeat constructor | apply pathLines_other].
  - rewrite emit_extend. eexists. split; [reflexivity | by repeat constructor].
Qed.

Lemma reportUpdated_extend (options : Options) (st : State) :
  exists es, reportUpdated options st = extend st es /\ Forall otherLine es.
Proof.
  unfold reportUpdated.
  destruct (negb (Nat.eqb (List.length (filesUpdated st)) 0)).
  - cbv zeta. rewrite logPaths_extend, emit_extend, extend_extend.
    eexists. split; [reflexivity|].
    apply Forall_app. split; [|apply pathLines_other].
    constructor; [|constructor]. eexists. left. reflexivity.
  - exists []. by rewrite extend_nil.
Qed.

Lemma reportSkipped_extend (options : Options) (st : State) :
  exists es, reportSkipped options st = extend st es /\ Forall otherLine es.
Proof.
  unfold reportSkipped.
  destruct (negb (Nat.eqb (List.length (filesSkipped st)) 0)).
  - cbv zeta. rewrite logPaths_extend, emit_extend, extend_extend.
    eexists. split; [reflexivity|].
    apply Forall_app. split; [|apply pathLines_other].
    constructor; [|constructor]. eexists. right. reflexivity.
  - exists []. by rewrite extend_nil.
Qed.

Lemma reportBreak_extend (options : Options) (st : State) :
  exists es, reportBreak options st = extend st es /\ Forall otherLine es.
Proof.
  unfold reportBreak. destruct (negb (isTrue (silent options))).
  - rewrite emit_extend. eexists. split; [reflexivity | by repeat constructor].
  - exists []. by rewrite extend_nil.
Qed.

(** The report leaves everything but the log as it is, and logs the
    line [No files updated.] when nothing was done, and then only. *)
Lemma report_extend (options : Options) (st : State) :
  exists es,
    report options st
    = extend st ((if nothingDone st then [SpinnerInfo "No files updated."] else [])
                 ++ es)
    /\ Forall otherLine es.
Proof.
  unfold report. rewrite reportNothing_extend.
  set (st1 := extend st _).
  destruct (reportCreated_extend options st1) as (es2 & -> & H2').
  set (st2 := extend st1 es2).
  destruct (reportUpdated_extend options st2) as (es3 & -> & H3').
  set (st3 := extend st2 es3).
  destruct (reportSkipped_extend options st3) as (es4 & -> & H4').
  set (st4 := extend st3 es4).
  destruct (reportBreak_extend options st4) as (es5 & -> & H5').
  exists (es2 ++ es3 ++ es4 ++ es5)%list. split.
  - unfold st4, st3, st2, st1. by rewrite !extend_extend.
  - by repeat (apply Forall_app; split).
Qed.

Lemma NoReport_grow (st st' : State) (es : list Event) :
  NoReport st -> logged st st' es -> Forall (fun e => loopEvent e = true) es ->
  NoReport st'.
Proof.
  unfold NoReport, logged. intros Hst -> Hes. apply Forall_app. by split.
Qed.

Lemma updateFile_NoReport (options : Options) (config : Config)
    (projectInfo : ProjectInfo) (baseColor : BaseColor) (st st' : State)
    (file : File.t) :
  NoReport st ->
  updateFile options config projectInfo baseColor st file = Some st' ->
  NoReport st'.
Proof.
  intros Hinv Hrun. apply updateFile_cases in Hrun. cbv zeta in Hrun.
  assert (Hdecided : forall n e, NoReport (folderDecided n e st)).
  { intros n e. eapply NoReport_grow; [exact Hinv | apply folderDecided_logged|].
    unfold folderEvents. destruct (e && _); repeat constructor. }
  assert (Hwritten : forall fp td ex a b,
    NoReport a -> Written config baseColor file fp td ex a b -> NoReport b).
  { intros fp td ex a b Ha Hw.
    apply Written_logged in Hw as (es & Hlog & Hes).
    eapply NoReport_grow; [exact Ha | exact Hlog|].
    eapply Forall_impl; [exact Hes|]. by intros e [He _]. }
  assert (Hemit : forall e a, loopEvent e = true -> NoReport a -> NoReport (emit e a)).
  { intros e a He Ha. eapply NoReport_grow; [exact Ha | apply logged_emit|].
    by constructor. }
  destruct Hrun as [(_ & ->)|[(_ & _ & _ & ->)|[(_ & _ & _ & Hw)|[(_ & _ & _ & ->)
                   |(_ & _ & [Hw|Hw])]]]]; try done.
  - apply Hdecided.
  - eapply Hwritten; [apply Hdecided | exact Hw].
  - change (NoReport (emit (Asked (FileExists (basename (File.path file)))
              (confirm (log (emit SpinnerStop st))
                       (FileExists (basename (File.path file)))))
            (emit SpinnerStop st))).
    by repeat apply Hemit.
  - by eapply Hwritten.
  - eapply Hwritten; [|exact Hw]. by repeat apply Hemit.
Qed.

(** A file without content changes nothing. *)
Lemma updateEach_no_content (options : Options) (config : Config)
    (projectInfo : ProjectInfo) (baseColor : BaseColor) (files : list File.t)
    (st : State) :
  Forall (fun f => truthy (File.content f) = false) files ->
  updateEach options config projectInfo baseColor files st = Some st.
Proof.
  unfold updateEach. induction 1 as [|f files Hf _ IH]; cbn [forOf]; [done|].
  rewrite updateFile_unfold, Hf. simpl. exact IH.
Qed.

(** C9, as the code has it. For a file list that is not empty, the line
    [No files updated.] is logged exactly when no file was created or
    updated and none was skipped; so it is when every file is without
    content. For an absent or empty file list the function returns at
    once and logs nothing, this line neither. *)
Theorem no_files_updated_signal (config : Config) (options : Options) (d : disk) :
  (forall files final,
     files <> [] ->
     updateFiles (Some files) config options d = Some final ->
     (SpinnerInfo "No files updated." ∈ log final
      <-> List.length (filesCreated final) + List.length (filesUpdated final) = 0
          /\ List.length (filesSkipped final) = 0))
  /\ (forall files projectInfo baseColor,
        files <> [] ->
        Forall (fun f => truthy (File.content f) = false) files ->
        getProjectInfo (resolvedPaths_cwd config) = Some projectInfo ->
        getRegistryBaseColor (tailwind_baseColor config) = Some baseColor ->
        exists final,
          updateFiles (Some files) config options d = Some final
          /\ SpinnerInfo "No files updated." ∈ log final
          /\ onDisk final = d)
  /\ (updateFiles None config options d = Some (start d)
      /\ updateFiles (Some []) config options d = Some (start d)
      /\ log (start d) = []).
Proof.
  assert (Hreport : forall st,
    NoReport st ->
    (SpinnerInfo "No files updated." ∈ log (report (withDefaults options) st)
     <-> nothingDone st = true)
    /\ filesCreated (report (withDefaults options) st) = filesCreated st
    /\ filesUpdated (report (withDefaults options) st) = filesUpdated st
    /\ filesSkipped (report (withDefaults options) st) = filesSkipped st
    /\ onDisk (report (withDefaults options) st) = onDisk st).
  { intros st Hno.
    destruct (report_extend (withDefaults options) st) as (es & -> & Hes).
    repeat split; try done.
    - simpl. intros Hin.
      apply elem_of_app in Hin as [Hin|Hin].
      + unfold NoReport in Hno. rewrite Forall_forall in Hno.
        by apply Hno in Hin.
      + apply elem_of_app in Hin as [Hin|Hin].
        * destruct (nothingDone st); [done | by apply elem_of_nil in Hin].
        * rewrite Forall_forall in Hes. apply Hes in Hin.
          by apply otherLine_not_nothing in Hin.
    - simpl. intros ->. apply elem_of_app. right. apply elem_of_app. left.
      by apply list_elem_of_singleton. }
  assert (Hdone : forall st,
    nothingDone st = true
    <-> List.length (filesCreated st) + List.length (filesUpdated st) = 0
        /\ List.length (filesSkipped st) = 0).
  { intros st. unfold nothingDone.
    rewrite andb_true_iff, !Nat.eqb_eq. tauto. }
  split; [|split].
  - intros files final Hne Hrun. unfold updateFiles in Hrun.
    destruct files as [|f files]; [done|].
    destruct (getProjectInfo _) as [projectInfo|]; simpl in Hrun; [|done].
    destruct (getRegistryBaseColor _) as [baseColor|]; simpl in Hrun; [|done].
    destruct (updateEach _ _ _ _ _ _) as [st|] eqn:Hloop; simpl in Hrun; [|done].
    injection Hrun as <-.
    assert (Hno : NoReport st).
    { eapply (forOf_invariant NoReport); [|..|exact Hloop].
      - intros s x s' Hs Hx. by eapply updateFile_NoReport.
      - by repeat constructor. }
    destruct (Hreport st Hno) as (Hiff & -> & -> & -> & _).
    by rewrite Hiff, Hdone.
  - intros files projectInfo baseColor Hne Hall Hpi Hbc.
    unfold updateFiles. destruct files as [|f files]; [done|].
    rewrite Hpi, Hbc. simpl. rewrite updateEach_no_content by done. simpl.
    eexists. split; [reflexivity|].
    assert (Hno : NoReport (emit SpinnerStart (start d))) by by repeat constructor.
    destruct (Hreport _ Hno) as (Hiff & _ & _ & _ & Hdisk).
    split; [by apply Hiff | exact Hdisk].
  - done.
Qed.

(** *** The cached decision about a folder *)

Section Folder.
Variables (options : Options) (config : Config) (projectInfo : ProjectInfo)
          (baseColor : BaseColor).

Lemma folderDecided_id (folderName : string) (existingFolder skipped : bool)
    (st : State) :
  folderSkipped st !! folderName = Some skipped ->
  existingFolder = true \/ skipped = false ->
  folderDecided folderName existingFolder st = st.
Proof.
  intros Hm Hor. unfold folderDecided. destruct existingFolder; simpl.
  - by rewrite Hm.
  - destruct Hor as [Ht | ->]; [done|]. rewrite lookup_insert_eq.
    apply State_eq; simpl; try done. by apply insert_id.
Qed.

Lemma updateFile_ui_kept (st : State) (file : File.t) :
  uiFileIn config projectInfo (folderOf config projectInfo file) file ->
  folderSkipped st !! folderOf config projectInfo file = Some false ->
  updateFile options config projectInfo baseColor st file
  = writeOut config baseColor file (filePathOf config projectInfo file) (targetDirOf config projectInfo file)
             (existsSync (onDisk st) (filePathOf config projectInfo file)) st.
Proof.
  intros (Hc & Hui & _) Hm. rewrite updateFile_unfold, Hc. cbv zeta. cbn [negb].
  rewrite decide_True by done.
  fold (filePathOf config projectInfo file) (targetDirOf config projectInfo file) (folderOf config projectInfo file).
  rewrite (folderDecided_id _ _ false) by auto.
  rewrite Hm. by rewrite decide_False by done.
Qed.

Lemma updateFile_ui_skipped (st : State) (file : File.t) :
  uiFileIn config projectInfo (folderOf config projectInfo file) file ->
  folderSkipped st !! folderOf config projectInfo file = Some true ->
  existsSync (onDisk st) (dirname (filePathOf config projectInfo file)) = true ->
  updateFile options config projectInfo baseColor st file
  = Some (pushSkipped (relOf config projectInfo file) st).
Proof.
  intros (Hc & Hui & _) Hm Hdir. rewrite updateFile_unfold, Hc. cbv zeta. cbn [negb].
  rewrite decide_True by done.
  fold (filePathOf config projectInfo file) (targetDirOf config projectInfo file) (folderOf config projectInfo file).
  rewrite (folderDecided_id _ _ true) by auto.
  by rewrite decide_True by done.
Qed.

Lemma updateFile_ui_asked (st : State) (file : File.t) :
  uiFileIn config projectInfo (folderOf config projectInfo file) file ->
  folderSkipped st !! folderOf config projectInfo file = None ->
  existsSync (onDisk st) (dirname (filePathOf config projectInfo file)) = true ->
  updateFile options config projectInfo baseColor st file
  = if confirm (log (emit SpinnerStop st)) (FolderExists (folderOf config projectInfo file))
    then writeOut config baseColor file (filePathOf config projectInfo file) (targetDirOf config projectInfo file)
                  (existsSync (onDisk st) (filePathOf config projectInfo file))
                  (answered (folderOf config projectInfo file) st)
    else Some (pushSkipped (relOf config projectInfo file) (answered (folderOf config projectInfo file) st)).
Proof.
  intros (Hc & Hui & _) Hm Hdir. rewrite updateFile_unfold, Hc. cbv zeta. cbn [negb].
  rewrite decide_True by done.
  fold (filePathOf config projectInfo file) (targetDirOf config projectInfo file) (folderOf config projectInfo file).
  assert (Hdec : folderDecided (folderOf config projectInfo file)
                   (existsSync (onDisk st) (dirname (filePathOf config projectInfo file))) st
                 = answered (folderOf config projectInfo file) st).
  { unfold folderDecided, answered. rewrite Hdir. simpl. by rewrite Hm. }
  rewrite Hdec. unfold answered at 1. simpl. rewrite lookup_insert_eq.
  by destruct (confirm _ _).
Qed.

(** An entry [false] stays. *)
Lemma updateFile_entry_false (folderName : string) (st st' : State) (file : File.t) :
  folderSkipped st !! folderName = Some false ->
  updateFile options config projectInfo baseColor st file = Some st' ->
  folderSkipped st' !! folderName = Some false.
Proof.
  intros Hm Hrun. apply updateFile_cases in Hrun. cbv zeta in Hrun.
  fold (filePathOf config projectInfo file) (targetDirOf config projectInfo file) (folderOf config projectInfo file) in Hrun.
  assert (Hdecided : forall e,
    folderSkipped (folderDecided (folderOf config projectInfo file) e st) !! folderName = Some false).
  { intros e. destruct (decide (folderName = folderOf config projectInfo file)) as [->|Hne].
    - rewrite folderDecided_entry, Hm. by destruct e.
    - by rewrite folderDecided_others. }
  destruct Hrun as [(_ & ->)|[(_ & _ & _ & ->)|[(_ & _ & _ & Hw)|[(_ & _ & _ & ->)
                   |(_ & _ & [Hw|Hw])]]]]; simpl; try done.
  - destruct Hw as (_ & _ & _ & _ & _ & _ & -> & _). apply Hdecided.
  - destruct Hw as (_ & _ & _ & _ & _ & _ & -> & _). done.
  - destruct Hw as (_ & _ & _ & _ & _ & _ & -> & _). done.
Qed.

(** An entry [true] stays, unless a ui file of that folder name
    finds its directory missing. *)
Lemma updateFile_entry_true (folderName : string) (st st' : State) (file : File.t) :
  folderSkipped st !! folderName = Some true ->
  (uiFileIn config projectInfo folderName file ->
   existsSync (onDisk st) (dirname (filePathOf config projectInfo file)) = true) ->
  updateFile options config projectInfo baseColor st file = Some st' ->
  folderSkipped st' !! folderName = Some true.
Proof.
  intros Hm Hdir Hrun. apply updateFile_cases in Hrun. cbv zeta in Hrun.
  fold (filePathOf config projectInfo file) (targetDirOf config projectInfo file) (folderOf config projectInfo file) in Hrun.
  assert (Hdecided :
    truthy (File.content file) = true -> File.type file = registry_ui ->
    folderSkipped (folderDecided (folderOf config projectInfo file)
                     (existsSync (onDisk st) (dirname (filePathOf config projectInfo file))) st)
      !! folderName = Some true).
  { intros Hc Hui. destruct (decide (folderName = folderOf config projectInfo file)) as [->|Hne].
    - rewrite folderDecided_entry, Hm. by rewrite Hdir.
    - by rewrite folderDecided_others. }
  destruct Hrun as [(_ & ->)|[(Hc & Hui & _ & ->)|[(Hc & Hui & _ & Hw)|[(_ & _ & _ & ->)
                   |(_ & _ & [Hw|Hw])]]]]; simpl; try done.
  - by apply Hdecided.
  - destruct Hw as (_ & _ & _ & _ & _ & _ & -> & _). by apply Hdecided.
  - destruct Hw as (_ & _ & _ & _ & _ & _ & -> & _). done.
  - destruct Hw as (_ & _ & _ & _ & _ & _ & -> & _). done.
Qed.

Lemma updateEach_entry_false (folderName : string) (files : list File.t)
    (st st' : State) :
  folderSkipped st !! folderName = Some false ->
  updateEach options config projectInfo baseColor files st = Some st' ->
  folderSkipped st' !! folderName = Some false.
Proof.
  intros Hm Hrun.
  eapply (forOf_invariant (fun s => folderSkipped s !! folderName = Some false));
    [|exact Hm|exact Hrun].
  intros s x s' Hs Hx. by eapply updateFile_entry_false.
Qed.

Lemma updateEach_entry_true (folderName : string) (files : list File.t)
    (root st st' : State) :
  (forall p, existsSync (onDisk root) p = true -> existsSync (onDisk st) p = true) ->
  folderSkipped st !! folderName = Some true ->
  Forall (fun h => uiFileIn config projectInfo folderName h ->
                   existsSync (onDisk root) (dirname (filePathOf config projectInfo h)) = true) files ->
  updateEach options config projectInfo baseColor files st = Some st' ->
  folderSkipped st' !! folderName = Some true
  /\ (forall p, existsSync (onDisk root) p = true -> existsSync (onDisk st') p = true).
Proof.
  unfold updateEach. intros Hgrow Hm Hall. revert st Hgrow Hm.
  induction Hall as [|f files Hf _ IH]; intros st Hgrow Hm; cbn [forOf].
  - by intros [= <-].
  - destruct (updateFile options config projectInfo baseColor st f) as [st1|] eqn:Hstep;
      simpl; [|done].
    apply IH.
    + intros p Hp. eapply updateFile_keeps; [exact Hstep | by apply Hgrow].
    + eapply updateFile_entry_true; [exact Hm | | exact Hstep].
      intros Hin. apply Hgrow. by apply Hf.
Qed.

End Folder.

End Conflicts.


Lemma no_files_updated_signal_witness :
  exists final,
    @updateFiles (Posix.pathe "/") (Plain.project true) Paths.disk (Plain.user [])
      (Some [emptyFile]) projConfig noOptions buttonDisk = Some final
    /\ SpinnerInfo "No files updated." ∈ log final
    /\ onDisk final = buttonDisk.
Proof.
  apply (proj1 (proj2 (@no_files_updated_signal (Posix.pathe "/") (Plain.project true)
                         Paths.disk (Plain.user []) projConfig noOptions buttonDisk))
               [emptyFile] true tt).
  - discriminate.
  - repeat constructor.
  - reflexivity.
  - reflexivity.
Defined.

(** The claim C9 as stated fails: for an empty file list nothing was
    created, updated or skipped, and the line is not logged. *)
Lemma empty_list_no_signal :
  exists final,
    @updateFiles (Posix.pathe "/") (Plain.project true) Paths.disk (Plain.user [])
      (Some []) projConfig noOptions buttonDisk = Some final
    /\ List.length (filesCreated final) + List.length (filesUpdated final) = 0
    /\ List.length (filesSkipped final) = 0
    /\ SpinnerInfo "No files updated." ∉ log final.
Proof.
  eexists. split; [vm_compute; reflexivity|]. repeat split. apply not_elem_of_nil.
Qed.

(** * Further properties of the code *)

(** ** The dependency sets *)

Lemma set_add_elem (x : string) (s : list string) : x ∈ s -> Js.set_add x s = s.
Proof. intros Hin. unfold Js.set_add. by rewrite decide_True. Qed.

Lemma set_addAll_elems (xs s : list string) :
  Forall (fun x => x ∈ s) xs -> Js.set_addAll xs s = s.
Proof.
  unfold Js.set_addAll. induction 1 as [|x xs Hx _ IH]; simpl; [done|].
  by rewrite set_add_elem.
Qed.

Lemma set_addAll_NoDup (xs s : list string) :
  NoDup s -> NoDup (Js.set_addAll xs s).
Proof.
  unfold Js.set_addAll. revert s. induction xs as [|x xs IH]; intros s Hs; simpl; [done|].
  apply IH. by apply set_add_NoDup.
Qed.

Lemma populateDeps_NoDup (source : string) (acc : FileDeps) :
  NoDupDeps acc -> NoDupDeps (populateDeps source acc).
Proof.
  intros [Hr Hd]. unfold populateDeps, NoDupDeps; simpl. split.
  - destruct (Js.startsWith source REGISTRY_DEPENDENCY); [|done].
    by apply set_add_NoDup.
  - destruct (DEPENDENCIES !! source); [|done].
    apply set_addAll_NoDup.
    destruct (DEPENDENCIES_WITH_TAGS !! source); by apply set_add_NoDup.
Qed.

Lemma populateAll_NoDup (sources : list string) (acc : FileDeps) :
  NoDupDeps acc -> NoDupDeps (populateAll sources acc).
Proof.
  unfold populateAll. revert acc.
  induction sources as [|s sources IH]; intros acc Hacc; simpl; [done|].
  apply IH. by apply populateDeps_NoDup.
Qed.

Lemma noDeps_NoDup : NoDupDeps noDeps.
Proof. split; apply NoDup_nil_2. Qed.

Lemma last_segment_unique (front front' x x' : string) :
  noSlash x -> noSlash x' ->
  front ++ String "/" x = front' ++ String "/" x' -> x = x'.
Proof.
  intros Hx Hx'. revert front'.
  induction front as [|a front IH]; intros [|a' front']; simpl; intros Heq.
  - by injection Heq.
  - injection Heq as <- ->. by destruct (Hx front' x').
  - injection Heq as -> <-. by destruct (Hx' front x).
  - injection Heq as _ Heq. by apply (IH front').
Qed.

(** The registry dependencies after [populateDeps]: those before, and
    the last segment of the specifier when it has the alias prefix. *)
Lemma populateDeps_registry (source : string) (acc : FileDeps) (x : string) :
  x ∈ registryDependencies (populateDeps source acc) <->
  x ∈ registryDependencies acc
  \/ (Js.startsWith source REGISTRY_DEPENDENCY = true
      /\ exists front, source = front ++ String "/" x /\ noSlash x).
Proof.
  destruct (Js.startsWith source REGISTRY_DEPENDENCY) eqn:Hpre.
  - destruct (split_last source) as (component & Hlast & Hno & Hsrc).
    assert (Hfront : exists front, source = front ++ String "/" component).
    { destruct Hsrc as [->|Hf]; [|done]. exfalso.
      apply startsWith_spec in Hpre as [rest ->]. by apply (Hno "@" rest). }
    unfold populateDeps; simpl. rewrite Hpre, Hlast. simpl.
    rewrite elem_of_set_add. split.
    + intros [->|Hin]; [|by left]. right. split; [done|].
      destruct Hfront as [front Hf]. by exists front.
    + intros [Hin|(_ & front & Hf & Hnx)]; [by right|]. left.
      destruct Hfront as [front' Hf']. rewrite Hf in Hf'.
      by eapply last_segment_unique.
  - unfold populateDeps; simpl. rewrite Hpre. split; [by left|].
    by intros [Hin|(Hf & _)].
Qed.

Lemma populateAll_registry (sources : list string) (acc : FileDeps) (x : string) :
  x ∈ registryDependencies (populateAll sources acc) <->
  x ∈ registryDependencies acc
  \/ exists source front,
       source ∈ sources /\ Js.startsWith source REGISTRY_DEPENDENCY = true
       /\ source = front ++ String "/" x /\ noSlash x.
Proof.
  unfold populateAll. revert acc.
  induction sources as [|s sources IH]; intros acc; simpl.
  - split; [by left | intros [Hx|(? & ? & Hin & _)]; [done | by apply elem_of_nil in Hin]].
  - rewrite IH, populateDeps_registry. split.
    + intros [[Hx|(Hpre & front & Hf & Hno)]|(s' & front & Hin & Hrest)]; [by left| |].
      * right. exists s, front. split; [apply elem_of_cons; by left | done].
      * right. exists s', front. split; [apply elem_of_cons; by right | done].
    + intros [Hx|(s' & front & Hin & Hpre & Hf & Hno)]; [by left; left|].
      apply elem_of_cons in Hin as [->|Hin].
      * left; right. split; [done|]. by exists front.
      * right. by exists s', front.
Qed.

(** A specifier that was seen before adds nothing. *)
Lemma populateDeps_again (source : string) (sources : list string) (acc : FileDeps) :
  source ∈ sources ->
  populateDeps source (populateAll sources acc) = populateAll sources acc.
Proof.
  intros Hin. set (st := populateAll sources acc).
  assert (Hdeps : forall x, x ∈ dependencies (populateDeps source st) -> x ∈ dependencies st).
  { intros x Hx. apply populateDeps_dependencies in Hx as [Hx|(peers & Hkey & Hx)]; [done|].
    apply populateAll_dependencies. right. by exists source, peers. }
  assert (Hregs : forall x, x ∈ registryDependencies (populateDeps source st)
                            -> x ∈ registryDependencies st).
  { intros x Hx. apply populateDeps_registry in Hx as [Hx|(Hpre & front & Hf & Hno)]; [done|].
    apply populateAll_registry. right. by exists source, front. }
  assert (Heq : populateDeps source st
                = {| registryDependencies := registryDependencies st;
                     dependencies := dependencies st |}); [|by destruct st].
  unfold populateDeps in *. simpl in *. f_equal.
  - destruct (Js.startsWith source REGISTRY_DEPENDENCY); [|done].
    apply set_add_elem. apply Hregs. apply elem_of_set_add. by left.
  - destruct (DEPENDENCIES !! source) as [peers|]; [|done].
    assert (Hfirst : default source (DEPENDENCIES_WITH_TAGS !! source) ∈ dependencies st).
    { apply Hdeps. apply elem_of_set_addAll. right.
      destruct (DEPENDENCIES_WITH_TAGS !! source); apply elem_of_set_add; by left. }
    assert (Hpeers : Forall (fun p => p ∈ dependencies st) peers).
    { apply Forall_forall. intros p Hp. apply Hdeps. apply elem_of_set_addAll. by left. }
    destruct (DEPENDENCIES_WITH_TAGS !! source); simpl in Hfirst;
      rewrite set_add_elem by done; by apply set_addAll_elems.
Qed.

(** X3. Importing a specifier a second time changes neither set: the
    sets, and their order, are those of the imports without the
    repetition. *)
Theorem populateAll_duplicate (before between after : list string) (source : string)
    (acc : FileDeps) :
  populateAll (before ++ source :: between ++ source :: after)%list acc
  = populateAll (before ++ source :: between ++ after)%list acc.
Proof.
  unfold populateAll.
  replace (before ++ source :: between ++ source :: after)%list
    with ((before ++ source :: between) ++ source :: after)%list
    by (by rewrite <- app_assoc).
  replace (before ++ source :: between ++ after)%list
    with ((before ++ source :: between) ++ after)%list
    by (by rewrite <- app_assoc).
  rewrite !foldl_app. cbn [foldl].
  assert (Hin : source ∈ (before ++ source :: between)%list).
  { apply elem_of_app. right. apply elem_of_cons. by left. }
  pose proof (populateDeps_again source _ acc Hin) as Hagain.
  unfold populateAll in Hagain. rewrite foldl_app in Hagain. cbn [foldl] in Hagain.
  by rewrite Hagain.
Qed.

Section FileDependencies.
Context `{Pathe} `{ReadFs} `{Compilers}.

Lemma addDeps_NoDup (deps acc : FileDeps) : NoDupDeps acc -> NoDupDeps (addDeps deps acc).
Proof. intros [Hr Hd]. split; by apply set_addAll_NoDup. Qed.

Lemma getFileDependencies_NoDup (filename sourceCode : string) (deps : FileDeps) :
  getFileDependencies filename sourceCode = Some deps -> NoDupDeps deps.
Proof.
  intros Hdeps. apply getFileDependencies_imports in Hdeps as (sources & -> & _).
  apply populateAll_NoDup, noDeps_NoDup.
Qed.

(** X1. No package and no registry name is listed twice: not in the two
    sets of a file, and not in the two lists of a ui item or of a block
    item, which merge the sets of their files. *)
Theorem dependencies_NoDup :
  (forall filename sourceCode deps,
     getFileDependencies filename sourceCode = Some deps ->
     NoDup (registryDependencies deps) /\ NoDup (dependencies deps))
  /\ (forall componentPath componentName item,
        buildUIRegistry componentPath componentName = Some item ->
        NoDup (Item.registryDependencies item) /\ NoDup (Item.dependencies item))
  /\ (forall blockPath blockName item,
        buildBlockRegistry blockPath blockName = Some item ->
        NoDup (Item.registryDependencies item) /\ NoDup (Item.dependencies item)).
Proof.
  split; [|split].
  - intros filename sourceCode deps. apply getFileDependencies_NoDup.
  - intros componentPath componentName item. unfold buildUIRegistry.
    destruct (readdir componentPath false) as [dir|]; simpl; [|done].
    destruct (forOf _ dir _) as [b|] eqn:Hloop; simpl; [|done].
    intros [= <-]. simpl.
    apply (forOf_invariant (fun b => NoDupDeps (found b)) _ _ _ _) in Hloop;
      [done| |apply noDeps_NoDup].
    intros s d s' Hs. unfold buildUIRegistry_body.
    destruct (negb (Dirent.isFile d)); [by intros [= <-]|].
    destruct (readFile _) as [source|]; simpl; [|done].
    destruct (decide (Dirent.name d = "index.ts")); [by intros [= <-]|].
    destruct (getFileDependencies _ _) as [deps|]; simpl; [|done].
    intros [= <-]. by apply addDeps_NoDup.
  - intros blockPath blockName item. unfold buildBlockRegistry.
    destruct (readdir blockPath true) as [dir|]; simpl; [|done].
    destruct (forOf _ dir _) as [b|] eqn:Hloop; simpl; [|done].
    intros [= <-]. simpl.
    apply (forOf_invariant (fun b => NoDupDeps (found b)) _ _ _ _) in Hloop;
      [done| |apply noDeps_NoDup].
    intros s d s' Hs. unfold buildBlockRegistry_body.
    destruct (negb (Dirent.isFile d)); [by intros [= <-]|].
    destruct (readFile _) as [source|]; simpl; [|done].
    destruct (getFileDependencies _ _) as [deps|]; simpl; [|done].
    intros [= <-]. by apply addDeps_NoDup.
Qed.

(** X2. The two sets of a file hold what its imports give, and nothing
    else: a package is in the dependencies exactly when it is the name
    (the override, when there is one) or a peer of an import that is a
    key of the table; a name is in the registry dependencies exactly
    when it is the last segment of an import with the alias prefix. *)
Theorem getFileDependencies_exact (filename sourceCode : string) (deps : FileDeps) :
  getFileDependencies filename sourceCode = Some deps ->
  (forall x,
     x ∈ dependencies deps
     <-> exists source peers,
           importedBy filename sourceCode source
           /\ DEPENDENCIES !! source = Some peers
           /\ (x = default source (DEPENDENCIES_WITH_TAGS !! source) \/ x ∈ peers))
  /\ (forall x,
        x ∈ registryDependencies deps
        <-> exists source front,
              importedBy filename sourceCode source
              /\ Js.startsWith source REGISTRY_DEPENDENCY = true
              /\ source = front ++ String "/" x /\ noSlash x).
Proof.
  intros Hdeps. apply getFileDependencies_imports in Hdeps as (sources & -> & Hsrc).
  split; intros x.
  - rewrite populateAll_dependencies. split.
    + intros [Hx|(s & peers & Hin & Hrest)]; [by apply elem_of_nil in Hx|].
      exists s, peers. split; [by apply Hsrc | done].
    + intros (s & peers & Himp & Hrest). right. exists s, peers.
      split; [by apply Hsrc | done].
  - rewrite populateAll_registry. split.
    + intros [Hx|(s & front & Hin & Hrest)]; [by apply elem_of_nil in Hx|].
      exists s, front. split; [by apply Hsrc | done].
    + intros (s & front & Himp & Hrest). right. exists s, front.
      split; [by apply Hsrc | done].
Qed.

(** X4. A file without imports has two empty sets; and a component file
    with neither a script nor a setup script with content is not given
    to the compiler at all, so that it has two empty sets even where
    the compiler would fail. *)
Theorem getFileDependencies_no_imports (filename sourceCode : string) :
  (forall deps,
     getFileDependencies filename sourceCode = Some deps ->
     (forall source, ~ importedBy filename sourceCode source) ->
     deps = noDeps)
  /\ (forall descriptor,
        Js.endsWith filename ".ts" = false ->
        parse sourceCode filename = Some descriptor ->
        Sfc.hasContent (Sfc.script descriptor) = false ->
        Sfc.hasContent (Sfc.scriptSetup descriptor) = false ->
        getFileDependencies filename sourceCode = Some noDeps).
Proof.
  split.
  - intros deps Hdeps Hnone.
    apply getFileDependencies_imports in Hdeps as (sources & -> & Hsrc).
    destruct sources as [|s sources]; [done|].
    destruct (Hnone s). apply Hsrc. apply elem_of_cons. by left.
  - intros descriptor Hts Hparse Hs Hss. unfold getFileDependencies.
    rewrite Hts, Hparse. simpl. by rewrite Hs, Hss.
Qed.

End FileDependencies.

Lemma dependencies_NoDup_witness :
  NoDup (registryDependencies
           (default noDeps (@getFileDependencies formCompilers "form.ts" formScript)))
  /\ NoDup (dependencies
              (default noDeps (@getFileDependencies formCompilers "form.ts" formScript))).
Proof.
  apply (proj1 (@dependencies_NoDup (Posix.pathe "/") (Tree.fs []) formCompilers)
               "form.ts" formScript).
  vm_compute. reflexivity.
Defined.

Lemma getFileDependencies_exact_witness :
  "zod" ∈ ["v-calendar@next"; "vee-validate"; "@vee-validate/zod"; "zod"]
  <-> exists source peers,
        @importedBy formCompilers "form.ts" formScript source
        /\ DEPENDENCIES !! source = Some peers
        /\ ("zod" = default source (DEPENDENCIES_WITH_TAGS !! source) \/ "zod" ∈ peers).
Proof.
  apply (proj1 (@getFileDependencies_exact formCompilers "form.ts" formScript
                  {| registryDependencies := [];
                     dependencies := ["v-calendar@next"; "vee-validate";
                                      "@vee-validate/zod"; "zod"] |}
                  ltac:(vm_compute; reflexivity)) "zod").
Defined.

Lemma getFileDependencies_no_imports_witness :
  @getFileDependencies templateCompilers "Empty.vue" templateOnly = Some noDeps.
Proof.
  apply (proj2 (@getFileDependencies_no_imports templateCompilers "Empty.vue" templateOnly)
               (Sfc.mkDescriptor None None)); reflexivity.
Defined.

(** ** The items of the crawls *)

Section Items.
Context `{Pathe} `{ReadFs} `{Compilers}.

Lemma addDeps_elem (deps acc : FileDeps) (x : string) :
  (x ∈ dependencies (addDeps deps acc)
   <-> x ∈ dependencies deps \/ x ∈ dependencies acc)
  /\ (x ∈ registryDependencies (addDeps deps acc)
      <-> x ∈ registryDependencies deps \/ x ∈ registryDependencies acc).
Proof. unfold addDeps; simpl. split; apply elem_of_set_addAll. Qed.

Lemma buildUIRegistry_found (componentPath componentName : string)
    (listing : list Dirent.t) (b b' : Building) :
  forOf (buildUIRegistry_body componentPath componentName) listing b = Some b' ->
  forall x,
    (x ∈ dependencies (found b')
     <-> x ∈ dependencies (found b)
         \/ exists d deps, d ∈ listing /\ scannedFile componentPath d deps
                           /\ x ∈ dependencies deps)
    /\ (x ∈ registryDependencies (found b')
        <-> x ∈ registryDependencies (found b)
            \/ exists d deps, d ∈ listing /\ scannedFile componentPath d deps
                              /\ x ∈ registryDependencies deps).
Proof.
  revert b. induction listing as [|d l IH]; intros b; cbn [forOf].
  - intros [= <-] x.
    split; (split; [by left | intros [Hx|(? & ? & Hin & _)];
                               [done | by apply elem_of_nil in Hin]]).
  - destruct (buildUIRegistry_body componentPath componentName b d) as [b1|] eqn:Hd;
      simpl; [|done].
    intros Hrest x. specialize (IH _ Hrest x). destruct IH as [IHd IHr].
    assert (Hlift : forall (P : FileDeps -> Prop),
      (exists d0 deps, d0 ∈ l /\ scannedFile componentPath d0 deps /\ P deps) ->
      exists d0 deps, d0 ∈ d :: l /\ scannedFile componentPath d0 deps /\ P deps).
    { intros P (d0 & deps & Hin & Hrest'). exists d0, deps.
      split; [apply elem_of_cons; by right | done]. }
    unfold buildUIRegistry_body in Hd.
    destruct (Dirent.isFile d) eqn:Hfile; simpl in Hd.
    + destruct (readFile _) as [source|] eqn:Hread; simpl in Hd; [|done].
      destruct (decide (Dirent.name d = "index.ts")) as [Hidx|Hidx].
      * injection Hd as <-. simpl in *. rewrite IHd, IHr.
        split; (split; [intros [Hx|Hx]; [by left | right; by apply Hlift]|]);
          (intros [Hx|(d0 & deps & Hin & Hsc & Hx)]; [by left|]);
          (apply elem_of_cons in Hin as [->|Hin];
           [by destruct Hsc as (_ & Hne & _) | right; by exists d0, deps]).
      * destruct (getFileDependencies _ _) as [deps|] eqn:Hdeps; simpl in Hd; [|done].
        injection Hd as <-. simpl in *. rewrite IHd, IHr.
        destruct (addDeps_elem deps (found b) x) as [Had Har]. rewrite Had, Har.
        assert (Hsc : scannedFile componentPath d deps).
        { split; [done|]. split; [done|]. by exists source. }
        split; (split;
          [intros [[Hx|Hx]|Hx];
             [right; exists d, deps; split; [apply elem_of_cons; by left | done]
             | by left | right; by apply Hlift]|]);
          (intros [Hx|(d0 & deps0 & Hin & Hsc0 & Hx)]; [by left; right|]);
          (apply elem_of_cons in Hin as [->|Hin]; [|right; by exists d0, deps0]);
          destruct Hsc0 as (_ & _ & source0 & Hread0 & Hdeps0);
          rewrite Hread in Hread0; injection Hread0 as <-;
          rewrite Hdeps in Hdeps0; injection Hdeps0 as <-; by left; left.
    + injection Hd as <-. rewrite IHd, IHr.
      split; (split; [intros [Hx|Hx]; [by left | right; by apply Hlift]|]);
        (intros [Hx|(d0 & deps & Hin & Hsc & Hx)]; [by left|]);
        (apply elem_of_cons in Hin as [->|Hin];
         [destruct Hsc as (Hf & _); congruence | right; by exists d0, deps]).
Qed.

(** X6. The dependencies of a ui item are those of the files directly
    inside the component directory, [index.ts] left out: that file is
    among the files of the item but is never parsed. *)
Theorem buildUIRegistry_dependencies (componentPath componentName : string)
    (listing : list Dirent.t) (item : Item.t) :
  readdir componentPath false = Some listing ->
  buildUIRegistry componentPath componentName = Some item ->
  forall x,
    (x ∈ Item.dependencies item
     <-> exists d deps, d ∈ listing /\ scannedFile componentPath d deps
                        /\ x ∈ dependencies deps)
    /\ (x ∈ Item.registryDependencies item
        <-> exists d deps, d ∈ listing /\ scannedFile componentPath d deps
                           /\ x ∈ registryDependencies deps).
Proof.
  intros Hdir. unfold buildUIRegistry. rewrite Hdir. simpl.
  destruct (forOf _ listing _) as [b|] eqn:Hloop; simpl; [|done].
  intros [= <-] x. simpl.
  destruct (buildUIRegistry_found _ _ _ _ _ Hloop x) as [Hd Hr].
  rewrite Hd, Hr. simpl.
  split; (split; [intros [Hx|Hx]; [by apply elem_of_nil in Hx | done] | by right]).
Qed.

Lemma buildBlockRegistry_loop (blockPath blockName : string)
    (listing : list Dirent.t) (b b' : Building) :
  forOf (buildBlockRegistry_body blockPath blockName) listing b = Some b' ->
  exists fs : list File.t,
    files b' = (files b ++ fs)%list
    /\ Forall2 (blockFileOf blockPath blockName)
               (filter (fun d => Dirent.isFile d = true) listing) fs.
Proof.
  revert b. induction listing as [|d l IH]; intros b; cbn [forOf].
  - intros [= <-]. exists []. by rewrite app_nil_r.
  - destruct (buildBlockRegistry_body blockPath blockName b d) as [b1|] eqn:Hd;
      simpl; [|done].
    intros Hrest. apply IH in Hrest as (fs & Hfiles & Hall).
    unfold buildBlockRegistry_body in Hd. rewrite filter_cons.
    destruct (Dirent.isFile d); simpl in Hd.
    + fold (blockCompPath d) in Hd.
      destruct (readFile _) as [source|] eqn:Hread; simpl in Hd; [|done].
      destruct (getFileDependencies _ _) as [deps|]; simpl in Hd; [|done].
      injection Hd as <-. simpl in Hfiles.
      rewrite decide_True by done. eexists (_ :: fs). split.
      * rewrite Hfiles. unfold Js.push. by rewrite <- app_assoc.
      * constructor; [|done]. unfold blockFileOf; simpl. rewrite Hread.
        repeat split; try done. by destruct (bool_decide _).
    + injection Hd as <-. rewrite decide_False by done. by exists fs.
Qed.

(** X7. The item of a block directory: named after it, of type block,
    with one file for each file of the recursive listing, in that
    order. A file named [page.vue] is read from the block directory,
    typed page and sent to [pages/dashboard/index.vue]; every other
    file is read from [components/] under its bare name, wherever the
    listing found it, typed component, with an empty target. *)
Theorem buildBlockRegistry_item (blockPath blockName : string)
    (listing : list Dirent.t) (item : Item.t) :
  readdir blockPath true = Some listing ->
  buildBlockRegistry blockPath blockName = Some item ->
  Item.name item = blockName
  /\ Item.type item = registry_block
  /\ Forall2 (blockFileOf blockPath blockName)
             (filter (fun d => Dirent.isFile d = true) listing) (Item.files item).
Proof.
  intros Hdir. unfold buildBlockRegistry. rewrite Hdir. simpl.
  destruct (forOf _ listing _) as [b|] eqn:Hloop; simpl; [|done].
  intros [= <-]. simpl. repeat split.
  by apply buildBlockRegistry_loop in Hloop as (fs & -> & Hall).
Qed.

Lemma crawlExample_loop (rootPath : string) (listing : list Dirent.t)
    (acc registry : Registry) :
  forOf (crawlExample_body rootPath) listing acc = Some registry ->
  exists items,
    registry = (acc ++ items)%list
    /\ Forall2 (exampleItemOf rootPath) (filter exampleEntry listing) items.
Proof.
  revert acc. induction listing as [|d l IH]; intros acc; cbn [forOf].
  - intros [= <-]. exists []. by rewrite app_nil_r.
  - destruct (crawlExample_body rootPath acc d) as [acc1|] eqn:Hd; simpl; [|done].
    intros Hrest. apply IH in Hrest as (items & -> & Hall).
    unfold crawlExample_body in Hd. rewrite filter_cons.
    destruct (decide (exampleEntry d)) as [[Hvue Hfile]|Hnot].
    + rewrite Hvue, Hfile in Hd. simpl in Hd. unfold singleFileItem in Hd.
      destruct (readFile _) as [source|] eqn:Hread; simpl in Hd; [|done].
      destruct (getFileDependencies _ _) as [deps|] eqn:Hdeps; simpl in Hd; [|done].
      injection Hd as <-. eexists (_ :: items). split.
      * unfold Js.push. by rewrite <- app_assoc.
      * constructor; [|done]. by exists source, deps.
    + assert (Hskip : negb (Js.endsWith (Dirent.name d) ".vue")
                      || negb (Dirent.isFile d) = true).
      { destruct (Js.endsWith (Dirent.name d) ".vue") eqn:Hvue,
                 (Dirent.isFile d) eqn:Hfile; try done.
        by destruct Hnot. }
      rewrite Hskip in Hd. injection Hd as <-. by exists items.
Qed.

(** X8. The example crawl makes one item for each file of the example
    root whose name ends in [.vue], in the order of the listing, and
    none for the other entries (directories, also when named like
    that, and other files): the item is named by the text before the
    first [.vue] of the file name and has that file as its only file,
    with an empty target. *)
Theorem crawlExample_items (rootPath : string) (listing : list Dirent.t)
    (registry : Registry) :
  readdir rootPath false = Some listing ->
  crawlExample rootPath = Some registry ->
  Forall2 (exampleItemOf rootPath) (filter exampleEntry listing) registry.
Proof.
  intros Hdir. unfold crawlExample. rewrite Hdir. simpl.
  intros Hloop. by apply crawlExample_loop in Hloop as (items & -> & Hall).
Qed.

(** A body that fails on an entry makes the loop fail. *)
Lemma forOf_fails {A S : Type} (body : S -> A -> option S) (l : list A) (x : A) (s : S) :
  x ∈ l -> (forall s, body s x = None) -> forOf body l s = None.
Proof.
  intros Hin Hx. revert s. induction l as [|y l IH]; intros s; cbn [forOf].
  - by apply elem_of_nil in Hin.
  - apply elem_of_cons in Hin as [<-|Hin]; [by rewrite Hx|].
    destruct (body s y); simpl; [by apply IH | done].
Qed.

(** X11. A failure is not caught: when a file of the example root that
    ends in [.vue] cannot be read or parsed, the example crawl fails
    as a whole, whatever the other entries are; and when a component
    directory of the ui listing cannot be built, the ui crawl fails. *)
Theorem crawl_failure_is_fatal (rootPath : string) (listing : list Dirent.t)
    (d : Dirent.t) :
  d ∈ listing ->
  (readdir rootPath false = Some listing ->
   exampleEntry d ->
   (forall source,
      readFile (join [rootPath; Dirent.name d]) = Some source ->
      getFileDependencies (join [rootPath; Dirent.name d]) source = None) ->
   crawlExample rootPath = None)
  /\ (readdir rootPath true = Some listing ->
      Dirent.isDirectory d = true ->
      buildUIRegistry (resolve [rootPath; Dirent.name d]) (Dirent.name d) = None ->
      crawlUI rootPath = None).
Proof.
  intros Hin. split.
  - intros Hdir [Hvue Hfile] Hfail. unfold crawlExample. rewrite Hdir. simpl.
    apply (forOf_fails _ _ d); [done|]. intros s.
    unfold crawlExample_body, singleFileItem. rewrite Hvue, Hfile. simpl.
    destruct (readFile _) as [source|] eqn:Hread; simpl; [|done].
    by rewrite (Hfail source).
  - intros Hdir Hisdir Hfail. unfold crawlUI. rewrite Hdir. simpl.
    apply (forOf_fails _ _ d); [done|]. intros s.
    unfold crawlUI_body. rewrite Hisdir. simpl. by rewrite Hfail.
Qed.

(** The loop over the styles appends to what it has. *)
Lemma forOf_append {A B : Type} (f : A -> option (list B)) (l : list A) (acc : list B) :
  forOf (fun acc x => r ← f x; Some (acc ++ r)%list) l acc
  = (fun rest => (acc ++ rest)%list)
      <$> forOf (fun acc x => r ← f x; Some (acc ++ r)%list) l [].
Proof.
  revert acc. induction l as [|x l IH]; intros acc; cbn [forOf].
  - simpl. by rewrite app_nil_r.
  - destruct (f x) as [r|]; simpl; [|done].
    rewrite (IH (acc ++ r)%list), (IH r).
    destruct (forOf _ l []) as [rest|]; simpl; [|done].
    by rewrite app_assoc.
Qed.

Lemma forOf_ext {A S : Type} (body body' : S -> A -> option S) (l : list A) (s : S) :
  (forall s x, body s x = body' s x) -> forOf body l s = forOf body' l s.
Proof.
  intros Hext. revert s. induction l as [|x l IH]; intros s; cbn [forOf]; [done|].
  rewrite Hext. destruct (body' s x); simpl; [apply IH | done].
Qed.

Lemma buildRegistry_styles (styles : list string) :
  buildRegistry styles
  = forOf (fun acc style => r ← crawlStyle style; Some (acc ++ r)%list) styles [].
Proof.
  unfold buildRegistry. apply forOf_ext. intros acc style. unfold crawlStyle.
  destruct (crawlUI _) as [ui|]; simpl; [|done].
  destruct (crawlExample _) as [example|]; simpl; [|done].
  destruct (crawlBlock _) as [block|]; simpl; [|done].
  by rewrite !app_assoc.
Qed.

(** X12. The registry is built style by style: it is the items of the
    first style, its ui items, then its examples, then its blocks,
    followed by the registry of the other styles; it fails when a crawl
    of a style fails; and without styles it is empty. *)
Theorem buildRegistry_by_style (style : string) (styles : list string) :
  buildRegistry [] = Some []
  /\ buildRegistry (style :: styles)
     = (first ← crawlStyle style;
        others ← buildRegistry styles;
        Some (first ++ others)%list)
  /\ (crawlStyle style = None -> buildRegistry (style :: styles) = None).
Proof.
  split; [done|].
  assert (Hcons : buildRegistry (style :: styles)
     = (first ← crawlStyle style;
        others ← buildRegistry styles;
        Some (first ++ others)%list)).
  { rewrite !buildRegistry_styles. cbn [forOf].
    destruct (crawlStyle style) as [first|]; simpl; [|done].
    rewrite forOf_append. by destruct (forOf _ styles []). }
  split; [exact Hcons|]. intros Hnone. by rewrite Hcons, Hnone.
Qed.

End Items.

Lemma buildUIRegistry_item_witness :
  let item := default noItem
    (@buildUIRegistry (Posix.pathe "/repo") (Tree.fs (styleTree goodExamples)) styleCompilers
       (styleRoot ++ "/ui/button") "button") in
  Item.name item = "button"
  /\ Item.type item = registry_ui
  /\ Forall2 (@uiFileOf (Posix.pathe "/repo") (Tree.fs (styleTree goodExamples))
                (styleRoot ++ "/ui/button") "button")
             (filter (fun d => Dirent.isFile d = true)
                     [Dirent.mk "Button.vue" Dirent.file; Dirent.mk "index.ts" Dirent.file])
             (Item.files item).
Proof.
  intros item.
  apply (@buildUIRegistry_item (Posix.pathe "/repo") (Tree.fs (styleTree goodExamples))
           styleCompilers (styleRoot ++ "/ui/button") "button");
    vm_compute; reflexivity.
Defined.

Lemma buildUIRegistry_dependencies_witness :
  let item := default noItem
    (@buildUIRegistry (Posix.pathe "/repo") (Tree.fs (styleTree goodExamples)) styleCompilers
       (styleRoot ++ "/ui/button") "button") in
  Item.dependencies item = ["@vueuse/core"]
  /\ Item.registryDependencies item = ["utils"]
  /\ forall x,
       (x ∈ Item.dependencies item
        <-> exists d deps,
              d ∈ [Dirent.mk "Button.vue" Dirent.file; Dirent.mk "index.ts" Dirent.file]
              /\ @scannedFile (Posix.pathe "/repo") (Tree.fs (styleTree goodExamples))
                   styleCompilers (styleRoot ++ "/ui/button") d deps
              /\ x ∈ dependencies deps)
       /\ (x ∈ Item.registryDependencies item
           <-> exists d deps,
                 d ∈ [Dirent.mk "Button.vue" Dirent.file; Dirent.mk "index.ts" Dirent.file]
                 /\ @scannedFile (Posix.pathe "/repo") (Tree.fs (styleTree goodExamples))
                      styleCompilers (styleRoot ++ "/ui/button") d deps
                 /\ x ∈ registryDependencies deps).
Proof.
  intros item. split; [vm_compute; reflexivity|]. split; [vm_compute; reflexivity|].
  apply (@buildUIRegistry_dependencies (Posix.pathe "/repo")
           (Tree.fs (styleTree goodExamples)) styleCompilers
           (styleRoot ++ "/ui/button") "button");
    vm_compute; reflexivity.
Defined.

Lemma buildBlockRegistry_item_witness :
  let item := default noItem
    (@buildBlockRegistry (Posix.pathe "/repo") (Tree.fs (styleTree goodExamples))
       styleCompilers (styleRoot ++ "/block/Dashboard") "Dashboard") in
  Item.name item = "Dashboard"
  /\ Item.type item = registry_block
  /\ Forall2 (@blockFileOf (Posix.pathe "/repo") (Tree.fs (styleTree goodExamples))
                (styleRoot ++ "/block/Dashboard") "Dashboard")
             (filter (fun d => Dirent.isFile d = true)
                     [Dirent.mk "page.vue" Dirent.file;
                      Dirent.mk "components" Dirent.directory;
                      Dirent.mk "Chart.vue" Dirent.file])
             (Item.files item).
Proof.
  intros item.
  apply (@buildBlockRegistry_item (Posix.pathe "/repo") (Tree.fs (styleTree goodExamples))
           styleCompilers (styleRoot ++ "/block/Dashboard") "Dashboard");
    vm_compute; reflexivity.
Defined.

Lemma crawlExample_items_witness :
  Forall2 (@exampleItemOf (Posix.pathe "/repo") (Tree.fs (styleTree goodExamples))
             styleCompilers (styleRoot ++ "/example"))
          (filter exampleEntry
                  [Dirent.mk "ButtonDemo.vue" Dirent.file;
                   Dirent.mk "notes.md" Dirent.file;
                   Dirent.mk "Old.vue" Dirent.directory])
          (default []
             (@crawlExample (Posix.pathe "/repo") (Tree.fs (styleTree goodExamples))
                styleCompilers (styleRoot ++ "/example"))).
Proof.
  apply (@crawlExample_items (Posix.pathe "/repo") (Tree.fs (styleTree goodExamples))
           styleCompilers (styleRoot ++ "/example"));
    vm_compute; reflexivity.
Defined.

Lemma crawlUI_items_witness :
  Forall2 (fun d item =>
             @buildUIRegistry (Posix.pathe "/repo") (Tree.fs nestedTree) pageCompilers
               (@resolve (Posix.pathe "/repo") ["/ui"; Dirent.name d]) (Dirent.name d)
             = Some item)
          (filter (fun d => Dirent.isDirectory d = true)
                  [Dirent.mk "a" Dirent.directory; Dirent.mk "b" Dirent.directory;
                   Dirent.mk "index.ts" Dirent.file; Dirent.mk "b" Dirent.directory])
          (default []
             (@crawlUI (Posix.pathe "/repo") (Tree.fs nestedTree) pageCompilers "/ui")).
Proof.
  apply (@crawlUI_items (Posix.pathe "/repo") (Tree.fs nestedTree) pageCompilers "/ui");
    vm_compute; reflexivity.
Defined.

Lemma crawl_failure_is_fatal_witness :
  @crawlExample (Posix.pathe "/repo") (Tree.fs (styleTree brokenExamples)) styleCompilers
    (styleRoot ++ "/example") = None
  /\ @crawlUI (Posix.pathe "/repo") (Tree.fs iconsTree) styleCompilers "/ui" = None.
Proof.
  split.
  - apply (proj1 (@crawl_failure_is_fatal (Posix.pathe "/repo")
                    (Tree.fs (styleTree brokenExamples)) styleCompilers
                    (styleRoot ++ "/example")
                    [Dirent.mk "ButtonDemo.vue" Dirent.file;
                     Dirent.mk "Legacy.vue" Dirent.file]
                    (Dirent.mk "Legacy.vue" Dirent.file)
                    ltac:(apply elem_of_cons; right; apply elem_of_cons; by left))).
    + vm_compute. reflexivity.
    + split; vm_compute; reflexivity.
    + intros source Hread. vm_compute in Hread. injection Hread as <-.
      vm_compute. reflexivity.
  - apply (proj2 (@crawl_failure_is_fatal (Posix.pathe "/repo")
                    (Tree.fs iconsTree) styleCompilers "/ui"
                    [Dirent.mk "button" Dirent.directory;
                     Dirent.mk "index.ts" Dirent.file;
                     Dirent.mk "icons" Dirent.directory]
                    (Dirent.mk "icons" Dirent.directory)
                    ltac:(do 2 (apply elem_of_cons; right); apply elem_of_cons; by left))).
    + vm_compute. reflexivity.
    + reflexivity.
    + vm_compute. reflexivity.
Defined.

Lemma buildRegistry_by_style_witness :
  @buildRegistry (Posix.pathe "/repo") (Tree.fs (styleTree brokenExamples))
    styleCompilers ["default"] = None.
Proof.
  apply (proj2 (proj2 (@buildRegistry_by_style (Posix.pathe "/repo")
                         (Tree.fs (styleTree brokenExamples)) styleCompilers
                         "default" []))).
  vm_compute. reflexivity.
Defined.

Section Blocks.
Context `{Pathe} `{ReadFs} `{Compilers}.

Lemma crawlBlock_loop (rootPath : string) (listing : list Dirent.t)
    (acc registry : Registry) :
  forOf (crawlBlock_body rootPath) listing acc = Some registry ->
  exists parts,
    registry = (acc ++ List.concat parts)%list
    /\ Forall2 (blockEntryOf rootPath) listing parts.
Proof.
  revert acc. induction listing as [|d l IH]; intros acc; cbn [forOf].
  - intros [= <-]. exists []. split; [by rewrite app_nil_r | constructor].
  - destruct (crawlBlock_body rootPath acc d) as [acc1|] eqn:Hd; simpl; [|done].
    intros Hrest. apply IH in Hrest as (parts & -> & Hall).
    assert (Hpart : exists part, acc1 = (acc ++ part)%list /\ blockEntryOf rootPath d part).
    { unfold crawlBlock_body in Hd. unfold blockEntryOf.
      destruct (Dirent.isFile d); simpl in Hd.
      - destruct (Js.endsWith (Dirent.name d) ".vue"); simpl in Hd.
        + unfold singleFileItem in Hd.
          destruct (readFile _) as [source|] eqn:Hread; simpl in Hd; [|done].
          destruct (getFileDependencies _ _) as [deps|] eqn:Hdeps; simpl in Hd; [|done].
          injection Hd as <-. eexists. split; [reflexivity|]. by exists source, deps.
        + injection Hd as <-. exists []. by rewrite app_nil_r.
      - destruct (buildBlockRegistry _ _) as [result|]; simpl in Hd; [|done].
        destruct (Item.files result) as [|f fs] eqn:Hfiles; simpl in Hd;
          injection Hd as <-.
        + exists []. rewrite app_nil_r. split; [done|]. exists result.
          by rewrite Hfiles.
        + exists [result]. split; [done|]. exists result. by rewrite Hfiles. }
    destruct Hpart as (part & -> & Hpart). exists (part :: parts). split.
    + simpl. by rewrite <- app_assoc.
    + by constructor.
Qed.

(** X9. The block crawl goes through the entries of the block root in
    the order of the listing. A file whose name ends in [.vue] becomes
    a block of its own, named by the text before the first [.vue],
    with that file as its only file and [pages/dashboard/index.vue] as
    target; another file is passed over; anything that is not a file
    is built as a block directory, and the block is kept unless it has
    no files. *)
Theorem crawlBlock_entries (rootPath : string) (listing : list Dirent.t)
    (registry : Registry) :
  readdir rootPath false = Some listing ->
  crawlBlock rootPath = Some registry ->
  exists parts,
    registry = List.concat parts
    /\ Forall2 (blockEntryOf rootPath) listing parts.
Proof.
  intros Hdir. unfold crawlBlock. rewrite Hdir. simpl.
  intros Hloop. apply crawlBlock_loop in Hloop as (parts & -> & Hall).
  by exists parts.
Qed.

End Blocks.

Lemma crawlBlock_entries_witness :
  exists parts,
    default []
      (@crawlBlock (Posix.pathe "/repo") (Tree.fs mixedBlockTree) pageCompilers blockRoot)
    = List.concat parts
    /\ Forall2 (@blockEntryOf (Posix.pathe "/repo") (Tree.fs mixedBlockTree) pageCompilers
                 blockRoot)
               [Dirent.mk "Placeholder" Dirent.directory;
                Dirent.mk "Dashboard" Dirent.directory;
                Dirent.mk "Login.vue" Dirent.file;
                Dirent.mk "README.md" Dirent.file]
               parts.
Proof.
  apply (@crawlBlock_entries (Posix.pathe "/repo") (Tree.fs mixedBlockTree) pageCompilers
           blockRoot);
    vm_compute; reflexivity.
Defined.

(** ** The extension of a script in a project without TypeScript *)

Lemma append_length (a b : string) :
  String.length (a ++ b) = String.length a + String.length b.
Proof. induction a as [|c a IH]; simpl; [done | by rewrite IH]. Qed.

Lemma replaceTsExtension_unfold (filePath : string) :
  replaceTsExtension filePath
  = if String.eqb filePath ".ts" || String.eqb filePath ".t" then ".js"
    else match filePath with
         | EmptyString => EmptyString
         | String c rest => String c (replaceTsExtension rest)
         end.
Proof. by destruct filePath. Qed.

Lemma replaceTsExtension_suffix (front suffix : string) :
  suffix = ".ts" \/ suffix = ".t" ->
  replaceTsExtension (front ++ suffix) = front ++ ".js".
Proof.
  intros Hsuffix. induction front as [|c front IH].
  - rewrite replaceTsExtension_unfold. by destruct Hsuffix as [-> | ->].
  - rewrite replaceTsExtension_unfold.
    change (String c front ++ suffix) with (String c (front ++ suffix)).
    destruct (String.eqb_spec (String c (front ++ suffix)) ".ts") as [Heq|_].
    { exfalso. injection Heq as _ Heq.
      pose proof (f_equal String.length Heq) as Hlen.
      rewrite append_length in Hlen.
      destruct Hsuffix as [-> | ->]; simpl in Hlen; [lia|].
      destruct front; [discriminate Heq | simpl in Hlen; lia]. }
    destruct (String.eqb_spec (String c (front ++ suffix)) ".t") as [Heq|_].
    { exfalso. injection Heq as _ Heq. apply (f_equal String.length) in Heq.
      rewrite append_length in Heq. destruct Hsuffix as [-> | ->]; simpl in Heq; lia. }
    cbn [orb]. by rewrite IH.
Qed.

Lemma endsWith_suffix (s suffix : string) :
  Js.endsWith s suffix = true <-> exists front, s = front ++ suffix.
Proof.
  induction s as [|c s IH]; cbn [Js.endsWith].
  - rewrite orb_false_r. split.
    + intros Heq%String.eqb_eq. by exists "".
    + intros [front Heq]. apply String.eqb_eq.
      destruct front; [done | discriminate Heq].
  - rewrite orb_true_iff, IH. split.
    + intros [Heq%String.eqb_eq | [front ->]]; [by exists "" | by exists (String c front)].
    + intros [[|c' front] Heq].
      * left. by apply String.eqb_eq.
      * right. exists front. by injection Heq.
Qed.

(** X13. In a project without TypeScript the destination loses a final
    [.ts]: a path that ends in [.ts] ends in [.js] instead, and so
    does one that ends in [.t]; any other path, [.vue] and [.tsx]
    among them, is left as it is. *)
Theorem replaceTsExtension_final (filePath : string) :
  (forall front, filePath = front ++ ".ts" \/ filePath = front ++ ".t" ->
     replaceTsExtension filePath = front ++ ".js")
  /\ (Js.endsWith filePath ".ts" = false -> Js.endsWith filePath ".t" = false ->
      replaceTsExtension filePath = filePath).
Proof.
  split.
  - intros front [-> | ->]; apply replaceTsExtension_suffix; auto.
  - induction filePath as [|c rest IH]; [done|].
    cbn [Js.endsWith]. intros [Hts Hrest]%orb_false_iff [Ht Hrest']%orb_false_iff.
    rewrite replaceTsExtension_unfold, Hts, Ht. cbn [orb]. by rewrite IH.
Qed.

Lemma replaceTsExtension_final_witness :
  replaceTsExtension "/proj/composables/use-toast.ts" = "/proj/composables/use-toast" ++ ".js"
  /\ replaceTsExtension "/proj/notes.t" = "/proj/notes" ++ ".js"
  /\ replaceTsExtension "/proj/components/Page.tsx" = "/proj/components/Page.tsx".
Proof.
  split; [|split].
  - apply (proj1 (replaceTsExtension_final "/proj/composables/use-toast.ts")).
    left. reflexivity.
  - apply (proj1 (replaceTsExtension_final "/proj/notes.t")). right. reflexivity.
  - apply (proj2 (replaceTsExtension_final "/proj/components/Page.tsx")); reflexivity.
Defined.

(** ** The accounts of an install *)

Section Accounts.
Context `{Pathe} `{Project} `{Disk} `{User}.

Lemma writtenPaths_app (l1 l2 : list Event) :
  writtenPaths (l1 ++ l2) = (writtenPaths l1 ++ writtenPaths l2)%list.
Proof. apply omap_app. Qed.

(** A run of [updateFiles] on a list that is not empty: the loop, then
    the report. *)
Lemma updateFiles_run (files : list File.t) (config : Config) (options : Options)
    (d : disk) (final : State) :
  files <> [] ->
  updateFiles (Some files) config options d = Some final ->
  exists projectInfo baseColor st,
    getProjectInfo (resolvedPaths_cwd config) = Some projectInfo
    /\ getRegistryBaseColor (tailwind_baseColor config) = Some baseColor
    /\ updateEach (withDefaults options) config projectInfo baseColor files
                  (emit SpinnerStart (start d)) = Some st
    /\ final = report (withDefaults options) st.
Proof.
  intros Hne Hrun. unfold updateFiles in Hrun. destruct files as [|f files]; [done|].
  destruct (getProjectInfo _) as [projectInfo|]; simpl in Hrun; [|done].
  destruct (getRegistryBaseColor _) as [baseColor|]; simpl in Hrun; [|done].
  destruct (updateEach _ _ _ _ _ _) as [st|] eqn:Hloop; simpl in Hrun; [|done].
  injection Hrun as <-. by exists projectInfo, baseColor, st.
Qed.

(** The report changes the log only. *)
Lemma report_rest (options : Options) (st : State) :
  onDisk (report options st) = onDisk st
  /\ filesCreated (report options st) = filesCreated st
  /\ filesUpdated (report options st) = filesUpdated st
  /\ filesSkipped (report options st) = filesSkipped st
  /\ folderSkipped (report options st) = folderSkipped st
  /\ exists es, log (report options st) = (log st ++ es)%list
                /\ Forall (fun e => isAsked e = false) es
                /\ writtenPaths es = [].
Proof.
  destruct (report_extend options st) as (es & -> & Hes). repeat split.
  eexists. split; [reflexivity|].
  assert (Hother : Forall (fun e => isAsked e = false) es /\ writtenPaths es = []).
  { induction Hes as [|e es He _ [IH1 IH2]]; [done|].
    destruct e; simpl in He; try done; by split; [constructor|]. }
  destruct Hother as [Hother1 Hother2]. split.
  - apply Forall_app. split; [|done].
    destruct (nothingDone st); by repeat constructor.
  - rewrite writtenPaths_app, Hother2. by destruct (nothingDone st).
Qed.

Section Loop.
Variables (options : Options) (config : Config) (projectInfo : ProjectInfo)
          (baseColor : BaseColor).

(** What one turn of the loop does to the three lists and to the log:
    nothing for a file without content; otherwise the path goes to
    exactly one list, and there was a write exactly when it is not the
    list of the skipped. *)
Lemma updateFile_lists (st st' : State) (file : File.t) :
  updateFile options config projectInfo baseColor st file = Some st' ->
  (hasContent file = false /\ st' = st)
  \/ (hasContent file = true
      /\ exists es, logged st st' es
           /\ Forall (fun e => loopEvent e = true) es
           /\ List.length (List.filter isAsked es) <= 1
           /\ ((filesCreated st' = filesCreated st
                /\ filesUpdated st' = filesUpdated st
                /\ filesSkipped st'
                   = Js.push (filesSkipped st) (relOf config projectInfo file)
                /\ writtenPaths es = []
                /\ onDisk st' = onDisk st)
               \/ (filesSkipped st' = filesSkipped st
                   /\ writtenPaths es = [filePathOf config projectInfo file]
                   /\ is_Some (transform (File.path file)
                                 (default "" (File.content file)) config baseColor)
                   /\ if existsSync (onDisk st) (filePathOf config projectInfo file)
                      then filesCreated st' = filesCreated st
                           /\ filesUpdated st'
                              = Js.push (filesUpdated st) (relOf config projectInfo file)
                      else filesCreated st'
                           = Js.push (filesCreated st) (relOf config projectInfo file)
                           /\ filesUpdated st' = filesUpdated st))).
Proof.
  intros Hrun. apply updateFile_cases in Hrun. cbv zeta in Hrun.
  fold (filePathOf config projectInfo file) (targetDirOf config projectInfo file) in Hrun.
  fold (relOf config projectInfo file) in Hrun.
  set (folderName := basename (dirname (filePathOf config projectInfo file))) in *.
  set (existingFolder := existsSync (onDisk st) (dirname (filePathOf config projectInfo file))) in *.
  pose proof (folderDecided_logged folderName existingFolder st) as Hdlog.
  pose proof (folderDecided_rest folderName existingFolder st) as (Hdd & Hdc & Hdu & Hds).
  assert (Hfe : Forall (fun e => loopEvent e = true) (folderEvents folderName existingFolder st)
                /\ List.length (List.filter isAsked (folderEvents folderName existingFolder st)) <= 1
                /\ writtenPaths (folderEvents folderName existingFolder st) = []).
  { unfold folderEvents. destruct (existingFolder && _); simpl; repeat constructor. }
  destruct Hfe as (Hfe1 & Hfe2 & Hfe3).
  assert (Hwritten : forall a es0,
    logged st a es0 -> Forall (fun e => loopEvent e = true) es0 ->
    List.length (List.filter isAsked es0) <= 1 -> writtenPaths es0 = [] ->
    onDisk a = onDisk st -> filesCreated a = filesCreated st ->
    filesUpdated a = filesUpdated st -> filesSkipped a = filesSkipped st ->
    Written config baseColor file (filePathOf config projectInfo file)
            (targetDirOf config projectInfo file)
            (existsSync (onDisk st) (filePathOf config projectInfo file)) a st' ->
    exists es, logged st st' es
      /\ Forall (fun e => loopEvent e = true) es
      /\ List.length (List.filter isAsked es) <= 1
      /\ ((filesCreated st' = filesCreated st
           /\ filesUpdated st' = filesUpdated st
           /\ filesSkipped st'
              = Js.push (filesSkipped st) (relOf config projectInfo file)
           /\ writtenPaths es = []
           /\ onDisk st' = onDisk st)
          \/ (filesSkipped st' = filesSkipped st
              /\ writtenPaths es = [filePathOf config projectInfo file]
              /\ is_Some (transform (File.path file)
                            (default "" (File.content file)) config baseColor)
              /\ if existsSync (onDisk st) (filePathOf config projectInfo file)
                 then filesCreated st' = filesCreated st
                      /\ filesUpdated st'
                         = Js.push (filesUpdated st) (relOf config projectInfo file)
                 else filesCreated st'
                      = Js.push (filesCreated st) (relOf config projectInfo file)
                      /\ filesUpdated st' = filesUpdated st))).
  { intros a es0 Hlog Hloop Hasked Hnone Hd Hc Hu Hs
           (d1 & content & _ & Htr & _ & Hlog' & _ & Hc' & Hu' & Hs').
    eexists. split; [|split; [|split]].
    - unfold logged in *. rewrite Hlog', Hlog, <- app_assoc. reflexivity.
    - apply Forall_app. split; [done|].
      destruct (existsSync (onDisk a) _); by repeat constructor.
    - rewrite List.filter_app, length_app.
      destruct (existsSync (onDisk a) _); simpl; lia.
    - right. split; [by rewrite Hs', Hs|]. split.
      + rewrite writtenPaths_app, Hnone.
        by destruct (existsSync (onDisk a) _).
      + split; [by rewrite Htr|].
        revert Hc' Hu'.
        destruct (existsSync (onDisk st) (filePathOf config projectInfo file));
          intros -> ->; by rewrite Hc, Hu. }
  unfold hasContent.
  destruct Hrun as [(Hc & ->)|[(Hc & _ & _ & ->)|[(Hc & _ & _ & Hw)|[(Hc & _ & _ & ->)
                   |(Hc & _ & [Hw|Hw])]]]].
  - by left.
  - right. split; [done|]. eexists. split; [exact Hdlog|].
    split; [done|]. split; [done|]. left. simpl. by rewrite Hdc, Hdu, Hds.
  - right. split; [done|]. by refine (Hwritten _ _ Hdlog _ _ _ _ _ _ _ Hw).
  - right. split; [done|]. exists [SpinnerStop; Asked (FileExists (basename (File.path file)))
        (confirm (log (emit SpinnerStop st)) (FileExists (basename (File.path file))))].
    split; [|split; [by repeat constructor|split; [simpl; lia|by left]]].
    unfold logged, emit, Js.push. simpl. by rewrite <- app_assoc.
  - right. split; [done|]. refine (Hwritten st [] _ _ _ _ _ _ _ _ Hw); try done.
    + apply logged_refl.
    + simpl; lia.
  - right. split; [done|].
    refine (Hwritten _ [SpinnerStop; Asked (FileExists (basename (File.path file)))
        (confirm (log (emit SpinnerStop st)) (FileExists (basename (File.path file))));
        SpinnerStart] _ _ _ _ _ _ _ _ Hw); try done.
    + unfold logged, emit, Js.push. simpl. by rewrite <- ?app_assoc.
    + by repeat constructor.
Qed.

End Loop.

Section Counting.
Variables (options : Options) (config : Config) (projectInfo : ProjectInfo)
          (baseColor : BaseColor).

Lemma updateFile_Balanced (done : list File.t) (st st' : State) (file : File.t) :
  Balanced config projectInfo done st ->
  updateFile options config projectInfo baseColor st file = Some st' ->
  Balanced config projectInfo (done ++ [file]) st'.
Proof.
  intros (Hlists & Hwrites & Hasked) Hrun. unfold Balanced.
  rewrite filter_app, fmap_app, length_app.
  apply updateFile_lists in Hrun
    as [(Hc & ->)|(Hc & es & Hlog & _ & Hq & Hcase)].
  - rewrite filter_cons_False, filter_nil by (by rewrite Hc). simpl.
    rewrite app_nil_r. split; [done|]. split; [done|lia].
  - rewrite filter_cons_True, filter_nil by done. unfold logged in Hlog.
    rewrite Hlog, writtenPaths_app, fmap_app, List.filter_app, length_app.
    cbn [fmap list_fmap List.length].
    split; [|split; [|lia]].
    + rewrite <- Hlists. unfold Js.push in Hcase.
      destruct Hcase as [(-> & -> & -> & _)|(-> & _ & _ & Hex)].
      * by rewrite !app_assoc.
      * destruct (existsSync _ _); destruct Hex as [-> ->].
        -- rewrite <- !app_assoc. do 2 apply Permutation_app_head.
           apply Permutation_app_comm.
        -- rewrite <- !app_assoc. apply Permutation_app_head.
           etrans; [apply Permutation_app_comm|]. by rewrite <- app_assoc.
    + unfold Js.push in Hcase.
      destruct Hcase as [(-> & -> & _ & -> & _)|(_ & -> & _ & Hex)].
      * by rewrite app_nil_r.
      * cbn [fmap list_fmap]. fold (relOf config projectInfo file). rewrite Hwrites.
        destruct (existsSync _ _); destruct Hex as [-> ->].
        -- by rewrite !app_assoc.
        -- rewrite <- !app_assoc. apply Permutation_app_head, Permutation_app_comm.
Qed.

Lemma updateEach_Balanced (files done : list File.t) (st st' : State) :
  Balanced config projectInfo done st ->
  updateEach options config projectInfo baseColor files st = Some st' ->
  Balanced config projectInfo (done ++ files) st'.
Proof.
  unfold updateEach. revert done st.
  induction files as [|f files IH]; intros done st Hst; cbn [forOf].
  - intros [= <-]. by rewrite app_nil_r.
  - destruct (updateFile _ _ _ _ st f) as [st1|] eqn:Hf; simpl; [|done].
    intros Hrest. replace (done ++ f :: files)%list with ((done ++ [f]) ++ files)%list
      by (by rewrite <- app_assoc).
    eapply IH; [|exact Hrest]. by eapply updateFile_Balanced.
Qed.

End Counting.

(** X14. The accounts of an install balance. Every file with content
    is reported once, as created, as updated or as skipped, under its
    destination relative to the project root, and a file without
    content is not reported; the files written are the ones reported
    as created or updated; and the user is asked at most one question
    for each file with content. *)
Theorem updateFiles_accounts (files : list File.t) (config : Config) (options : Options)
    (d : disk) (final : State) (projectInfo : ProjectInfo) :
  updateFiles (Some files) config options d = Some final ->
  getProjectInfo (resolvedPaths_cwd config) = Some projectInfo ->
  (filesCreated final ++ filesUpdated final ++ filesSkipped final)%list
    ≡ₚ (relOf config projectInfo <$> filter (fun f => hasContent f = true) files)
  /\ (relative (resolvedPaths_cwd config) <$> writtenPaths (log final))
      ≡ₚ (filesCreated final ++ filesUpdated final)%list
  /\ List.length (List.filter isAsked (log final))
      <= List.length (filter (fun f => hasContent f = true) files).
Proof.
  intros Hrun Hinfo. destruct files as [|f files].
  { injection Hrun as <-. simpl. split; [done|]. split; [done|lia]. }
  apply updateFiles_run in Hrun as (pi & bc & st & Hpi & _ & Hloop & ->); [|done].
  rewrite Hinfo in Hpi. injection Hpi as <-.
  apply (updateEach_Balanced _ _ _ _ _ []) in Hloop.
  2:{ unfold Balanced. simpl. split; [done|]. split; [done|lia]. }
  destruct Hloop as (Hlists & Hwrites & Hasked). simpl in Hlists, Hasked.
  destruct (report_rest (withDefaults options) st)
    as (_ & -> & -> & -> & _ & es & -> & Hes & Hnone).
  rewrite writtenPaths_app, Hnone, app_nil_r, List.filter_app, length_app.
  split; [done|]. split; [done|].
  assert (Hzero : List.length (List.filter isAsked es) = 0).
  { clear -Hes. induction Hes as [|e es He _ IH]; [done|]. simpl. by rewrite He. }
  simpl. lia.
Qed.

(** *** What is skipped was declined *)

Lemma Declined_grow (l es : list Event) (q : Question) :
  Declined l q -> Declined (l ++ es) q.
Proof.
  intros (l1 & l2 & -> & Hno). exists l1, (l2 ++ es)%list.
  split; [|done]. by rewrite <- app_assoc.
Qed.

Lemma forOf_invariant_in {A S : Type} (P : S -> Prop) (body : S -> A -> option S)
    (l : list A) (s s' : S) :
  (forall s x s', x ∈ l -> P s -> body s x = Some s' -> P s') ->
  P s -> forOf body l s = Some s' -> P s'.
Proof.
  revert s. induction l as [|x l IH]; intros s Hbody Hs; simpl.
  - by intros [= <-].
  - destruct (body s x) as [s1|] eqn:Hx; simpl; [|done].
    apply IH.
    + intros s0 y s0' Hy. apply Hbody. by right.
    + eapply Hbody; [by left | exact Hs | exact Hx].
Qed.

Section Declining.
Variables (options : Options) (config : Config) (projectInfo : ProjectInfo)
          (baseColor : BaseColor) (files : list File.t).

Lemma SkipsDeclined_grow (st st' : State) (es : list Event) :
  SkipsDeclined config projectInfo files st ->
  logged st st' es -> folderSkipped st' = folderSkipped st ->
  filesSkipped st' = filesSkipped st ->
  SkipsDeclined config projectInfo files st'.
Proof.
  unfold logged. intros [Hfolders Hpaths] Hlog Hmap Hskipped. split.
  - intros folderName Hm. rewrite Hlog. apply Declined_grow, Hfolders.
    by rewrite <- Hmap.
  - intros p Hp. rewrite Hskipped in Hp.
    destruct (Hpaths p Hp) as (file & Hin & Hc & -> & Hd).
    exists file. repeat split; try done. rewrite Hlog. by apply Declined_grow.
Qed.

Lemma folderDecided_SkipsDeclined (folderName : string) (existingFolder : bool)
    (st : State) :
  SkipsDeclined config projectInfo files st ->
  SkipsDeclined config projectInfo files (folderDecided folderName existingFolder st).
Proof.
  intros [Hfolders Hpaths].
  pose proof (folderDecided_logged folderName existingFolder st) as Hlog.
  pose proof (folderDecided_rest folderName existingFolder st) as (_ & _ & _ & Hs).
  unfold logged in Hlog. split.
  - intros other Hm. destruct (decide (other = folderName)) as [->|Hne].
    + rewrite folderDecided_entry in Hm. injection Hm as Hm.
      destruct existingFolder; [|done].
      destruct (folderSkipped st !! folderName) as [skipped|] eqn:Hold.
      * subst skipped. rewrite Hlog. by apply Declined_grow, Hfolders.
      * apply negb_true_iff in Hm.
        assert (Hno : confirm (log (emit SpinnerStop st)) (FolderExists folderName)
                      = false) by exact Hm.
        rewrite Hlog. unfold folderEvents.
        rewrite Hold, bool_decide_eq_true_2 by done. cbn [andb]. rewrite Hno.
        exists (log st ++ [SpinnerStop])%list, [SpinnerStart]. split.
        -- by rewrite <- app_assoc.
        -- exact Hno.
    + rewrite folderDecided_others in Hm by done.
      rewrite Hlog. by apply Declined_grow, Hfolders.
  - intros p Hp. rewrite Hs in Hp.
    destruct (Hpaths p Hp) as (file & Hin & Hc & -> & Hd).
    exists file. repeat split; try done. rewrite Hlog. by apply Declined_grow.
Qed.

Lemma pushSkipped_SkipsDeclined (st : State) (file : File.t) :
  SkipsDeclined config projectInfo files st ->
  file ∈ files -> hasContent file = true ->
  Declined (log st) (questionOf config projectInfo file) ->
  SkipsDeclined config projectInfo files (pushSkipped (relOf config projectInfo file) st).
Proof.
  intros [Hfolders Hpaths] Hin Hc Hd. split; [exact Hfolders|].
  intros p Hp. simpl in Hp. unfold Js.push in Hp.
  apply elem_of_app in Hp as [Hp|Hp%list_elem_of_singleton]; [by apply Hpaths|].
  subst p. by exists file.
Qed.

Lemma updateFile_SkipsDeclined (st st' : State) (file : File.t) :
  file ∈ files ->
  SkipsDeclined config projectInfo files st ->
  updateFile options config projectInfo baseColor st file = Some st' ->
  SkipsDeclined config projectInfo files st'.
Proof.
  intros Hin Hinv Hrun. apply updateFile_cases in Hrun. cbv zeta in Hrun.
  fold (filePathOf config projectInfo file) (targetDirOf config projectInfo file) in Hrun.
  fold (relOf config projectInfo file) (folderOf config projectInfo file) in Hrun.
  assert (Hwritten : forall fp td ex a,
    SkipsDeclined config projectInfo files a ->
    Written config baseColor file fp td ex a st' ->
    SkipsDeclined config projectInfo files st').
  { intros fp td ex a Ha Hw.
    destruct Hw as (d1 & content & _ & _ & _ & Hlog & Hmap & _ & _ & Hs).
    by eapply SkipsDeclined_grow. }
  set (question := FileExists (basename (File.path file))) in *.
  set (answer := confirm (log (emit SpinnerStop st)) question) in *.
  assert (Hasked : SkipsDeclined config projectInfo files
                     (emit (Asked question answer) (emit SpinnerStop st))).
  { eapply (SkipsDeclined_grow st _ [SpinnerStop; Asked question answer]); try done.
    unfold logged, emit, Js.push. simpl. by rewrite <- app_assoc. }
  destruct Hrun as [(_ & ->)|[(Hc & Hui & Hm & ->)|[(_ & _ & _ & Hw)|[(Hc & Hui & Ha & ->)
                   |(_ & _ & [Hw|Hw])]]]].
  - done.
  - pose proof (folderDecided_SkipsDeclined (folderOf config projectInfo file)
                  (existsSync (onDisk st) (dirname (filePathOf config projectInfo file)))
                  st Hinv) as Hdec.
    apply pushSkipped_SkipsDeclined; try done.
    unfold questionOf. rewrite decide_True by done.
    by apply (proj1 Hdec).
  - eapply Hwritten; [|exact Hw]. by apply folderDecided_SkipsDeclined.
  - apply pushSkipped_SkipsDeclined; try done.
    unfold questionOf. rewrite decide_False by done. fold question.
    exists (log (emit SpinnerStop st)), []. split; [|exact Ha].
    rewrite Ha. by unfold emit, Js.push.
  - eapply Hwritten; [exact Hinv | exact Hw].
  - eapply Hwritten; [|exact Hw].
    eapply (SkipsDeclined_grow _ _ [SpinnerStart]); [exact Hasked|..]; done.
Qed.

End Declining.

(** X15. Nothing is skipped without the word of the user. Every path
    reported as skipped is the destination of a file of the list that
    has content, and the user declined the question that decides
    about it: the one about its folder for a ui file, the one about
    the file otherwise. So with a user who accepts every overwrite
    nothing is skipped. *)
Theorem skipped_was_declined (files : list File.t) (config : Config) (options : Options)
    (d : disk) (final : State) (projectInfo : ProjectInfo) :
  updateFiles (Some files) config options d = Some final ->
  getProjectInfo (resolvedPaths_cwd config) = Some projectInfo ->
  (forall p, p ∈ filesSkipped final ->
     exists file, file ∈ files /\ hasContent file = true
       /\ p = relOf config projectInfo file
       /\ Declined (log final) (questionOf config projectInfo file))
  /\ ((forall l q, confirm l q = true) -> filesSkipped final = []).
Proof.
  intros Hrun Hinfo.
  assert (Hall : forall p, p ∈ filesSkipped final ->
     exists file, file ∈ files /\ hasContent file = true
       /\ p = relOf config projectInfo file
       /\ Declined (log final) (questionOf config projectInfo file)).
  { destruct files as [|f files].
    { injection Hrun as <-. simpl. by intros p Hp%elem_of_nil. }
    apply updateFiles_run in Hrun as (pi & bc & st & Hpi & _ & Hloop & ->); [|done].
    rewrite Hinfo in Hpi. injection Hpi as <-.
    assert (Hinv : SkipsDeclined config projectInfo (f :: files) st).
    { eapply (forOf_invariant_in (SkipsDeclined config projectInfo (f :: files)));
        [|..|exact Hloop].
      - intros s x s' Hx Hs Hstep. by eapply updateFile_SkipsDeclined.
      - split; [by intros folderName Hm | by intros p Hp%elem_of_nil]. }
    destruct (report_rest (withDefaults options) st)
      as (_ & _ & _ & -> & _ & es & -> & _).
    intros p Hp. destruct (proj2 Hinv p Hp) as (file & Hin & Hc & -> & Hd).
    exists file. repeat split; try done. by apply Declined_grow. }
  split; [exact Hall|]. intros Hyes.
  destruct (filesSkipped final) as [|p rest] eqn:Hskipped; [done|].
  destruct (Hall p) as (file & _ & _ & _ & l1 & l2 & _ & Hno); [by left|].
  by rewrite Hyes in Hno.
Qed.

(** *** An install that overwrites *)

Lemma updateFile_overwrite (options : Options) (config : Config)
    (projectInfo : ProjectInfo) (baseColor : BaseColor) (st st' : State)
    (file : File.t) :
  isTrue (overwrite options) = true ->
  hasContent file = true -> File.type file <> registry_ui ->
  updateFile options config projectInfo baseColor st file = Some st' ->
  Written config baseColor file (filePathOf config projectInfo file)
          (targetDirOf config projectInfo file)
          (existsSync (onDisk st) (filePathOf config projectInfo file)) st st'.
Proof.
  unfold hasContent. intros Hover Hc Hui Hrun.
  rewrite updateFile_unfold, Hc in Hrun. cbv zeta in Hrun. cbn [negb] in Hrun.
  rewrite decide_False, Hover, andb_false_r in Hrun by done.
  by apply writeOut_Written in Hrun.
Qed.

Lemma updateEach_overwrite (options : Options) (config : Config)
    (projectInfo : ProjectInfo) (baseColor : BaseColor) (files : list File.t)
    (st st' : State) :
  isTrue (overwrite options) = true ->
  Forall (fun f => hasContent f = true -> File.type f <> registry_ui) files ->
  updateEach options config projectInfo baseColor files st = Some st' ->
  filesSkipped st' = filesSkipped st
  /\ exists es, logged st st' es
       /\ Forall (fun e => isAsked e = false) es
       /\ writtenPaths es
          = filePathOf config projectInfo <$> filter (fun f => hasContent f = true) files.
Proof.
  intros Hover Hall. unfold updateEach. revert st.
  induction Hall as [|f files Hf _ IH]; intros st; cbn [forOf].
  - intros [= <-]. split; [done|]. exists []. split; [apply logged_refl | done].
  - destruct (updateFile _ _ _ _ st f) as [st1|] eqn:Hstep; simpl; [|done].
    intros Hrest. destruct (IH st1 Hrest) as (Hs & es & Hlog & Hes & Hpaths).
    destruct (hasContent f) eqn:Hc.
    + rewrite filter_cons_True by done.
      apply updateFile_overwrite in Hstep; [|done..|by apply Hf].
      pose proof (Written_logged _ _ _ _ _ _ _ _ Hstep) as (es1 & Hlog1 & Hes1).
      destruct Hstep as (d1 & content & _ & _ & _ & Hlog1' & _ & _ & _ & Hs1).
      split; [by rewrite Hs, Hs1|]. exists (es1 ++ es)%list.
      split; [by eapply logged_trans|]. split.
      * apply Forall_app. split; [|done].
        eapply Forall_impl; [exact Hes1|]. by intros e [_ He].
      * rewrite writtenPaths_app, Hpaths. cbn [fmap list_fmap]. f_equal.
        unfold logged in Hlog1. rewrite Hlog1 in Hlog1'.
        apply app_inv_head in Hlog1'. rewrite Hlog1'.
        by destruct (existsSync (onDisk st) _).
    + rewrite filter_cons_False by (by rewrite Hc).
      apply updateFile_lists in Hstep as [(_ & ->)|(Hc' & _)]; [|congruence].
      split; [done|]. by exists es.
Qed.

(** X16. With [overwrite: true] and no ui file among the files with
    content the user is asked nothing, nothing is skipped, and the
    files written are the files with content, each at its destination
    and in the order of the list. *)
Theorem overwrite_asks_nothing (files : list File.t) (config : Config)
    (options : Options) (d : disk) (final : State) (projectInfo : ProjectInfo) :
  overwrite options = Some true ->
  Forall (fun f => hasContent f = true -> File.type f <> registry_ui) files ->
  updateFiles (Some files) config options d = Some final ->
  getProjectInfo (resolvedPaths_cwd config) = Some projectInfo ->
  filesSkipped final = []
  /\ Forall (fun e => isAsked e = false) (log final)
  /\ writtenPaths (log final)
     = filePathOf config projectInfo <$> filter (fun f => hasContent f = true) files.
Proof.
  intros Hover Hall Hrun Hinfo. destruct files as [|f files].
  { injection Hrun as <-. by repeat split. }
  apply updateFiles_run in Hrun as (pi & bc & st & Hpi & _ & Hloop & ->); [|done].
  rewrite Hinfo in Hpi. injection Hpi as <-.
  apply updateEach_overwrite in Hloop as (Hs & es & Hlog & Hes & Hpaths);
    [| by unfold withDefaults; simpl; rewrite Hover | done].
  destruct (report_rest (withDefaults options) st)
    as (_ & _ & _ & -> & _ & es' & -> & Hes' & Hnone).
  unfold logged in Hlog. rewrite Hlog.
  change (log (emit SpinnerStart (start d))) with [SpinnerStart].
  split; [by rewrite Hs|]. split.
  - apply Forall_app; split; [apply Forall_app; split|];
      [by repeat constructor | done | done].
  - rewrite !writtenPaths_app, Hnone, Hpaths. simpl. by rewrite app_nil_r.
Qed.

(** *** Files that cannot be transformed *)

Lemma updateEach_skipped_stay (options : Options) (config : Config)
    (projectInfo : ProjectInfo) (baseColor : BaseColor) (files : list File.t)
    (st st' : State) (p : string) :
  updateEach options config projectInfo baseColor files st = Some st' ->
  p ∈ filesSkipped st -> p ∈ filesSkipped st'.
Proof.
  intros Hloop Hp.
  eapply (forOf_invariant (fun s => p ∈ filesSkipped s)); [|exact Hp|exact Hloop].
  intros s x s' Hs Hstep.
  apply updateFile_lists in Hstep
    as [(_ & ->)|(_ & es & _ & _ & _ & [(_ & _ & -> & _)|(-> & _)])]; try done.
  unfold Js.push. apply elem_of_app. by left.
Qed.

(** X19. A file that the transformers reject is never written: when
    the install comes to an end, such a file was skipped. *)
Theorem rejected_file_was_skipped (files : list File.t) (config : Config)
    (options : Options) (d : disk) (final : State) (projectInfo : ProjectInfo)
    (baseColor : BaseColor) (file : File.t) :
  updateFiles (Some files) config options d = Some final ->
  getProjectInfo (resolvedPaths_cwd config) = Some projectInfo ->
  getRegistryBaseColor (tailwind_baseColor config) = Some baseColor ->
  file ∈ files -> hasContent file = true ->
  transform (File.path file) (default "" (File.content file)) config baseColor = None ->
  relOf config projectInfo file ∈ filesSkipped final.
Proof.
  intros Hrun Hinfo Hcolor Hin Hc Hnone.
  apply updateFiles_run in Hrun as (pi & bc & st & Hpi & Hbc & Hloop & ->);
    [|by intros ->; apply elem_of_nil in Hin].
  rewrite Hinfo in Hpi. injection Hpi as <-. rewrite Hcolor in Hbc. injection Hbc as <-.
  destruct (report_rest (withDefaults options) st) as (_ & _ & _ & -> & _).
  apply list_elem_of_split in Hin as (before & after & ->).
  unfold updateEach in Hloop. rewrite forOf_app in Hloop.
  destruct (forOf _ before _) as [st1|]; simpl in Hloop; [|done].
  destruct (updateFile _ _ _ _ st1 file) as [st2|] eqn:Hstep; simpl in Hloop; [|done].
  eapply updateEach_skipped_stay; [exact Hloop|].
  apply updateFile_lists in Hstep
    as [(Hc' & _)|(_ & es & _ & _ & _ & [(_ & _ & -> & _)|(_ & _ & Hsome & _)])].
  - congruence.
  - unfold Js.push. apply elem_of_app. right. by apply list_elem_of_singleton.
  - rewrite Hnone in Hsome. by destruct Hsome.
Qed.

(** *** The disk *)

(** X20. An install removes nothing: what exists before it exists
    after it. And an install that reports no file as created or
    updated wrote nothing and left the disk as it was. *)
Theorem disk_only_grows (files : option (list File.t)) (config : Config)
    (options : Options) (d : disk) (final : State) :
  updateFiles files config options d = Some final ->
  (forall p, existsSync d p = true -> existsSync (onDisk final) p = true)
  /\ (filesCreated final = [] -> filesUpdated final = [] ->
      onDisk final = d /\ writtenPaths (log final) = []).
Proof.
  intros Hrun.
  assert (Hstart : files = None \/ files = Some [] -> final = start d).
  { intros [-> | ->]; by injection Hrun as <-. }
  destruct files as [[|f files]|]; [rewrite Hstart by auto; by repeat split| |
                                    rewrite Hstart by auto; by repeat split].
  apply updateFiles_run in Hrun as (pi & bc & st & _ & _ & Hloop & ->); [|done].
  destruct (report_rest (withDefaults options) st)
    as (-> & -> & -> & _ & _ & es & -> & _ & Hnone).
  split.
  - intros p Hp. by eapply updateEach_keeps.
  - intros Hc Hu. rewrite writtenPaths_app, Hnone, app_nil_r.
    revert Hc Hu.
    eapply (forOf_invariant
              (fun s => filesCreated s = [] -> filesUpdated s = [] ->
                        onDisk s = d /\ writtenPaths (log s) = []));
      [| |exact Hloop]; [|by intros _ _; split].
    intros s x s' Hs Hstep Hc Hu.
    apply updateFile_lists in Hstep
      as [(_ & ->)|(_ & es1 & Hlog & _ & _ & [(Hc1 & Hu1 & _ & Hw & Hd)|(_ & _ & _ & Hex)])].
    + by apply Hs.
    + rewrite Hc1 in Hc. rewrite Hu1 in Hu. destruct (Hs Hc Hu) as [Hd' Hw'].
      unfold logged in Hlog. rewrite Hd, Hlog, writtenPaths_app, Hw, Hw'. done.
    + exfalso. unfold Js.push in Hex.
      destruct (existsSync _ _); destruct Hex as [Hc1 Hu1].
      * rewrite Hu1 in Hu. by destruct (filesUpdated s).
      * rewrite Hc1 in Hc. by destruct (filesCreated s).
Qed.

(** *** The report *)

Lemma reportCreated_exact (options : Options) (st : State) :
  reportCreated options st
  = extend st
      (if negb (Nat.eqb (List.length (filesCreated st)) 0)
       then SpinnerSucceed
              ("Created " ++ Js.ofNat (List.length (filesCreated st)) ++ " "
               ++ fileOrFiles (List.length (filesCreated st)) ++ ":")
            :: pathLines options (filesCreated st)
       else [SpinnerStop]).
Proof.
  unfold reportCreated. destruct (negb (Nat.eqb (List.length (filesCreated st)) 0)).
  - cbv zeta. by rewrite logPaths_extend, emit_extend, extend_extend.
  - by rewrite emit_extend.
Qed.

Lemma reportUpdated_exact (options : Options) (st : State) :
  reportUpdated options st
  = extend st
      (if negb (Nat.eqb (List.length (filesUpdated st)) 0)
       then SpinnerInfo
              ("Updated " ++ Js.ofNat (List.length (filesUpdated st)) ++ " "
               ++ fileOrFiles (List.length (filesUpdated st)) ++ ":")
            :: pathLines options (filesUpdated st)
       else []).
Proof.
  unfold reportUpdated. destruct (negb (Nat.eqb (List.length (filesUpdated st)) 0)).
  - cbv zeta. by rewrite logPaths_extend, emit_extend, extend_extend.
  - by rewrite extend_nil.
Qed.

Lemma reportSkipped_exact (options : Options) (st : State) :
  reportSkipped options st
  = extend st
      (if negb (Nat.eqb (List.length (filesSkipped st)) 0)
       then SpinnerInfo
              ("Skipped " ++ Js.ofNat (List.length (filesSkipped st)) ++ " "
               ++ fileOrFiles (List.length (filesUpdated st)) ++ ":")
            :: pathLines options (filesSkipped st)
       else []).
Proof.
  unfold reportSkipped. destruct (negb (Nat.eqb (List.length (filesSkipped st)) 0)).
  - cbv zeta. by rewrite logPaths_extend, emit_extend, extend_extend.
  - by rewrite extend_nil.
Qed.

Lemma reportBreak_exact (options : Options) (st : State) :
  reportBreak options st
  = extend st (if negb (isTrue (silent options)) then [LoggerBreak] else []).
Proof.
  unfold reportBreak. destruct (negb (isTrue (silent options))).
  - by rewrite emit_extend.
  - by rewrite extend_nil.
Qed.

(** The lines of the report, in order. *)
Lemma report_exact (options : Options) (st : State) :
  log (report options st)
  = (log st
     ++ (if nothingDone st then [SpinnerInfo "No files updated."] else [])
     ++ (if negb (Nat.eqb (List.length (filesCreated st)) 0)
         then SpinnerSucceed
                ("Created " ++ Js.ofNat (List.length (filesCreated st)) ++ " "
                 ++ fileOrFiles (List.length (filesCreated st)) ++ ":")
              :: pathLines options (filesCreated st)
         else [SpinnerStop])
     ++ (if negb (Nat.eqb (List.length (filesUpdated st)) 0)
         then SpinnerInfo
                ("Updated " ++ Js.ofNat (List.length (filesUpdated st)) ++ " "
                 ++ fileOrFiles (List.length (filesUpdated st)) ++ ":")
              :: pathLines options (filesUpdated st)
         else [])
     ++ (if negb (Nat.eqb (List.length (filesSkipped st)) 0)
         then SpinnerInfo
                ("Skipped " ++ Js.ofNat (List.length (filesSkipped st)) ++ " "
                 ++ fileOrFiles (List.length (filesUpdated st)) ++ ":")
              :: pathLines options (filesSkipped st)
         else [])
     ++ (if negb (isTrue (silent options)) then [LoggerBreak] else []))%list.
Proof.
  unfold report.
  rewrite reportBreak_exact, reportSkipped_exact, reportUpdated_exact,
    reportCreated_exact, reportNothing_extend, !extend_extend.
  reflexivity.
Qed.

Lemma not_empty_length {A : Type} (l : list A) :
  negb (Nat.eqb (List.length l) 0) = true <-> l <> [].
Proof. by destruct l. Qed.

Lemma empty_length {A : Type} (l : list A) :
  negb (Nat.eqb (List.length l) 0) = false <-> l = [].
Proof. by destruct l. Qed.

Lemma pathLines_logger (options : Options) (paths : list string) (e : Event) :
  e ∈ pathLines options paths ->
  isTrue (silent options) = false /\ exists p, p ∈ paths /\ e = LoggerLog ("  - " ++ p).
Proof.
  unfold pathLines. destruct (isTrue (silent options)); simpl.
  - by intros ?%elem_of_nil.
  - intros (p & -> & Hp)%list_elem_of_fmap. split; [done|]. by exists p.
Qed.

Lemma updateEach_NoReport (options : Options) (config : Config)
    (projectInfo : ProjectInfo) (baseColor : BaseColor) (files : list File.t)
    (d : disk) (st : State) :
  updateEach options config projectInfo baseColor files (emit SpinnerStart (start d))
  = Some st ->
  NoReport st.
Proof.
  intros Hloop.
  eapply (forOf_invariant NoReport); [| |exact Hloop].
  - intros s x s' Hs Hx. by eapply updateFile_NoReport.
  - by repeat constructor.
Qed.

(** X17. A silent install sends nothing to the logger. An install
    that is not silent lists every path it reports, as a line of its
    own, and ends with an empty line. *)
Theorem silent_logs_nothing (files : list File.t) (config : Config)
    (options : Options) (d : disk) (final : State) :
  files <> [] ->
  updateFiles (Some files) config options d = Some final ->
  (silent options = Some true -> Forall (fun e => isLogger e = false) (log final))
  /\ (silent options <> Some true ->
      last (log final) = Some LoggerBreak
      /\ forall p,
           p ∈ (filesCreated final ++ filesUpdated final ++ filesSkipped final)%list ->
           LoggerLog ("  - " ++ p) ∈ log final).
Proof.
  intros Hne Hrun.
  apply updateFiles_run in Hrun as (pi & bc & st & _ & _ & Hloop & ->); [|done].
  apply updateEach_NoReport in Hloop.
  destruct (report_rest (withDefaults options) st) as (_ & -> & -> & -> & _).
  rewrite report_exact.
  assert (Hsilent : isTrue (silent (withDefaults options)) = default false (silent options))
    by done.
  split.
  - intros Hs. rewrite Hsilent, Hs. simpl. unfold pathLines.
    rewrite Hsilent, Hs. simpl.
    repeat (apply Forall_app; split).
    + eapply Forall_impl; [exact Hloop|]. by intros [].
    + destruct (nothingDone st); by repeat constructor.
    + destruct (negb _); by repeat constructor.
    + destruct (negb _); by repeat constructor.
    + destruct (negb _); by repeat constructor.
    + done.
  - intros Hs.
    assert (Hloud : isTrue (silent (withDefaults options)) = false).
    { rewrite Hsilent. by destruct (silent options) as [[|]|]. }
    rewrite Hloud. cbn [negb]. split.
    + rewrite !app_assoc. apply last_snoc.
    + intros p Hp. unfold pathLines. rewrite Hloud. cbn [negb].
      apply elem_of_app. right. apply elem_of_app. right.
      apply elem_of_app in Hp as [Hp|Hp]; [|apply elem_of_app in Hp as [Hp|Hp]].
      * apply elem_of_app. left.
        rewrite (proj2 (not_empty_length (filesCreated st)))
          by (intros Hnil; rewrite Hnil in Hp; by apply elem_of_nil in Hp).
        right. apply list_elem_of_fmap. by exists p.
      * apply elem_of_app. right. apply elem_of_app. left.
        rewrite (proj2 (not_empty_length (filesUpdated st)))
          by (intros Hnil; rewrite Hnil in Hp; by apply elem_of_nil in Hp).
        right. apply list_elem_of_fmap. by exists p.
      * apply elem_of_app. right. apply elem_of_app. right. apply elem_of_app. left.
        rewrite (proj2 (not_empty_length (filesSkipped st)))
          by (intros Hnil; rewrite Hnil in Hp; by apply elem_of_nil in Hp).
        right. apply list_elem_of_fmap. by exists p.
Qed.

(** X18. The lines on the spinner. Success is signalled exactly when a
    file was created, with the number of created files. An
    information line is one of three: [No files updated.] when
    nothing was created, updated or skipped; the number of updated
    files when there is one; the number of skipped files when there
    is one, where the noun [file] or [files] follows the number of
    updated files, not of skipped ones. *)
Theorem spinner_lines (files : list File.t) (config : Config) (options : Options)
    (d : disk) (final : State) (text : string) :
  files <> [] ->
  updateFiles (Some files) config options d = Some final ->
  (SpinnerSucceed text ∈ log final
   <-> filesCreated final <> []
       /\ text = "Created " ++ Js.ofNat (List.length (filesCreated final)) ++ " "
                 ++ fileOrFiles (List.length (filesCreated final)) ++ ":")
  /\ (SpinnerInfo text ∈ log final
      <-> (filesCreated final = [] /\ filesUpdated final = []
           /\ filesSkipped final = [] /\ text = "No files updated.")
          \/ (filesUpdated final <> []
              /\ text = "Updated " ++ Js.ofNat (List.length (filesUpdated final)) ++ " "
                        ++ fileOrFiles (List.length (filesUpdated final)) ++ ":")
          \/ (filesSkipped final <> []
              /\ text = "Skipped " ++ Js.ofNat (List.length (filesSkipped final)) ++ " "
                        ++ fileOrFiles (List.length (filesUpdated final)) ++ ":")).
Proof.
  intros Hne Hrun.
  apply updateFiles_run in Hrun as (pi & bc & st & _ & _ & Hloop & ->); [|done].
  apply updateEach_NoReport in Hloop. unfold NoReport in Hloop.
  rewrite Forall_forall in Hloop.
  destruct (report_rest (withDefaults options) st) as (_ & -> & -> & -> & _).
  rewrite report_exact.
  set (created := "Created " ++ _). set (updated := "Updated " ++ _).
  set (skipped := "Skipped " ++ _).
  assert (Hpaths : forall paths e,
    e ∈ pathLines (withDefaults options) paths -> isLogger e = true).
  { intros paths e (_ & p & _ & ->)%pathLines_logger. done. }
  assert (Hnothing : nothingDone st = true
                     <-> filesCreated st = [] /\ filesUpdated st = []
                         /\ filesSkipped st = []).
  { unfold nothingDone.
    destruct (filesCreated st), (filesUpdated st), (filesSkipped st); simpl;
      (split; [try done|]); intros (? & ? & ?); done. }
  split.
  - rewrite !elem_of_app. split.
    + intros [Hin|[Hin|[Hin|[Hin|[Hin|Hin]]]]].
      * by apply Hloop in Hin.
      * destruct (nothingDone st); [|by apply elem_of_nil in Hin].
        by apply list_elem_of_singleton in Hin.
      * destruct (negb (Nat.eqb (List.length (filesCreated st)) 0)) eqn:Hc.
        -- apply not_empty_length in Hc. split; [done|].
           apply elem_of_cons in Hin as [Hin|Hin]; [by injection Hin|].
           by apply Hpaths in Hin.
        -- by apply list_elem_of_singleton in Hin.
      * destruct (negb _); [|by apply elem_of_nil in Hin].
        apply elem_of_cons in Hin as [Hin|Hin]; [done | by apply Hpaths in Hin].
      * destruct (negb _); [|by apply elem_of_nil in Hin].
        apply elem_of_cons in Hin as [Hin|Hin]; [done | by apply Hpaths in Hin].
      * destruct (negb _); [|by apply elem_of_nil in Hin].
        by apply list_elem_of_singleton in Hin.
    + intros [Hc ->]. right; right; left.
      apply not_empty_length in Hc. rewrite Hc. by left.
  - rewrite !elem_of_app. split.
    + intros [Hin|[Hin|[Hin|[Hin|[Hin|Hin]]]]].
      * by apply Hloop in Hin.
      * destruct (nothingDone st) eqn:Hn; [|by apply elem_of_nil in Hin].
        apply list_elem_of_singleton in Hin. injection Hin as ->.
        left. destruct (proj1 Hnothing eq_refl) as (Hc & Hu & Hs). by repeat split.
      * destruct (negb _).
        -- apply elem_of_cons in Hin as [Hin|Hin]; [done | by apply Hpaths in Hin].
        -- by apply list_elem_of_singleton in Hin.
      * destruct (negb (Nat.eqb (List.length (filesUpdated st)) 0)) eqn:Hu;
          [|by apply elem_of_nil in Hin].
        apply not_empty_length in Hu. right; left. split; [done|].
        apply elem_of_cons in Hin as [Hin|Hin]; [by injection Hin|].
        by apply Hpaths in Hin.
      * destruct (negb (Nat.eqb (List.length (filesSkipped st)) 0)) eqn:Hs;
          [|by apply elem_of_nil in Hin].
        apply not_empty_length in Hs. right; right. split; [done|].
        apply elem_of_cons in Hin as [Hin|Hin]; [by injection Hin|].
        by apply Hpaths in Hin.
      * destruct (negb _); [|by apply elem_of_nil in Hin].
        by apply list_elem_of_singleton in Hin.
    + intros [(Hc & Hu & Hs & ->)|[[Hu ->]|[Hs ->]]].
      * right; left. rewrite (proj2 Hnothing) by done. by left.
      * right; right; right; left. apply not_empty_length in Hu. rewrite Hu. by left.
      * right; right; right; right; left.
        apply not_empty_length in Hs. rewrite Hs. by left.
Qed.

End Accounts.

(** ** A folder that is not there *)

Section NewFolder.
Context `{Pathe} `{Project} `{Disk} `{User}.
Variables (options : Options) (config : Config) (projectInfo : ProjectInfo)
          (baseColor : BaseColor).

Lemma askedFolders_none (folderName : string) (es : list Event) :
  Forall (fun e => isAskedFolder folderName e = false) es ->
  askedFolders folderName es = 0.
Proof.
  unfold askedFolders. induction 1 as [|e es He _ IH]; cbn [List.filter]; [done|].
  by rewrite He.
Qed.

Lemma folderEvents_other (folderName other : string) (existingFolder : bool)
    (st : State) :
  other <> folderName \/ is_Some (folderSkipped st !! other) ->
  askedFolders folderName (folderEvents other existingFolder st) = 0.
Proof.
  intros Hor. apply askedFolders_none. unfold folderEvents.
  destruct existingFolder; simpl; [|constructor].
  destruct (bool_decide_reflect (folderSkipped st !! other = None)) as [Hnone|_];
    [|constructor].
  destruct Hor as [Hne|[skipped Hsome]]; [|congruence].
  repeat constructor. simpl. by apply String.eqb_neq.
Qed.

Lemma Written_reported (file : File.t) (filePath targetDir : string)
    (existing : bool) (st st' : State) :
  Written config baseColor file filePath targetDir existing st st' ->
  relative (resolvedPaths_cwd config) filePath
  ∈ (filesCreated st' ++ filesUpdated st')%list.
Proof.
  intros (d1 & content & _ & _ & _ & _ & _ & Hc & Hu & _).
  apply elem_of_app. unfold Js.push in *. destruct existing.
  - right. rewrite Hu. apply elem_of_app. right. by apply list_elem_of_singleton.
  - left. rewrite Hc. apply elem_of_app. right. by apply list_elem_of_singleton.
Qed.

(** With the entry [false] for a folder name, a turn of the loop asks
    nothing about it, leaves the entry, and writes a ui file of that
    folder name. *)
Lemma updateFile_open (folderName : string) (st st' : State) (file : File.t) :
  folderSkipped st !! folderName = Some false ->
  updateFile options config projectInfo baseColor st file = Some st' ->
  folderSkipped st' !! folderName = Some false
  /\ askedFolders folderName (log st') = askedFolders folderName (log st)
  /\ (uiFileIn config projectInfo folderName file ->
      relOf config projectInfo file ∈ (filesCreated st' ++ filesUpdated st')%list).
Proof.
  intros Hm Hrun.
  pose proof (updateFile_entry_false options config projectInfo baseColor
                folderName st st' file Hm Hrun) as Hentry.
  split; [exact Hentry|].
  apply updateFile_cases in Hrun. cbv zeta in Hrun.
  fold (filePathOf config projectInfo file) (targetDirOf config projectInfo file) in Hrun.
  fold (relOf config projectInfo file) (folderOf config projectInfo file) in Hrun.
  set (existingFolder :=
         existsSync (onDisk st) (dirname (filePathOf config projectInfo file))) in *.
  pose proof (folderDecided_logged (folderOf config projectInfo file) existingFolder st)
    as Hdlog.
  assert (Hquiet : askedFolders folderName
                     (folderEvents (folderOf config projectInfo file) existingFolder st)
                   = 0).
  { apply folderEvents_other.
    destruct (decide (folderOf config projectInfo file = folderName)) as [->|Hne];
      [right; by rewrite Hm | by left]. }
  assert (Hdecided : askedFolders folderName
                       (log (folderDecided (folderOf config projectInfo file)
                               existingFolder st))
                     = askedFolders folderName (log st)).
  { unfold logged in Hdlog. rewrite Hdlog, askedFolders_app, Hquiet. lia. }
  assert (Hwritten : forall a fp td ex,
    askedFolders folderName (log a) = askedFolders folderName (log st) ->
    Written config baseColor file fp td ex a st' ->
    askedFolders folderName (log st') = askedFolders folderName (log st)).
  { intros a fp td ex Ha Hw.
    apply Written_logged in Hw as (es & Hlog & Hes). unfold logged in Hlog.
    rewrite Hlog, askedFolders_app, Ha, (askedFolders_none folderName es); [lia|].
    eapply Forall_impl; [exact Hes|]. intros e [_ He]. by destruct e. }
  destruct Hrun as [(Hc & ->)|[(Hc & Hui & Hs & ->)|[(Hc & Hui & _ & Hw)|[(Hc & Hui & _ & ->)
                   |(Hc & Hui & [Hw|Hw])]]]].
  - split; [done|]. intros (Hc' & _). congruence.
  - split; [exact Hdecided|]. intros (_ & _ & Hf). exfalso.
    rewrite <- Hf in Hm. rewrite folderDecided_entry, Hm in Hs.
    by destruct existingFolder.
  - split; [by eapply Hwritten; [exact Hdecided | exact Hw]|].
    intros _. by eapply Written_reported.
  - split; [|by intros (_ & Hui' & _)].
    simpl. unfold Js.push. by rewrite !askedFolders_app, !Nat.add_0_r.
  - split; [by eapply (Hwritten st); [reflexivity | exact Hw]|].
    by intros (_ & Hui' & _).
  - split; [|by intros (_ & Hui' & _)].
    eapply Hwritten; [|exact Hw].
    simpl. unfold Js.push. by rewrite !askedFolders_app, !Nat.add_0_r.
Qed.

Lemma updateFile_reported (st st' : State) (file : File.t) (p : string) :
  updateFile options config projectInfo baseColor st file = Some st' ->
  p ∈ (filesCreated st ++ filesUpdated st)%list ->
  p ∈ (filesCreated st' ++ filesUpdated st')%list.
Proof.
  intros Hrun Hp.
  apply updateFile_lists in Hrun
    as [(_ & ->)|(_ & es & _ & _ & _ & [(-> & -> & _)|(_ & _ & _ & Hex)])]; try done.
  unfold Js.push in Hex. rewrite !elem_of_app in *.
  destruct (existsSync _ _); destruct Hex as [-> ->]; rewrite ?elem_of_app; tauto.
Qed.

Lemma updateEach_open (folderName : string) (files : list File.t) (st st' : State) :
  folderSkipped st !! folderName = Some false ->
  updateEach options config projectInfo baseColor files st = Some st' ->
  folderSkipped st' !! folderName = Some false
  /\ askedFolders folderName (log st') = askedFolders folderName (log st)
  /\ (forall g, g ∈ files -> uiFileIn config projectInfo folderName g ->
        relOf config projectInfo g ∈ (filesCreated st' ++ filesUpdated st')%list).
Proof.
  unfold updateEach. revert st. induction files as [|f files IH]; intros st Hm; cbn [forOf].
  - intros [= <-]. repeat split; try done. by intros g Hg%elem_of_nil.
  - destruct (updateFile _ _ _ _ st f) as [st1|] eqn:Hstep; simpl; [|done].
    intros Hrest.
    destruct (updateFile_open folderName st st1 f Hm Hstep) as (Hm1 & Hq1 & Hf).
    destruct (IH st1 Hm1 Hrest) as (Hm' & Hq' & Hall).
    split; [done|]. split; [by rewrite Hq'|].
    intros g Hg Hui. apply elem_of_cons in Hg as [Heq|Hg]; [subst g|by apply Hall].
    eapply (forOf_invariant
              (fun s => relOf config projectInfo f
                        ∈ (filesCreated s ++ filesUpdated s)%list));
      [| |exact Hrest]; [|by apply Hf].
    intros s x s' Hs Hx. by eapply updateFile_reported.
Qed.

(** The entry of a missing folder is set before anything else. *)
Lemma updateFile_missing_folder (st : State) (file : File.t) :
  uiFileIn config projectInfo (folderOf config projectInfo file) file ->
  existsSync (onDisk st) (dirname (filePathOf config projectInfo file)) = false ->
  updateFile options config projectInfo baseColor st file
  = updateFile options config projectInfo baseColor
               (setFolderSkipped (folderOf config projectInfo file) false st) file.
Proof.
  intros (Hc & Hui & _) Hdir. rewrite !updateFile_unfold, Hc. cbv zeta. cbn [negb].
  destruct (decide (File.type file = registry_ui)) as [_|Hn]; [|done].
  fold (filePathOf config projectInfo file) (targetDirOf config projectInfo file)
       (folderOf config projectInfo file).
  change (onDisk (setFolderSkipped (folderOf config projectInfo file) false st))
    with (onDisk st).
  rewrite Hdir.
  assert (Hsame : folderDecided (folderOf config projectInfo file) false
                    (setFolderSkipped (folderOf config projectInfo file) false st)
                  = folderDecided (folderOf config projectInfo file) false st).
  { unfold folderDecided. cbn [negb]. simpl. rewrite !lookup_insert_eq.
    apply State_eq; simpl; try done. by rewrite insert_insert_eq. }
  by rewrite Hsame.
Qed.

(** X21. A ui file whose destination folder is not there is written
    without a question, whatever was answered about a folder of that
    name before; and for the rest of the install nothing is asked
    about that folder name, and every ui file with that folder name
    is written, as a created or an updated file. *)
Theorem missing_folder_not_asked (st final : State) (file : File.t)
    (rest : list File.t) :
  uiFileIn config projectInfo (folderOf config projectInfo file) file ->
  existsSync (onDisk st) (dirname (filePathOf config projectInfo file)) = false ->
  updateEach options config projectInfo baseColor (file :: rest) st = Some final ->
  folderSkipped final !! folderOf config projectInfo file = Some false
  /\ askedFolders (folderOf config projectInfo file) (log final)
     = askedFolders (folderOf config projectInfo file) (log st)
  /\ (forall g, g ∈ file :: rest ->
        uiFileIn config projectInfo (folderOf config projectInfo file) g ->
        relOf config projectInfo g ∈ (filesCreated final ++ filesUpdated final)%list).
Proof.
  intros Hui Hdir Hrun. unfold updateEach in Hrun. cbn [forOf] in Hrun.
  rewrite updateFile_missing_folder in Hrun by done.
  apply (updateEach_open (folderOf config projectInfo file) (file :: rest)
           (setFolderSkipped (folderOf config projectInfo file) false st) final);
    [|exact Hrun].
  simpl. by rewrite lookup_insert_eq.
Qed.

End NewFolder.

Lemma missing_folder_not_asked_witness :
  let final := default buttonStart
    (@updateEach (Posix.pathe "/") (Plain.project true) Paths.disk (Plain.user [])
       noOptions projConfig true tt [buttonY; buttonZ] buttonStart) in
  folderSkipped final !! "button" = Some false
  /\ askedFolders "button" (log final) = askedFolders "button" (log buttonStart)
  /\ (forall g, g ∈ [buttonY; buttonZ] ->
        @uiFileIn (Posix.pathe "/") (Plain.project true) projConfig true "button" g ->
        @relOf (Posix.pathe "/") (Plain.project true) projConfig true g
        ∈ (filesCreated final ++ filesUpdated final)%list).
Proof.
  intros final.
  apply (@missing_folder_not_asked (Posix.pathe "/") (Plain.project true) Paths.disk
           (Plain.user []) noOptions projConfig true tt buttonStart final buttonY
           [buttonZ]).
  - repeat split.
  - vm_compute. reflexivity.
  - vm_compute. reflexivity.
Defined.

Lemma updateFiles_accounts_witness :
  (filesCreated mixedFinal ++ filesUpdated mixedFinal ++ filesSkipped mixedFinal)%list
    ≡ₚ (@relOf (Posix.pathe "/") (Plain.project true) projConfig true
          <$> filter (fun f => hasContent f = true) mixedFiles)
  /\ (Posix.relative "/proj" <$> writtenPaths (log mixedFinal))
      ≡ₚ (filesCreated mixedFinal ++ filesUpdated mixedFinal)%list
  /\ List.length (List.filter isAsked (log mixedFinal))
      <= List.length (filter (fun f => hasContent f = true) mixedFiles).
Proof.
  apply (@updateFiles_accounts (Posix.pathe "/") (Plain.project true) Paths.disk
           (Plain.user [true]) mixedFiles projConfig noOptions buttonDisk mixedFinal true);
    vm_compute; reflexivity.
Defined.

Lemma skipped_was_declined_witness :
  (exists file,
     file ∈ mixedFiles /\ hasContent file = true
     /\ "components/Chart.vue"
        = @relOf (Posix.pathe "/") (Plain.project true) projConfig true file
     /\ @Declined (Plain.user [true]) (log mixedFinal)
          (@questionOf (Posix.pathe "/") (Plain.project true) projConfig true file))
  /\ filesSkipped
       (default buttonStart
          (@updateFiles (Posix.pathe "/") (Plain.project true) Paths.disk agreeing
             (Some mixedFiles) projConfig noOptions buttonDisk))
     = [].
Proof.
  split.
  - apply (proj1 (@skipped_was_declined (Posix.pathe "/") (Plain.project true) Paths.disk
                    (Plain.user [true]) mixedFiles projConfig noOptions buttonDisk
                    mixedFinal true
                    ltac:(vm_compute; reflexivity) ltac:(vm_compute; reflexivity))).
    vm_compute. by left.
  - apply (proj2 (@skipped_was_declined (Posix.pathe "/") (Plain.project true) Paths.disk
                    agreeing mixedFiles projConfig noOptions buttonDisk _ true
                    ltac:(vm_compute; reflexivity) ltac:(vm_compute; reflexivity))).
    intros l q. reflexivity.
Defined.

Lemma overwrite_asks_nothing_witness :
  let final :=
    default buttonStart
      (@updateFiles (Posix.pathe "/") (Plain.project true) Paths.disk (Plain.user [])
         (Some [chartFile; emptyFile; dashboardPage]) projConfig overwriteAll buttonDisk) in
  filesSkipped final = []
  /\ Forall (fun e => isAsked e = false) (log final)
  /\ writtenPaths (log final)
     = (@filePathOf (Posix.pathe "/") (Plain.project true) projConfig true
          <$> filter (fun f => hasContent f = true) [chartFile; emptyFile; dashboardPage]).
Proof.
  intros final.
  apply (@overwrite_asks_nothing (Posix.pathe "/") (Plain.project true) Paths.disk
           (Plain.user []) [chartFile; emptyFile; dashboardPage] projConfig overwriteAll
           buttonDisk final true).
  - reflexivity.
  - repeat constructor; intros Hc; vm_compute in Hc; discriminate.
  - vm_compute. reflexivity.
  - reflexivity.
Defined.

Lemma silent_logs_nothing_witness :
  Forall (fun e => isLogger e = false)
    (log (default buttonStart
            (@updateFiles (Posix.pathe "/") (Plain.project true) Paths.disk
               (Plain.user [true]) (Some mixedFiles) projConfig silentOptions buttonDisk)))
  /\ last (log mixedFinal) = Some LoggerBreak
  /\ forall p,
       p ∈ (filesCreated mixedFinal ++ filesUpdated mixedFinal
            ++ filesSkipped mixedFinal)%list ->
       LoggerLog ("  - " ++ p) ∈ log mixedFinal.
Proof.
  split.
  - apply (proj1 (@silent_logs_nothing (Posix.pathe "/") (Plain.project true) Paths.disk
                    (Plain.user [true]) mixedFiles projConfig silentOptions buttonDisk _
                    ltac:(discriminate) ltac:(vm_compute; reflexivity))).
    reflexivity.
  - apply (proj2 (@silent_logs_nothing (Posix.pathe "/") (Plain.project true) Paths.disk
                    (Plain.user [true]) mixedFiles projConfig noOptions buttonDisk
                    mixedFinal
                    ltac:(discriminate) ltac:(vm_compute; reflexivity))).
    discriminate.
Defined.

Lemma spinner_lines_witness :
  SpinnerInfo "Skipped 1 files:" ∈ log (default buttonStart declinedInstall)
  /\ SpinnerSucceed "Created 2 files:" ∈ log (default buttonStart declinedInstall).
Proof.
  split.
  - apply (proj2 (@spinner_lines (Posix.pathe "/") (Plain.project true) Paths.disk
                    (Plain.user []) [buttonX; buttonY; buttonZ] projConfig noOptions
                    buttonDisk (default buttonStart declinedInstall) "Skipped 1 files:"
                    ltac:(discriminate) ltac:(vm_compute; reflexivity))).
    right; right. split; vm_compute; [discriminate | reflexivity].
  - apply (proj1 (@spinner_lines (Posix.pathe "/") (Plain.project true) Paths.disk
                    (Plain.user []) [buttonX; buttonY; buttonZ] projConfig noOptions
                    buttonDisk (default buttonStart declinedInstall) "Created 2 files:"
                    ltac:(discriminate) ltac:(vm_compute; reflexivity))).
    split; vm_compute; [discriminate | reflexivity].
Defined.

Lemma rejected_file_was_skipped_witness :
  @relOf (Posix.pathe "/") strictProject projConfig true brokenFile
  ∈ filesSkipped
      (default buttonStart
         (@updateFiles (Posix.pathe "/") strictProject Paths.disk (Plain.user [])
            (Some [brokenFile; buttonY]) projConfig noOptions buttonDisk)).
Proof.
  apply (@rejected_file_was_skipped (Posix.pathe "/") strictProject Paths.disk
           (Plain.user []) [brokenFile; buttonY] projConfig noOptions buttonDisk _
           true tt brokenFile).
  - vm_compute. reflexivity.
  - reflexivity.
  - reflexivity.
  - by left.
  - reflexivity.
  - reflexivity.
Defined.

Lemma disk_only_grows_witness :
  @existsSync Paths.disk (onDisk mixedFinal) "/proj/a/button/x.vue" = true
  /\ onDisk (default buttonStart
               (@updateFiles (Posix.pathe "/") (Plain.project true) Paths.disk
                  (Plain.user []) (Some [buttonX]) projConfig noOptions buttonDisk))
     = buttonDisk.
Proof.
  split.
  - apply (proj1 (@disk_only_grows (Posix.pathe "/") (Plain.project true) Paths.disk
                    (Plain.user [true]) (Some mixedFiles) projConfig noOptions buttonDisk
                    mixedFinal ltac:(vm_compute; reflexivity))).
    vm_compute. reflexivity.
  - apply (proj2 (@disk_only_grows (Posix.pathe "/") (Plain.project true) Paths.disk
                    (Plain.user []) (Some [buttonX]) projConfig noOptions buttonDisk _
                    ltac:(vm_compute; reflexivity)));
      vm_compute; reflexivity.
Defined.

(** ** The question about a folder *)

Section FolderQuestion.
Context `{Pathe} `{Project} `{Disk} `{User}.

Lemma updateEach_reported (options : Options) (config : Config)
    (projectInfo : ProjectInfo) (baseColor : BaseColor) (files : list File.t)
    (st st' : State) (p : string) :
  forOf (updateFile options config projectInfo baseColor) files st = Some st' ->
  p ∈ (filesCreated st ++ filesUpdated st)%list ->
  p ∈ (filesCreated st' ++ filesUpdated st')%list.
Proof.
  intros Hloop Hp.
  eapply (forOf_invariant (fun s => p ∈ (filesCreated s ++ filesUpdated s)%list));
    [|exact Hp|exact Hloop].
  intros s x s' Hs Hx. by eapply updateFile_reported.
Qed.

Lemma Skipped_recorded (rel : string) (es : list Event) (st st' : State) :
  Skipped rel es st st' -> rel ∈ filesSkipped st'.
Proof.
  intros (_ & _ & _ & _ & ->). apply elem_of_app. right.
  by apply list_elem_of_singleton.
Qed.

Lemma pushSkipped_Skipped (rel : string) (st : State) :
  Skipped rel [] st (pushSkipped rel st).
Proof. unfold Skipped. simpl. by rewrite app_nil_r. Qed.

(** C1, as the code has it. In an install every folder name, the last
    segment of the destination directory of a ui file, is asked about
    at most once, however many files go to it. From the file at which
    the question is asked: when the answer is to overwrite, that file
    and every later ui file with content and that folder name is
    written, without a further question, and is among the created or
    updated files of the install; when the answer is not to, that file
    is recorded as skipped and not written (the disk and the lists of
    the created and the updated are as they were, and nothing but the
    question is logged), and so is every later ui file with content
    and that folder name, provided the directories these files go to
    exist when the question is asked; all of them are in the list of
    the skipped at the end. A ui file whose directory does not exist
    is written without a question whatever the entry of its folder
    name was, and leaves the entry at overwrite. *)
Theorem folder_asked_once (options : Options) (config : Config) :
  (forall files d final folderName,
     updateFiles files config options d = Some final ->
     askedFolders folderName (log final) <= 1)
  /\ (forall projectInfo baseColor st file rest final,
        let folderName := folderOf config projectInfo file in
        let overwrite := confirm (log (emit SpinnerStop st)) (FolderExists folderName) in
        let asked := answered folderName st in
        let run := updateEach options config projectInfo baseColor in
        let step := updateFile options config projectInfo baseColor in
        uiFileIn config projectInfo folderName file ->
        existsSync (onDisk st) (dirname (filePathOf config projectInfo file)) = true ->
        folderSkipped st !! folderName = None ->
        run (file :: rest) st = Some final ->
        log asked
        = (log st ++ [SpinnerStop; Asked (FolderExists folderName) overwrite;
                      SpinnerStart])%list
        /\ (overwrite = true ->
            (exists st1,
               step st file = Some st1
               /\ Written config baseColor file
                    (filePathOf config projectInfo file)
                    (targetDirOf config projectInfo file)
                    (existsSync (onDisk st) (filePathOf config projectInfo file))
                    asked st1)
            /\ relOf config projectInfo file
               ∈ (filesCreated final ++ filesUpdated final)%list
            /\ forall before g after,
                 rest = (before ++ g :: after)%list ->
                 uiFileIn config projectInfo folderName g ->
                 (exists t t',
                    run (file :: before) st = Some t
                    /\ step t g = Some t'
                    /\ Written config baseColor g
                         (filePathOf config projectInfo g)
                         (targetDirOf config projectInfo g)
                         (existsSync (onDisk t) (filePathOf config projectInfo g))
                         t t')
                 /\ relOf config projectInfo g
                    ∈ (filesCreated final ++ filesUpdated final)%list)
        /\ (overwrite = false ->
            (exists st1,
               step st file = Some st1
               /\ Skipped (relOf config projectInfo file)
                    [SpinnerStop; Asked (FolderExists folderName) false; SpinnerStart]
                    st st1)
            /\ relOf config projectInfo file ∈ filesSkipped final
            /\ (Forall (fun h =>
                          uiFileIn config projectInfo folderName h ->
                          existsSync (onDisk st)
                            (dirname (filePathOf config projectInfo h)) = true) rest ->
                forall before g after,
                  rest = (before ++ g :: after)%list ->
                  uiFileIn config projectInfo folderName g ->
                  (exists t t',
                     run (file :: before) st = Some t
                     /\ step t g = Some t'
                     /\ Skipped (relOf config projectInfo g) [] t t')
                  /\ relOf config projectInfo g ∈ filesSkipped final)))
  /\ (forall projectInfo baseColor st file st1,
        let folderName := folderOf config projectInfo file in
        uiFileIn config projectInfo folderName file ->
        existsSync (onDisk st) (dirname (filePathOf config projectInfo file)) = false ->
        updateFile options config projectInfo baseColor st file = Some st1 ->
        Written config baseColor file
          (filePathOf config projectInfo file)
          (targetDirOf config projectInfo file)
          (existsSync (onDisk st) (filePathOf config projectInfo file))
          (setFolderSkipped folderName false st) st1
        /\ folderSkipped st1 !! folderName = Some false).
Proof.
  split; [|split].
  - intros files d final folderName Hrun.
    assert (Hinv : AskedOnce final).
    { unfold updateFiles in Hrun. destruct files as [[|f files]|].
      - injection Hrun as <-. intros n. unfold askedFolders. simpl.
        rewrite lookup_empty. lia.
      - destruct (getProjectInfo _) as [projectInfo|]; simpl in Hrun; [|done].
        destruct (getRegistryBaseColor _) as [baseColor|]; simpl in Hrun; [|done].
        destruct (updateEach _ _ _ _ _ _) as [st|] eqn:Hloop; simpl in Hrun; [|done].
        injection Hrun as <-.
        assert (Hst : AskedOnce st).
        { eapply updateEach_AskedOnce; [|exact Hloop].
          intros n. unfold askedFolders. simpl. rewrite lookup_empty. lia. }
        destruct (report_extend (withDefaults options) st) as (es & -> & Hes).
        eapply (AskedOnce_grow st); [exact Hst | reflexivity | | done].
        apply Forall_app. split.
        + destruct (nothingDone st); by repeat constructor.
        + eapply Forall_impl; [exact Hes|]. intros e He n. by destruct e.
      - injection Hrun as <-. intros n. unfold askedFolders. simpl.
        rewrite lookup_empty. lia. }
    specialize (Hinv folderName). destruct (folderSkipped final !! folderName); lia.
  - intros projectInfo baseColor st file rest final folderName overwrite asked run step
           Hfile Hdir Hnone Hrun.
    assert (Hstep : step st file
      = if overwrite
        then writeOut config baseColor file (filePathOf config projectInfo file)
                      (targetDirOf config projectInfo file)
                      (existsSync (onDisk st) (filePathOf config projectInfo file))
                      asked
        else Some (pushSkipped (relOf config projectInfo file) asked)).
    { by apply updateFile_ui_asked. }
    assert (Hentry : folderSkipped asked !! folderName = Some (negb overwrite)).
    { unfold asked, answered. simpl. by rewrite lookup_insert_eq. }
    assert (Hdisk : onDisk asked = onDisk st) by done.
    assert (Hlog : log asked
      = (log st ++ [SpinnerStop; Asked (FolderExists folderName) overwrite;
                    SpinnerStart])%list).
    { unfold asked, answered, emit, Js.push. simpl. by rewrite <- !app_assoc. }
    unfold run, updateEach in Hrun. cbn [forOf] in Hrun.
    fold step in Hrun.
    destruct (step st file) as [st1|] eqn:Hst1; simpl in Hrun; [|done].
    split; [exact Hlog|split].
    + intros Hyes. rewrite Hyes in *. cbn [negb] in Hentry.
      symmetry in Hstep. apply writeOut_Written in Hstep.
      split; [by exists st1|]. split.
      { eapply updateEach_reported; [exact Hrun|]. by eapply Written_reported. }
      intros before g after -> Hg.
      rewrite forOf_app in Hrun.
      destruct (forOf step before st1) as [t|] eqn:Hbefore; simpl in Hrun; [|done].
      destruct (step t g) as [t'|] eqn:Hgstep; simpl in Hrun; [|done].
      assert (Hwritten : Written config baseColor g
                (filePathOf config projectInfo g) (targetDirOf config projectInfo g)
                (existsSync (onDisk t) (filePathOf config projectInfo g)) t t').
      { assert (Ht : folderSkipped t !! folderName = Some false).
        { eapply updateEach_entry_false; [|exact Hbefore].
          destruct Hstep as (_ & _ & _ & _ & _ & _ & -> & _). exact Hentry. }
        destruct Hg as (Hgc & Hgu & Hgn).
        unfold step in Hgstep.
        rewrite updateFile_ui_kept in Hgstep; [by apply writeOut_Written| |].
        - by repeat split.
        - by rewrite Hgn. }
      split.
      * exists t, t'. split; [|split; [done|exact Hwritten]].
        unfold run, updateEach. cbn [forOf]. fold step. by rewrite Hst1.
      * eapply updateEach_reported; [exact Hrun|]. by eapply Written_reported.
    + intros Hno. rewrite Hno in *. cbn [negb] in Hentry.
      injection Hstep as Hst1'. subst st1.
      assert (Hfirst : Skipped (relOf config projectInfo file)
                [SpinnerStop; Asked (FolderExists folderName) false; SpinnerStart]
                st (pushSkipped (relOf config projectInfo file) asked)).
      { unfold Skipped. split; [done|]. split; [exact Hlog|]. by repeat split. }
      split; [by eexists|]. split.
      { eapply updateEach_skipped_stay; [exact Hrun|]. by eapply Skipped_recorded. }
      intros Hall before g after -> Hg.
      rewrite forOf_app in Hrun.
      destruct (forOf step before _) as [t|] eqn:Hbefore; simpl in Hrun; [|done].
      apply Forall_app in Hall as [Hbef Hrest].
      apply Forall_cons in Hrest as [Hgdir _].
      destruct (updateEach_entry_true options config projectInfo baseColor folderName
                  before st (pushSkipped (relOf config projectInfo file) asked) t)
        as [Ht Hgrow]; try done.
      assert (Hgstep : step t g = Some (pushSkipped (relOf config projectInfo g) t)).
      { destruct Hg as (Hgc & Hgu & Hgn). unfold step.
        apply updateFile_ui_skipped.
        - by repeat split.
        - by rewrite Hgn.
        - apply Hgrow. apply Hgdir. by repeat split. }
      rewrite Hgstep in Hrun. simpl in Hrun. split.
      * exists t, (pushSkipped (relOf config projectInfo g) t).
        split; [|split; [exact Hgstep | apply pushSkipped_Skipped]].
        unfold run, updateEach. cbn [forOf]. fold step. by rewrite Hst1.
      * eapply updateEach_skipped_stay; [exact Hrun|].
        eapply Skipped_recorded, pushSkipped_Skipped.
  - intros projectInfo baseColor st file st1 folderName Hfile Hdir Hstep.
    rewrite updateFile_missing_folder in Hstep by done.
    rewrite updateFile_ui_kept in Hstep.
    + apply writeOut_Written in Hstep. split; [exact Hstep|].
      destruct Hstep as (_ & _ & _ & _ & _ & _ & -> & _).
      simpl. by rewrite lookup_insert_eq.
    + exact Hfile.
    + simpl. by rewrite lookup_insert_eq.
Qed.

End FolderQuestion.

Lemma folder_asked_once_witness :
  askedFolders "button" (log (default buttonStart declinedInstall)) <= 1
  /\ (exists st1,
        @updateFile (Posix.pathe "/") (Plain.project true) Paths.disk (Plain.user [])
          noOptions projConfig true tt buttonStart buttonX = Some st1
        /\ @Skipped Paths.disk "a/button/x.vue"
             [SpinnerStop; Asked (FolderExists "button") false; SpinnerStart]
             buttonStart st1)
  /\ "a/button/x.vue" ∈ filesSkipped (default buttonStart sameFolderInstall)
  /\ (exists t t',
        @updateEach (Posix.pathe "/") (Plain.project true) Paths.disk (Plain.user [])
          noOptions projConfig true tt [buttonX] buttonStart = Some t
        /\ @updateFile (Posix.pathe "/") (Plain.project true) Paths.disk (Plain.user [])
             noOptions projConfig true tt t buttonZ = Some t'
        /\ @Skipped Paths.disk "a/button/z.vue" [] t t')
  /\ "a/button/z.vue" ∈ filesSkipped (default buttonStart sameFolderInstall)
  /\ @Written (Posix.pathe "/") (Plain.project true) Paths.disk projConfig tt buttonY
       "/proj/b/button/y.vue" "/proj/b/button" false
       (setFolderSkipped "button" false declinedAtX) resetByY
  /\ folderSkipped declinedAtX !! "button" = Some true
  /\ folderSkipped resetByY !! "button" = Some false.
Proof.
  split.
  - apply (proj1 (@folder_asked_once (Posix.pathe "/") (Plain.project true) Paths.disk
                    (Plain.user []) noOptions projConfig)
                 (Some [buttonX; buttonY; buttonZ]) buttonDisk).
    vm_compute. reflexivity.
  - destruct (proj1 (proj2 (@folder_asked_once (Posix.pathe "/") (Plain.project true)
                              Paths.disk (Plain.user []) noOptions projConfig))
                    true tt buttonStart buttonX [buttonZ]
                    (default buttonStart sameFolderInstall))
      as (_ & _ & Hno).
    + split; [|split]; vm_compute; reflexivity.
    + vm_compute. reflexivity.
    + vm_compute. reflexivity.
    + vm_compute. reflexivity.
    + destruct (Hno ltac:(vm_compute; reflexivity)) as (Hx & Hxfinal & Hrest).
      split; [exact Hx|]. split; [exact Hxfinal|].
      destruct (Hrest ltac:(repeat constructor; intros _; vm_compute; reflexivity)
                      [] buttonZ [] eq_refl) as [Hz Hzfinal].
      { split; [|split]; vm_compute; reflexivity. }
      split; [exact Hz|]. split; [exact Hzfinal|].
      destruct (proj2 (proj2 (@folder_asked_once (Posix.pathe "/") (Plain.project true)
                                Paths.disk (Plain.user []) noOptions projConfig))
                      true tt declinedAtX buttonY resetByY) as [Hwritten Hentry].
      * split; [|split]; vm_compute; reflexivity.
      * vm_compute. reflexivity.
      * vm_compute. reflexivity.
      * split; [exact Hwritten|]. split; [vm_compute; reflexivity | exact Hentry].
Defined.

(** The claim C1 as stated fails: the question about the folder
    [button] is declined at [x], yet [z], which goes to the same
    folder [/proj/a/button], is written and not recorded as skipped,
    because [y], whose folder [/proj/b/button] has the same name and
    does not exist, has reset the cached decision. *)
Lemma declined_folder_written :
  log <$> declinedInstall
  = Some [ SpinnerStart; SpinnerStop; Asked (FolderExists "button") false;
           SpinnerStart; Mkdir "/proj/b/button";
           WriteFile "/proj/b/button/y.vue" "new y";
           WriteFile "/proj/a/button/z.vue" "new z";
           SpinnerSucceed "Created 2 files:";
           LoggerLog "  - b/button/y.vue"; LoggerLog "  - a/button/z.vue";
           SpinnerInfo "Skipped 1 files:"; LoggerLog "  - a/button/x.vue";
           LoggerBreak ]
  /\ filesSkipped <$> declinedInstall = Some ["a/button/x.vue"]
  /\ filesCreated <$> declinedInstall = Some ["b/button/y.vue"; "a/button/z.vue"]
  /\ @filePathOf (Posix.pathe "/") (Plain.project true) projConfig true buttonX
     = "/proj/a/button/x.vue"
  /\ @filePathOf (Posix.pathe "/") (Plain.project true) projConfig true buttonZ
     = "/proj/a/button/z.vue"
  /\ @folderOf (Posix.pathe "/") (Plain.project true) projConfig true buttonZ = "button".
Proof. repeat split; vm_compute; reflexivity. Qed.
